(** * hltv-demo-scraper: download engine, metadata collector and CLI exit policy

    A shallow embedding of [downloader.py], [metadata.py] and the batch part of
    [cli.py], with the properties of the specification stated over it.

    Conventions.
    - A Python [str] is a list of Unicode code points ([str := list N]); the
      literal ["abc"] of the source is written [u "abc"].
    - [bytes] are [list Byte.byte]; an [int] is a [Z].
    - Paths are [pathlib] paths of the POSIX flavour, held as their [parts].
    - Effects (HTTP client calls, file system, clock, log records, progress
      bar) are threaded through a state-and-exception monad over [World].
    - The file system is the map [fs] of the world; a path in it is one the
      system takes.  What Python or the operating system says of a path it
      does not take is [path_error]: [ValueError] for U+0000 in it, and the
      world's [refused] for the rest.
    - Third-party capabilities (the cloudscraper client, BeautifulSoup
      queries, [json], [datetime], the built-in [int()], [urljoin]) are the
      fields of the class [Externals]. *)

From stdpp Require Import gmap strings list.
From Stdlib Require Import ZArith NArith DecimalString.

Set Warnings "-register-all,-clear-no-such-hyp".
Open Scope Z_scope.

(* ===================================================================== *)
(** * Python strings *)
(* ===================================================================== *)

Module PyStr.

Definition str := list N.

(** An ASCII literal of the source. *)
Definition u (s : string) : str := map Stdlib.Strings.Ascii.N_of_ascii (Stdlib.Strings.String.list_ascii_of_string s).

Definition str_eqb (a b : str) : bool := bool_decide (a = b).

(** The double quote. *)
Definition DQUOTE : N := 34.

(** [str(n)] for an [int]. *)
Definition str_of_Z (n : Z) : str := u (NilZero.string_of_int (Z.to_int n)).

(** [c in s] for a one-character [c]. *)
Definition contains (c : N) (s : str) : bool := existsb (N.eqb c) s.

(** [s.startswith(p)]. *)
Fixpoint startswith (p s : str) : bool :=
  match p, s with
  | [], _ => true
  | a :: p', b :: s' => N.eqb a b && startswith p' s'
  | _ :: _, [] => false
  end.

(** [str.isspace] on one code point (the set [str.strip()] removes). *)
Definition is_space (c : N) : bool :=
  ((9 <=? c) && (c <=? 13) || (28 <=? c) && (c <=? 32)
   || (c =? 133) || (c =? 160) || (c =? 5760)
   || (8192 <=? c) && (c <=? 8202)
   || (c =? 8232) || (c =? 8233) || (c =? 8239) || (c =? 8287)
   || (c =? 12288))%N.

Fixpoint drop_while (p : N -> bool) (s : str) : str :=
  match s with
  | [] => []
  | c :: t => if p c then drop_while p t else s
  end.

Definition lstrip_by (p : N -> bool) (s : str) : str := drop_while p s.
Definition rstrip_by (p : N -> bool) (s : str) : str :=
  rev (drop_while p (rev s)).
Definition strip_by (p : N -> bool) (s : str) : str :=
  rstrip_by p (lstrip_by p s).

(** [s.strip()]. *)
Definition strip (s : str) : str := strip_by is_space s.
(** [s.strip(chars)]. *)
Definition strip_chars (chars : str) (s : str) : str :=
  strip_by (fun c => contains c chars) s.
(** [s.rstrip(chars)]. *)
Definition rstrip_chars (chars : str) (s : str) : str :=
  rstrip_by (fun c => contains c chars) s.

(** [str.lower] on one code point: exact below U+0100, which is all an HTTP
    header (decoded as ISO-8859-1) can hold; other code points are left as
    they are. *)
Definition lower_cp (c : N) : N :=
  (if (65 <=? c) && (c <=? 90) then c + 32
   else if (192 <=? c) && (c <=? 222) && negb (c =? 215) then c + 32
   else c)%N.
Definition lower (s : str) : str := map lower_cp s.

(** [s.split(sep)] for a one-character separator. *)
Fixpoint split_on (sep : N) (s : str) : list str :=
  match s with
  | [] => [[]]
  | c :: t =>
      if N.eqb c sep then [] :: split_on sep t
      else match split_on sep t with
           | h :: r => (c :: h) :: r
           | [] => [[c]]
           end
  end.

(** The two pieces of [s.split(sep, 1)] when [sep] occurs in [s]. *)
Fixpoint split1 (sep : N) (s : str) : str * str :=
  match s with
  | [] => ([], [])
  | c :: t =>
      if N.eqb c sep then ([], t)
      else let '(a, b) := split1 sep t in (c :: a, b)
  end.

(** [s.partition(sep)]: text before the first occurrence of [sep], the
    separator found (empty when there is none), the text after. *)
Fixpoint str_partition (sep : str) (s : str) : str * str * str :=
  if startswith sep s then ([], sep, drop (length sep) s)
  else match s with
       | [] => ([], [], [])
       | c :: t => let '(a, f, b) := str_partition sep t in (c :: a, f, b)
       end.

(** [sep.join(l)]. *)
Fixpoint join (sep : str) (l : list str) : str :=
  match l with
  | [] => []
  | [x] => x
  | x :: t => x ++ sep ++ join sep t
  end.

(** ** [urllib.parse.unquote] *)

Definition hex_val (c : N) : option N :=
  (if (48 <=? c) && (c <=? 57) then Some (c - 48)
   else if (65 <=? c) && (c <=? 70) then Some (c - 55)
   else if (97 <=? c) && (c <=? 102) then Some (c - 87)
   else None)%N.

(** One piece after a ['%']: two hex digits become a byte, anything else
    keeps its ['%']. *)
Definition unquote_item (item : list N) : list N :=
  match item with
  | a :: b :: rest =>
      match hex_val a, hex_val b with
      | Some x, Some y => (16 * x + y)%N :: rest
      | _, _ => 37%N :: item
      end
  | _ => 37%N :: item
  end.

(** [unquote_to_bytes] on an ASCII run. *)
Definition unquote_to_bytes (s : str) : list N :=
  match split_on 37 s with
  | [] => s
  | bit0 :: bits => bit0 ++ concat (map unquote_item bits)
  end.

Definition is_cont (b : N) : bool := ((128 <=? b) && (b <=? 191))%N.

Definition second_ok3 (b0 b1 : N) : bool :=
  (is_cont b1 && negb ((b0 =? 224) && (b1 <? 160))
   && negb ((b0 =? 237) && (160 <=? b1)))%N.

Definition second_ok4 (b0 b1 : N) : bool :=
  (is_cont b1 && negb ((b0 =? 240) && (b1 <? 144))
   && negb ((b0 =? 244) && (144 <=? b1)))%N.

Definition REPLACEMENT : N := 65533.

(** [bytes.decode("utf-8", "replace")]: a malformed sequence is replaced, up
    to the offending byte, by one U+FFFD. *)
Fixpoint utf8_decode (bs : list N) : str :=
  match bs with
  | [] => []
  | b0 :: r0 =>
      if (b0 <? 128)%N then b0 :: utf8_decode r0
      else if ((194 <=? b0) && (b0 <=? 223))%N then
        match r0 with
        | [] => [REPLACEMENT]
        | b1 :: r1 =>
            if is_cont b1
            then ((b0 - 192) * 64 + (b1 - 128))%N :: utf8_decode r1
            else REPLACEMENT :: utf8_decode r0
        end
      else if ((224 <=? b0) && (b0 <=? 239))%N then
        match r0 with
        | [] => [REPLACEMENT]
        | b1 :: r1 =>
            if second_ok3 b0 b1 then
              match r1 with
              | [] => [REPLACEMENT]
              | b2 :: r2 =>
                  if is_cont b2
                  then ((b0 - 224) * 4096 + (b1 - 128) * 64 + (b2 - 128))%N
                         :: utf8_decode r2
                  else REPLACEMENT :: utf8_decode r1
              end
            else REPLACEMENT :: utf8_decode r0
        end
      else if ((240 <=? b0) && (b0 <=? 244))%N then
        match r0 with
        | [] => [REPLACEMENT]
        | b1 :: r1 =>
            if second_ok4 b0 b1 then
              match r1 with
              | [] => [REPLACEMENT]
              | b2 :: r2 =>
                  if is_cont b2 then
                    match r2 with
                    | [] => [REPLACEMENT]
                    | b3 :: r3 =>
                        if is_cont b3
                        then ((b0 - 240) * 262144 + (b1 - 128) * 4096
                              + (b2 - 128) * 64 + (b3 - 128))%N
                               :: utf8_decode r3
                        else REPLACEMENT :: utf8_decode r2
                    end
                  else REPLACEMENT :: utf8_decode r1
              end
            else REPLACEMENT :: utf8_decode r0
        end
      else REPLACEMENT :: utf8_decode r0
  end.

(** The decoded text of the ASCII run collected (in reverse) in [run]. *)
Definition flush_run (run : list N) : str :=
  match run with
  | [] => []
  | _ => utf8_decode (unquote_to_bytes (rev run))
  end.

(** Maximal ASCII runs are percent-decoded, the text between them is kept. *)
Fixpoint unquote_parts (run : list N) (s : str) : str :=
  match s with
  | [] => flush_run run
  | c :: t =>
      if (c <? 128)%N then unquote_parts (c :: run) t
      else flush_run run ++ c :: unquote_parts [] t
  end.

Definition unquote (s : str) : str :=
  if negb (contains 37 s) then s else unquote_parts [] s.

#[global] Arguments u : simpl never.
#[global] Arguments str_of_Z : simpl never.

End PyStr.
Export PyStr.

(* ===================================================================== *)
(** * pathlib paths (POSIX flavour) *)
(* ===================================================================== *)

Module PyPath.

(** A path is its [parts]: for an absolute path the first one is the root. *)
Definition path := list str.

Definition SLASH : N := 47.

Definition is_root (s : str) : bool :=
  str_eqb s [SLASH] || str_eqb s [SLASH; SLASH].

(** The root of a path text: ["/"], ["//"] for exactly two leading slashes,
    none for a relative path. *)
Definition root_of (s : str) : list str :=
  match s with
  | a :: b :: c :: _ =>
      if N.eqb a SLASH then
        if N.eqb b SLASH && negb (N.eqb c SLASH) then [[SLASH; SLASH]]
        else [[SLASH]]
      else []
  | [a; b] =>
      if N.eqb a SLASH then
        if N.eqb b SLASH then [[SLASH; SLASH]] else [[SLASH]]
      else []
  | [a] => if N.eqb a SLASH then [[SLASH]] else []
  | [] => []
  end.

Definition is_component (x : str) : bool :=
  negb (str_eqb x []) && negb (str_eqb x (u ".")).

(** [Path(s)]: empty and ["."] components are dropped. *)
Definition Path (s : str) : path :=
  root_of s ++ filter (fun x => is_component x = true) (split_on SLASH s).

(** [p.name]: the final component, empty for a root or the empty path. *)
Definition name (p : path) : str :=
  match last p with
  | Some x => if is_root x then [] else x
  | None => []
  end.

(** [p.parent]. *)
Definition parent (p : path) : path :=
  match p with
  | [] => []
  | [x] => if is_root x then p else []
  | _ => removelast p
  end.

(** [p / s]: an absolute [s] replaces [p]. *)
Definition joinpath (p : path) (s : str) : path :=
  match root_of s with
  | [] => p ++ Path s
  | _ => Path s
  end.

(** [str(p)]. *)
Definition path_str (p : path) : str :=
  match p with
  | [] => u "."
  | r :: t => if is_root r then r ++ join [SLASH] t else join [SLASH] p
  end.

End PyPath.
Export PyPath.

(* ===================================================================== *)
(** * Exceptions, the world, and the monad of effects *)
(* ===================================================================== *)

Module Py.

Definition bytes := list Byte.byte.

(** The exception classes that occur.  [RequestException] stands for the
    whole [requests.exceptions] hierarchy (HTTP errors, connection errors,
    timeouts, broken streams); [OSError] for the file-system errors. *)
Inductive exn_class :=
  | RequestException | ValueError | JSONDecodeError | UnicodeError
  | OSError | AttributeError | TypeError | OverflowError
  | SystemExit      (** [raise SystemExit(message)] *)
  | UsageError.     (** [parser.error(message)]: [SystemExit(2)] *)

(** An exception with the text [str(exc)] gives. *)
Record exn := Exn { exn_cls : exn_class; exn_msg : str }.

(** [except RequestException]. *)
Definition is_RequestException (e : exn) : bool :=
  match exn_cls e with RequestException => true | _ => false end.
(** [except json.JSONDecodeError]. *)
Definition is_JSONDecodeError (e : exn) : bool :=
  match exn_cls e with JSONDecodeError => true | _ => false end.
(** [except ValueError], with its subclasses. *)
Definition is_ValueError (e : exn) : bool :=
  match exn_cls e with
  | ValueError | JSONDecodeError | UnicodeError => true
  | _ => false
  end.
(** [except Exception]: everything but [SystemExit]. *)
Definition is_Exception (e : exn) : bool :=
  match exn_cls e with SystemExit | UsageError => false | _ => true end.

Inductive node := Dir | File (content : bytes).

Inductive level := DEBUG | INFO | WARNING | ERROR.

(** What the progress bar is told. *)
Inductive progress_event :=
  | BarOpen (total : option Z)
  | BarUpdate (n : Z)
  | BarClose.

Record World := {
  fs : gmap path node;        (** the file system *)
  requests : list str;        (** URLs requested so far, oldest first *)
  clock : nat;                (** clock readings taken so far *)
  log : list (level * str);   (** log records, oldest first *)
  progress : list progress_event;  (** progress-bar calls, oldest first *)
  refused : path -> option exn;
    (** the error with which the operating system turns a path down whatever
        the files present (a name too long, a name it cannot encode, a place
        that may not be written); none for a path it takes *)
}.

Definition set_fs (f : gmap path node) (w : World) : World :=
  {| fs := f; requests := requests w; clock := clock w;
     log := log w; progress := progress w; refused := refused w |}.

Inductive outcome (A : Type) :=
  | Return (a : A)
  | Raise (e : exn).
Arguments Return {A} a.
Arguments Raise {A} e.

Definition M (A : Type) : Type := World -> outcome A * World.

Definition ret {A} (a : A) : M A := fun w => (Return a, w).
Definition raise {A} (e : exn) : M A := fun w => (Raise e, w).
Definition bind {A B} (m : M A) (k : A -> M B) : M B :=
  fun w => match m w with
           | (Return a, w') => k a w'
           | (Raise e, w') => (Raise e, w')
           end.

(** [try: m  except <class> as e: handler e]. *)
Definition try_except {A} (m : M A) (catches : exn -> bool)
    (handler : exn -> M A) : M A :=
  fun w => match m w with
           | (Raise e, w') =>
               if catches e then handler e w' else (Raise e, w')
           | r => r
           end.

(** [try: m  finally: f]. *)
Definition try_finally {A} (m : M A) (f : M unit) : M A :=
  fun w => match m w with
           | (r, w') =>
               match f w' with
               | (Return _, w'') => (r, w'')
               | (Raise e, w'') => (Raise e, w'')
               end
           end.

Definition get_world : M World := fun w => (Return w, w).
Definition modify (f : World -> World) : M unit := fun w => (Return tt, f w).

Definition of_outcome {A} (o : outcome A) : M A := fun w => (o, w).

(** [for x in l: body x]. *)
Fixpoint for_each {A} (body : A -> M unit) (l : list A) : M unit :=
  match l with
  | [] => ret tt
  | x :: rest => bind (body x) (fun _ => for_each body rest)
  end.

End Py.
Export Py.

(** The monad is used through stdpp's notations: [x ← m; k] and [m;; k]. *)
#[global] Instance M_ret : MRet M := @ret.
#[global] Instance M_bind : MBind M := fun A B k m => bind m k.

Module Effects.

(** [_LOGGER.<level>(msg)]. *)
Definition logging (l : level) (msg : str) : M unit :=
  modify (fun w => {| fs := fs w; requests := requests w; clock := clock w;
                      log := log w ++ [(l, msg)]; progress := progress w;
                      refused := refused w |}).

(** [tqdm(total=...)], [progress.update(n)], [progress.close()]. *)
Definition progress_call (ev : progress_event) : M unit :=
  modify (fun w => {| fs := fs w; requests := requests w; clock := clock w;
                      log := log w; progress := progress w ++ [ev];
                      refused := refused w |}).

(** ** The file system *)

(** An [OSError] with the text [str(exc)] gives: the error number and its
    message, then the path as [repr] shows it (exact for a path without
    quotes, backslashes or characters that are not printable). *)
Definition os_error (msg : string) (p : path) : exn :=
  Exn OSError (u msg ++ u ": '" ++ path_str p ++ u "'").

(** The working directory and the roots always exist. *)
Definition holds_dir (f : gmap path node) (p : path) : bool :=
  match f !! p with Some Dir => true | _ => false end.

Definition is_dir (f : gmap path node) (p : path) : bool :=
  match p with
  | [] => true
  | [r] => is_root r || holds_dir f p
  | _ => holds_dir f p
  end.

(** [p.exists()]. *)
Definition exists_ (p : path) : M bool :=
  fun w => (Return (is_dir (fs w) p || bool_decide (is_Some (fs w !! p))), w).

(** [p], [p.parent], [p.parent.parent], ... up to the first component. *)
Definition self_and_ancestors (p : path) : list path :=
  map (fun n => take n p) (rev (seq 1 (List.length p))).

(** [mkdir(parents=True, exist_ok=True)] along such a chain: an existing
    directory is accepted, a missing parent is made first. *)
Fixpoint mkdir_chain (chain : list path) (f : gmap path node)
    : outcome (gmap path node) :=
  match chain with
  | [] => Return f
  | p :: ups =>
      if is_dir f p then Return f
      else
        match f !! p with
        | Some _ => Raise (os_error "[Errno 17] File exists" p)
        | None =>
            match ups with
            | [] => Return (<[p := Dir]> f)
            | q :: _ =>
                if is_dir f q then Return (<[p := Dir]> f)
                else
                  match f !! q with
                  | Some _ => Raise (os_error "[Errno 20] Not a directory" p)
                  | None =>
                      match mkdir_chain ups f with
                      | Return f' => Return (<[p := Dir]> f')
                      | Raise e => Raise e
                      end
                  end
            end
        end
  end.

(** A path with U+0000 in it: Python raises [ValueError] on it before the
    operating system is asked. *)
Definition has_nul (p : path) : bool := existsb (contains 0%N) p.

Definition null_byte_error : exn := Exn ValueError (u "embedded null byte").

(** The error a path is turned down with whatever the files present, by
    Python or by the operating system. *)
Definition path_error (w : World) (p : path) : option exn :=
  if has_nul p then Some null_byte_error else refused w p.

(** [p.mkdir(parents=True, exist_ok=True)]: an error of the operating system
    is let pass when the directory is there. *)
Definition mkdir_parents (p : path) : M unit :=
  fun w =>
    if has_nul p then (Raise null_byte_error, w)
    else if is_dir (fs w) p then (Return tt, w)
    else
      match refused w p with
      | Some e => (Raise e, w)
      | None =>
          match mkdir_chain (self_and_ancestors p) (fs w) with
          | Return f => (Return tt, set_fs f w)
          | Raise e => (Raise e, w)
          end
      end.

(** [p.open("w")] / [p.open("wb")]: the file is created or truncated. *)
Definition open_write (p : path) : M unit :=
  fun w =>
    match path_error w p with
    | Some e => (Raise e, w)
    | None =>
        if is_dir (fs w) p then (Raise (os_error "[Errno 21] Is a directory" p), w)
        else if is_dir (fs w) (parent p)
        then (Return tt, set_fs (<[p := File []]> (fs w)) w)
        else (Raise (os_error "[Errno 2] No such file or directory" p), w)
    end.

(** [handle.write(data)] on a file opened for writing. *)
Definition write_bytes (p : path) (data : bytes) : M unit :=
  fun w =>
    match fs w !! p with
    | Some (File c) => (Return tt, set_fs (<[p := File (c ++ data)]> (fs w)) w)
    | _ => (Raise (os_error "[Errno 9] Bad file descriptor" p), w)
    end.

(** The bytes of [p], as [p.open("r")] followed by reading gives them. *)
Definition read_bytes (p : path) : M bytes :=
  fun w =>
    match fs w !! p with
    | Some (File c) => (Return c, w)
    | Some Dir => (Raise (os_error "[Errno 21] Is a directory" p), w)
    | None =>
        match path_error w p with
        | Some e => (Raise e, w)
        | None =>
            if is_dir (fs w) p then (Raise (os_error "[Errno 21] Is a directory" p), w)
            else (Raise (os_error "[Errno 2] No such file or directory" p), w)
        end
    end.

(** ** Text written as UTF-8 *)

Definition byte_of (n : N) : Byte.byte :=
  match Byte.of_N n with Some b => b | None => Byte.x00 end.

(** The UTF-8 bytes of one code point; none for a surrogate or a value
    beyond U+10FFFF. *)
Definition encode_cp (c : N) : option bytes :=
  (if c <? 128 then Some [byte_of c]
   else if c <? 2048 then
     Some [byte_of (192 + c / 64); byte_of (128 + c mod 64)]
   else if (55296 <=? c) && (c <=? 57343) then None
   else if c <? 65536 then
     Some [byte_of (224 + c / 4096); byte_of (128 + (c / 64) mod 64);
           byte_of (128 + c mod 64)]
   else if c <? 1114112 then
     Some [byte_of (240 + c / 262144); byte_of (128 + (c / 4096) mod 64);
           byte_of (128 + (c / 64) mod 64); byte_of (128 + c mod 64)]
   else None)%N.

Fixpoint utf8_encode (s : str) : option bytes :=
  match s with
  | [] => Some []
  | c :: t =>
      match encode_cp c, utf8_encode t with
      | Some b, Some r => Some (b ++ r)
      | _, _ => None
      end
  end.

(** [handle.write(text)] on a file opened with [encoding="utf-8"]. *)
Definition write_text (p : path) (s : str) : M unit :=
  match utf8_encode s with
  | Some data => write_bytes p data
  | None => raise (Exn UnicodeError (u "'utf-8' codec can't encode character"))
  end.

End Effects.
Export Effects.

(* ===================================================================== *)
(** * JSON documents, HTTP responses, and the external capabilities *)
(* ===================================================================== *)

Module Json.

(** A decoded JSON value.  A [dict] keeps its insertion order; a float is
    kept by its text, the program never looks inside one. *)
Inductive json :=
  | JNull
  | JBool (b : bool)
  | JInt (n : Z)
  | JFloat (repr : str)
  | JStr (s : str)
  | JList (l : list json)
  | JDict (d : list (str * json)).

Definition dict := list (str * json).

(** [d.get(k)]. *)
Fixpoint dict_get (k : str) (d : dict) : option json :=
  match d with
  | [] => None
  | (k', v) :: t => if str_eqb k k' then Some v else dict_get k t
  end.

(** [d[k] = v]: an existing key keeps its place, a new key goes last. *)
Fixpoint dict_set (k : str) (v : json) (d : dict) : dict :=
  match d with
  | [] => [(k, v)]
  | (k', v') :: t =>
      if str_eqb k k' then (k', v) :: t else (k', v') :: dict_set k v t
  end.

(** [Optional[str]] as JSON. *)
Definition json_of_opt (o : option str) : json :=
  match o with Some s => JStr s | None => JNull end.

End Json.
Export Json.

Module Http.

Record Response := {
  status_code : Z;
  reason : str;
  headers : list (str * str);
  url : str;                      (** the final URL, after redirects *)
  text : str;                     (** the decoded body *)
  iter_content : Z -> list bytes * option exn;
    (** the chunks a streamed body yields for a chunk size, and the error
        that breaks the stream after them, if any *)
}.

(** [response.headers.get(name)]: header names compare without case. *)
Fixpoint headers_get (name : str) (h : list (str * str)) : option str :=
  match h with
  | [] => None
  | (k, v) :: t =>
      if str_eqb (lower k) (lower name) then Some v else headers_get name t
  end.

(** [response.raise_for_status()]. *)
Definition raise_for_status (r : Response) : M unit :=
  let c := status_code r in
  if (400 <=? c) && (c <? 500) then
    raise (Exn RequestException
             (str_of_Z c ++ u " Client Error: " ++ reason r
              ++ u " for url: " ++ url r))
  else if (500 <=? c) && (c <? 600) then
    raise (Exn RequestException
             (str_of_Z c ++ u " Server Error: " ++ reason r
              ++ u " for url: " ++ url r))
  else ret tt.

End Http.
Export Http.

(** What the program takes from its libraries and its environment. *)
Class Externals := {
  (** [scraper.get(url, timeout=..., stream=...)]: what the call numbered
      [n] of the run (counting from 0) returns or raises. *)
  scraper_get : nat -> str -> Z -> bool -> outcome Response;
  (** [BeautifulSoup(html, "html.parser").select_one(selector)], then the
      attribute [attr] of the element found. *)
  bs_select_one_attr : str -> str -> str -> option (option str);
  (** [.select(selector)], then [get_text(strip=True)] of each element. *)
  bs_select_texts : str -> str -> list str;
  (** [urllib.parse.urljoin]. *)
  urljoin : str -> str -> str;
  (** The built-in [int()] on a string. *)
  py_int : str -> outcome Z;
  (** [datetime.fromtimestamp(ms / 1000, tz=UTC).date().isoformat()]. *)
  utc_date_of_ms : Z -> outcome str;
  (** [datetime.now(tz=UTC).isoformat()] at the [n]-th clock reading. *)
  now_isoformat : nat -> str;
  (** [json.load] on the bytes of a file opened as UTF-8 text. *)
  json_load : bytes -> outcome json;
  (** [json.dump(doc, handle, indent=2, ensure_ascii=False)] on a handle
      opened as UTF-8 text: the bytes that reach the file, and the error that
      interrupts the writing after them, if any (a lone surrogate in a string
      cannot be encoded). *)
  json_dump : json -> bytes * option exn;
  (** The lines a file opened as UTF-8 text yields, and the error that
      ends the iteration after them, if any. *)
  text_lines : bytes -> list str * option exn;
  (** [f"{size:.2f} {unit}"] of [_format_bytes] for a positive size. *)
  format_scaled : Z -> str;
  (** [str(timedelta(seconds=t1 - t0))] for two readings of
      [perf_counter]. *)
  elapsed_text : nat -> nat -> str;
  (** [st_size] of a directory. *)
  dir_st_size : Z;
}.

Module Env.
Section WithExternals.
Context `{Externals}.

(** One call of the shared client: recorded, then answered. *)
Definition GET (url_ : str) (timeout : Z) (stream : bool) : M Response :=
  fun w =>
    (scraper_get (List.length (requests w)) url_ timeout stream,
     {| fs := fs w; requests := requests w ++ [url_]; clock := clock w;
        log := log w; progress := progress w;
        refused := refused w |}).

(** A reading of the clock ([perf_counter]). *)
Definition tick : M nat :=
  fun w =>
    (Return (clock w),
     {| fs := fs w; requests := requests w; clock := S (clock w);
        log := log w; progress := progress w;
        refused := refused w |}).

(** [datetime.now(tz=UTC).isoformat()]. *)
Definition now : M str :=
  fun w =>
    (Return (now_isoformat (clock w)),
     {| fs := fs w; requests := requests w; clock := S (clock w);
        log := log w; progress := progress w;
        refused := refused w |}).

(** [p.stat().st_size]. *)
Definition stat_size (p : path) : M Z :=
  fun w =>
    match fs w !! p with
    | Some (File c) => (Return (Z.of_nat (List.length c)), w)
    | Some Dir => (Return dir_st_size, w)
    | None =>
        match path_error w p with
        | Some e => (Raise e, w)
        | None =>
            if is_dir (fs w) p then (Return dir_st_size, w)
            else (Raise (os_error "[Errno 2] No such file or directory" p), w)
        end
    end.

End WithExternals.
End Env.
Export Env.

(* ===================================================================== *)
(** * metadata.py *)
(* ===================================================================== *)

Module Metadata.
Section WithExternals.
Context `{Externals}.

Definition _BASE_URL : str := u "https://www.hltv.org".

Record MatchMetadata := {
  match_id : option str;
  match_url : option str;
  teams : list str;
  date : option str;
}.

Definition as_dict (m : MatchMetadata) : json :=
  JDict [ (u "match_id", json_of_opt (match_id m));
          (u "match_url", json_of_opt (match_url m));
          (u "teams", JList (map JStr (teams m)));
          (u "date", json_of_opt (date m)) ].

Record MetadataCollector := {
  metadata_path : path;
  mc_timeout : Z;
}.

(** [_locate_match_url] *)
Definition _locate_match_url (self : MetadataCollector) (demo_id : Z)
    : M (option str) :=
  let url_ := _BASE_URL ++ u "/results?demoid=" ++ str_of_Z demo_id in
  response ← GET url_ (mc_timeout self) false;
  raise_for_status response;;
  match bs_select_one_attr (u ".result-con a[href]") (u "href")
          (text response) with
  | None =>
      logging DEBUG (u "No result card found for demo " ++ str_of_Z demo_id);;
      ret None
  | Some None => ret None
  | Some (Some href) =>
      match href with
      | [] => ret None
      | _ => ret (Some (urljoin _BASE_URL href))
      end
  end.

(** [_fetch_match_page]: the page text the soup is built from. *)
Definition _fetch_match_page (self : MetadataCollector) (match_url_ : str)
    : M str :=
  response ← GET match_url_ (mc_timeout self) false;
  raise_for_status response;;
  ret (text response).

(** The loop of [_extract_teams]: empty names and names already taken are
    passed over. *)
Fixpoint collect_teams (names : list str) (teams_ : list str) : list str :=
  match names with
  | [] => teams_
  | name_ :: rest =>
      if str_eqb name_ [] || bool_decide (name_ ∈ teams_)
      then collect_teams rest teams_
      else collect_teams rest (teams_ ++ [name_])
  end.

(** [_extract_teams] *)
Definition _extract_teams (soup : str) : list str :=
  let teams_ := collect_teams (bs_select_texts (u ".teamsBox .teamName") soup) [] in
  match teams_ with
  | _ :: _ => teams_
  | [] =>
      collect_teams (bs_select_texts (u ".teamsBoxDropdown .teamName") soup) teams_
  end.

(** [_extract_match_date] *)
Definition _extract_match_date (soup : str) : M (option str) :=
  let date_elem :=
    match bs_select_one_attr (u ".timeAndEvent .date[data-unix]")
            (u "data-unix") soup with
    | None => bs_select_one_attr (u ".date[data-unix]") (u "data-unix") soup
    | found => found
    end in
  match date_elem with
  | None => ret None
  | Some None => ret None                    (* KeyError *)
  | Some (Some attr) =>
      match py_int attr with
      | Raise e => if is_ValueError e then ret None else raise e
      | Return unix_ms =>
          d ← of_outcome (utc_date_of_ms unix_ms);
          ret (Some d)
      end
  end.

(** [parts.index("matches")], then the element after it. *)
Fixpoint after_matches (parts : list str) : option str :=
  match parts with
  | [] => None
  | p :: rest =>
      if str_eqb p (u "matches")
      then match rest with [] => None | nxt :: _ => Some nxt end
      else after_matches rest
  end.

(** [_parse_match_id] *)
Definition _parse_match_id (match_url_ : str) : option str :=
  let path_ := match split_on 63 match_url_ with
               | p :: _ => p
               | [] => []
               end in
  let parts := split_on SLASH (rstrip_chars (u "/") path_) in
  after_matches parts.

(** [_collect_match_metadata] *)
Definition _collect_match_metadata (self : MetadataCollector) (demo_id : Z)
    : M (option MatchMetadata) :=
  located ← _locate_match_url self demo_id;
  match located with
  | None => ret None
  | Some match_url_ =>
      soup ← try_except
                (page ← _fetch_match_page self match_url_; ret (Some page))
                is_RequestException
                (fun exc =>
                   logging DEBUG
                     (u "Unable to fetch match page for demo "
                      ++ str_of_Z demo_id ++ u ": " ++ exn_msg exc);;
                   ret None);
      td ← match soup with
            | Some page =>
                let teams_ := _extract_teams page in
                date_ ← _extract_match_date page;
                ret (teams_, date_)
            | None => ret ([], None)
            end;
      let match_id_ := _parse_match_id match_url_ in
      ret (Some {| match_id := match_id_; match_url := Some match_url_;
                   teams := fst td; date := snd td |})
  end.

(** [_load_metadata] *)
Definition _load_metadata (self : MetadataCollector) : M json :=
  present ← exists_ (metadata_path self);
  if negb present then ret (JDict [])
  else
    try_except
      (raw ← read_bytes (metadata_path self);
       of_outcome (json_load raw))
      is_JSONDecodeError
      (fun exc =>
         logging WARNING
           (u "Unable to parse metadata JSON at "
            ++ path_str (metadata_path self) ++ u ": " ++ exn_msg exc);;
         ret (JDict [])).

(** [_write_metadata]: the file is truncated when it is opened; what
    [json.dump] wrote before an error stays in it. *)
Definition _write_metadata (self : MetadataCollector) (metadata : json)
    : M unit :=
  mkdir_parents (parent (metadata_path self));;
  open_write (metadata_path self);;
  let '(data, interrupted) := json_dump metadata in
  write_bytes (metadata_path self) data;;
  match interrupted with
  | Some e => raise e
  | None => ret tt
  end.

(** [type(v).__name__] of a decoded JSON value. *)
Definition type_name (v : json) : str :=
  match v with
  | JNull => u "NoneType"
  | JBool _ => u "bool"
  | JInt _ => u "int"
  | JFloat _ => u "float"
  | JStr _ => u "str"
  | JList _ => u "list"
  | JDict _ => u "dict"
  end.

Definition attribute_error (v : json) (attr : string) : exn :=
  Exn AttributeError
    (u "'" ++ type_name v ++ u "' object has no attribute '" ++ u attr ++ u "'").
Definition item_assignment_error (v : json) : exn :=
  Exn TypeError
    (u "'" ++ type_name v ++ u "' object does not support item assignment").

(** [metadata.setdefault(key, {})]: the value under [key] and the document,
    which gains [key] when it had none. *)
Definition py_setdefault (metadata : json) (key : str)
    : outcome (json * dict) :=
  match metadata with
  | JDict d =>
      match dict_get key d with
      | Some v => Return (v, d)
      | None => Return (JDict [], dict_set key (JDict []) d)
      end
  | _ => Raise (attribute_error metadata "setdefault")
  end.

(** [target[key] = value] for a string key. *)
Definition py_setitem (target : json) (key : str) (value : json)
    : outcome json :=
  match target with
  | JDict d => Return (JDict (dict_set key value d))
  | JList _ =>
      Raise (Exn TypeError (u "list indices must be integers or slices, not str"))
  | _ => Raise (item_assignment_error target)
  end.

(** [metadata.setdefault("demos", {})[key] = entry].  The dict that
    [setdefault] hands out is the one stored in the document, so the
    assignment shows in the document under ["demos"]. *)
Definition set_demo_entry (metadata : json) (key : str) (entry : json)
    : outcome json :=
  match py_setdefault metadata (u "demos") with
  | Raise e => Raise e
  | Return (demos, d) =>
      match py_setitem demos key entry with
      | Raise e => Raise e
      | Return demos' => Return (JDict (dict_set (u "demos") demos' d))
      end
  end.

(** The last lines of [record_download]: the document is loaded, the entry
    and the time stamp are set in it, and it is written back. *)
Definition read_merge_write (self : MetadataCollector) (demo_id : Z)
    (entry : dict) : M unit :=
  metadata ← _load_metadata self;
  metadata ← of_outcome (set_demo_entry metadata (str_of_Z demo_id) (JDict entry));
  last_updated ← now;
  metadata ← of_outcome (py_setitem metadata (u "last_updated") (JStr last_updated));
  _write_metadata self metadata.

(** The entry [record_download] builds for a demo. *)
Definition demo_entry (file_path : path) (match_info : json)
    (download_date : str) (file_size : Z) (original_url : str)
    (response : Response) : dict :=
  let entry :=
    [ (u "filename", JStr (name file_path));
      (u "match_info", match_info);
      (u "download_date", JStr download_date);
      (u "file_size", JInt file_size);
      (u "original_url", JStr original_url) ] in
  match url response with
  | [] => entry
  | _ => dict_set (u "resolved_download_url") (JStr (url response)) entry
  end.

(** [record_download] *)
Definition record_download (self : MetadataCollector) (demo_id : Z)
    (file_path : path) (original_url : str) (response : Response) : M unit :=
  match_metadata ←
    try_except (_collect_match_metadata self demo_id)
      is_RequestException
      (fun exc =>
         logging WARNING
           (u "Failed to collect match metadata for " ++ str_of_Z demo_id
            ++ u ": " ++ exn_msg exc);;
         ret None);
  let match_info := match match_metadata with
                    | Some m => as_dict m
                    | None => JNull
                    end in
  download_date ← now;
  file_size ← stat_size file_path;
  let entry := demo_entry file_path match_info download_date file_size
                 original_url response in
  read_merge_write self demo_id entry.

End WithExternals.
End Metadata.

(* ===================================================================== *)
(** * downloader.py *)
(* ===================================================================== *)

Module Downloader.
Import Metadata.

Definition DEMO_URL_TEMPLATE (demo_id : Z) : str :=
  u "https://www.hltv.org/download/demo/" ++ str_of_Z demo_id.

Record DownloadResult := {
  demo_id : Z;
  status : str;
  message : str;
  file_path : option path;
}.

(** [DownloadResult(demo_id, status, message)], [file_path] left at its
    default. *)
Definition mk_result (id : Z) (st : string) (msg : str) (fp : option path)
    : DownloadResult :=
  {| demo_id := id; status := u st; message := msg; file_path := fp |}.

(** ** File names *)

(** The value of a [key=value] parameter: blanks, then double quotes,
    stripped. *)
Definition param_value (raw : str) : str := strip_chars [DQUOTE] (strip raw).

(** The file name a [filename*] value stands for: the text after the
    first [''] (the whole value when nothing follows), percent-decoded,
    without its directories. *)
Definition extended_filename (value : str) : str :=
  let '(_, _, encoded_value) := str_partition (u "''") value in
  let candidate := match encoded_value with
                   | [] => value
                   | _ => encoded_value
                   end in
  name (Path (unquote candidate)).

(** The body of the loop of [_parse_content_disposition] over [parts[1:]]. *)
Fixpoint parse_parameters (parts : list str) : option str :=
  match parts with
  | [] => None
  | part :: rest =>
      if negb (contains 61 part) then parse_parameters rest
      else
        let '(key, value) := split1 61 part in
        let key := strip (lower key) in
        let value := param_value value in
        if str_eqb key (u "filename*") then Some (extended_filename value)
        else if str_eqb key (u "filename") then Some (name (Path value))
        else parse_parameters rest
  end.

(** [[part.strip() for part in header_value.split(";") if part.strip()]] *)
Definition disposition_parts (header_value : str) : list str :=
  map strip
    (filter (fun part => strip part <> []) (split_on 59 header_value)).

(** [_parse_content_disposition] *)
Definition _parse_content_disposition (header_value : str) : option str :=
  parse_parameters (drop 1 (disposition_parts header_value)).

(** [_ensure_demo_id_prefix] *)
Definition _ensure_demo_id_prefix (filename : str) (id : Z) : str :=
  let sanitized := name (Path filename) in
  let prefix := str_of_Z id ++ u "_" in
  if startswith prefix sanitized then sanitized else prefix ++ sanitized.

(** [Path(response.url).name.split("?")[0]] *)
Definition url_basename (url_ : str) : str :=
  match split_on 63 (name (Path url_)) with
  | first :: _ => first
  | [] => []
  end.

(** [_filename_from_response] *)
Definition _filename_from_response (response : Response) (id : Z) : str :=
  let from_url :=
    match url_basename (url response) with
    | [] => str_of_Z id ++ u "_demo.rar"
    | filename => _ensure_demo_id_prefix filename id
    end in
  match headers_get (u "Content-Disposition") (headers response) with
  | None | Some [] => from_url
  | Some disposition =>
      match _parse_content_disposition disposition with
      | None | Some [] => from_url
      | Some filename => _ensure_demo_id_prefix filename id
      end
  end.

(** [unique_demo_ids] *)
Fixpoint unique_loop (demo_ids : list Z) (seen : gset Z) (ordered_ids : list Z)
    : list Z :=
  match demo_ids with
  | [] => ordered_ids
  | id :: rest =>
      if bool_decide (id ∈ seen) then unique_loop rest seen ordered_ids
      else unique_loop rest ({[id]} ∪ seen) (ordered_ids ++ [id])
  end.

Definition unique_demo_ids (demo_ids : list Z) : list Z :=
  unique_loop demo_ids ∅ [].

(** [range(a, b)] *)
Definition py_range (a b : Z) : list Z :=
  map (fun i => a + Z.of_nat i) (seq 0 (Z.to_nat (b - a))).

(** [write_demo_id_file] *)
Definition write_demo_id_file (start_id end_id : Z) (destination : path)
    : M path :=
  if end_id <? start_id then
    raise (Exn ValueError
             (u "end_id must be greater than or equal to start_id"))
  else
    mkdir_parents (parent destination);;
    open_write destination;;
    for_each (fun id => write_text destination (str_of_Z id ++ [10%N]))
             (py_range start_id (end_id + 1));;
    logging INFO
      (u "Wrote " ++ str_of_Z (end_id - start_id + 1) ++ u " demo IDs ("
       ++ str_of_Z start_id ++ u "-" ++ str_of_Z end_id ++ u ") to "
       ++ path_str destination);;
    ret destination.

Section WithExternals.
Context `{Externals}.

Record DemoDownloader := {
  output_dir : path;
  chunk_size : Z;
  retries : Z;
  timeout : Z;
  skip_existing : bool;
  metadata_collector : option MetadataCollector;
}.

(** [DemoDownloader.__init__] *)
Definition new_DemoDownloader (output_dir_ : path) (chunk_size_ retries_ timeout_ : Z)
    (skip_existing_ : bool) (metadata_path_ : option path) : M DemoDownloader :=
  let self :=
    {| output_dir := output_dir_;
       chunk_size := chunk_size_;
       retries := Z.max 1 retries_;
       timeout := timeout_;
       skip_existing := skip_existing_;
       metadata_collector :=
         match metadata_path_ with
         | Some p => Some {| metadata_path := p; mc_timeout := timeout_ |}
         | None => None
         end |} in
  mkdir_parents output_dir_;;
  ret self.

(** [_content_length] *)
Definition _content_length (response : Response) : M (option Z) :=
  match headers_get (u "Content-Length") (headers response) with
  | None => ret None
  | Some header_value =>
      match py_int header_value with
      | Return n => ret (Some n)
      | Raise e => if is_ValueError e then ret None else raise e
      end
  end.

(** The loop over [response.iter_content]: empty chunks are passed over. *)
Fixpoint write_chunks (destination : path) (chunks : list bytes) : M unit :=
  match chunks with
  | [] => ret tt
  | chunk :: rest =>
      match chunk with
      | [] => write_chunks destination rest
      | _ =>
          write_bytes destination chunk;;
          progress_call (BarUpdate (Z.of_nat (List.length chunk)));;
          write_chunks destination rest
      end
  end.

(** [with destination.open("wb") as file_handle: for chunk in ...]. *)
Definition stream_to_file (self : DemoDownloader) (response : Response)
    (destination : path) : M unit :=
  open_write destination;;
  let '(chunks, broken) := iter_content response (chunk_size self) in
  write_chunks destination chunks;;
  match broken with
  | Some e => raise e
  | None => ret tt
  end.

(** What one pass through the [try] block of [download_demo] returns. *)
Definition attempt_once (self : DemoDownloader) (id : Z) (url_ : str)
    (attempt : Z) : M DownloadResult :=
  logging DEBUG (u "Fetching demo " ++ str_of_Z id ++ u " (attempt "
                 ++ str_of_Z attempt ++ u ")");;
  response ← GET url_ (timeout self) true;
  if status_code response =? 404 then
    ret (mk_result id "not_found" (u "Demo ID does not exist") None)
  else
    raise_for_status response;;
    let filename := _filename_from_response response id in
    let destination := joinpath (output_dir self) filename in
    present ← exists_ destination;
    if skip_existing self && present then
      logging INFO (u "Skipping " ++ filename ++ u "; file already exists");;
      ret (mk_result id "skipped" (u "File already exists") (Some destination))
    else
      total_bytes ← _content_length response;
      progress_call (BarOpen total_bytes);;
      try_finally (stream_to_file self response destination)
                  (progress_call BarClose);;
      logging INFO (u "Downloaded " ++ url_ ++ u " -> " ++ path_str destination);;
      match metadata_collector self with
      | Some collector =>
          try_except
            (record_download collector id destination url_ response)
            is_Exception
            (fun exc =>
               logging WARNING
                 (u "Failed to record metadata for demo " ++ str_of_Z id
                  ++ u ": " ++ exn_msg exc))
      | None => ret tt
      end;;
      ret (mk_result id "downloaded" [] (Some destination)).

(** [str(last_error)] *)
Definition str_of_last_error (last_error : option exn) : str :=
  match last_error with
  | Some e => exn_msg e
  | None => u "None"
  end.

(** The [for attempt in range(attempt, self.retries + 1)] loop with [n]
    passes left, and the code after it. *)
Fixpoint attempts (self : DemoDownloader) (id : Z) (url_ : str) (n : nat)
    (attempt : Z) (last_error : option exn) : M DownloadResult :=
  match n with
  | O =>
      let error_message :=
        u "Failed after " ++ str_of_Z (retries self) ++ u " attempts: "
        ++ str_of_last_error last_error in
      logging ERROR error_message;;
      ret (mk_result id "failed" error_message None)
  | S n' =>
      try_except (attempt_once self id url_ attempt)
        is_RequestException
        (fun exc =>
           logging WARNING
             (u "Error downloading demo " ++ str_of_Z id ++ u " on attempt "
              ++ str_of_Z attempt ++ u "/" ++ str_of_Z (retries self)
              ++ u ": " ++ exn_msg exc);;
           attempts self id url_ n' (attempt + 1) (Some exc))
  end.

(** [download_demo] *)
Definition download_demo (self : DemoDownloader) (id : Z) : M DownloadResult :=
  attempts self id (DEMO_URL_TEMPLATE id) (Z.to_nat (retries self)) 1 None.

(** [download_many] *)
Fixpoint download_many (self : DemoDownloader) (demo_ids : list Z)
    : M (list DownloadResult) :=
  match demo_ids with
  | [] => ret []
  | id :: rest =>
      result ← download_demo self id;
      results ← download_many self rest;
      ret (result :: results)
  end.

End WithExternals.
End Downloader.

(* ===================================================================== *)
(** * cli.py *)
(* ===================================================================== *)

Module Cli.
Import Downloader.
Section WithExternals.
Context `{Externals}.

(** The parsed arguments of the [download] command. *)
Record Namespace := {
  args_output_dir : path;
  args_ids_file : option (list path);
  args_start_id : option Z;
  args_end_id : option Z;
  args_ids : option (list Z);
  args_chunk_size : Z;
  args_retries : Z;
  args_timeout : Z;
  args_overwrite : bool;
  args_metadata_file : option path;
}.

(** The lines of one ID file, from line [line_number] on. *)
Fixpoint load_lines (file_path_ : path) (line_number : Z) (lines : list str)
    : M (list Z) :=
  match lines with
  | [] => ret []
  | line :: rest =>
      let stripped := strip line in
      if str_eqb stripped [] || startswith (u "#") stripped then
        load_lines file_path_ (line_number + 1) rest
      else
        match py_int stripped with
        | Return id =>
            ids ← load_lines file_path_ (line_number + 1) rest;
            ret (id :: ids)
        | Raise exc =>
            if is_ValueError exc then
              raise (Exn SystemExit
                       (u "Invalid demo ID '" ++ stripped ++ u "' in "
                        ++ path_str file_path_ ++ u " on line "
                        ++ str_of_Z line_number ++ u ": " ++ exn_msg exc))
            else raise exc
        end
  end.

(** [_load_ids_from_files] *)
Fixpoint _load_ids_from_files (files : list path) : M (list Z) :=
  match files with
  | [] => ret []
  | file_path_ :: rest =>
      raw ← read_bytes file_path_;
      let '(lines, broken) := text_lines raw in
      ids ← load_lines file_path_ 1 lines;
      match broken with Some e => raise e | None => ret tt end;;
      more ← _load_ids_from_files rest;
      ret (ids ++ more)
  end.

(** What [if args.ids: ids.extend(args.ids)] adds. *)
Definition explicit_ids (args : Namespace) : list Z :=
  match args_ids args with
  | Some l => l
  | None => []
  end.

(** What [if args.ids_file: ids.extend(_load_ids_from_files(...))] adds. *)
Definition ids_from_files (args : Namespace) : M (list Z) :=
  match args_ids_file args with
  | Some [] | None => ret []
  | Some files => _load_ids_from_files files
  end.

(** [_collect_demo_ids] *)
Definition _collect_demo_ids (args : Namespace) : M (list Z) :=
  let ids := explicit_ids args in
  from_files ← ids_from_files args;
  let ids := ids ++ from_files in
  match args_start_id args, args_end_id args with
  | None, None => ret (unique_demo_ids ids)
  | Some start_id, Some end_id =>
      if end_id <? start_id then
        raise (Exn SystemExit
                 (u "--end-id must be greater than or equal to --start-id"))
      else ret (unique_demo_ids (ids ++ py_range start_id (end_id + 1)))
  | _, _ =>
      raise (Exn SystemExit
               (u "--start-id and --end-id must be provided together"))
  end.

(** ** The batch reporter *)

(** An attribute of a [DownloadResult] by name: the dataclass has the four
    fields [demo_id], [status], [message] and [file_path]. *)
Inductive attr_value :=
  | AInt (n : Z)
  | AStr (s : str)
  | APath (p : option path).

Definition getattr (result : DownloadResult) (attr : string)
    : outcome attr_value :=
  if String.eqb attr "demo_id" then Return (AInt (demo_id result))
  else if String.eqb attr "status" then Return (AStr (status result))
  else if String.eqb attr "message" then Return (AStr (message result))
  else if String.eqb attr "file_path" then Return (APath (file_path result))
  else Raise (Exn AttributeError
                (u "'DownloadResult' object has no attribute '" ++ u attr
                 ++ u "'")).

(** [counts.get(key, 0)] *)
Definition count_of (counts : gmap str Z) (key : string) : Z :=
  default 0 (counts !! u key).

(** [_format_bytes] *)
Definition _format_bytes (num_bytes : Z) : str :=
  if num_bytes <=? 0 then u "0 B" else format_scaled num_bytes.

(** The loop of [_print_summary] over the results, on the running
    [total], [counts] and [bytes_downloaded]. *)
Fixpoint summary_loop (results : list DownloadResult) (total : Z)
    (counts : gmap str Z) (bytes_downloaded : Z) : M (Z * gmap str Z * Z) :=
  match results with
  | [] => ret (total, counts, bytes_downloaded)
  | result :: rest =>
      let total := total + 1 in
      let counts :=
        <[status result := default 0 (counts !! status result) + 1]> counts in
      bytes_downloaded ←
        (if str_eqb (status result) (u "downloaded") then
           v ← of_outcome (getattr result "bytes_downloaded");
           match v with
           | AInt n => ret (bytes_downloaded + n)
           | _ => raise (Exn TypeError (u "unsupported operand type(s) for +="))
           end
         else ret bytes_downloaded);
      (if str_eqb (status result) (u "failed") then
         logging ERROR (u "Failed to download " ++ str_of_Z (demo_id result)
                        ++ u ": " ++ message result)
       else if str_eqb (status result) (u "not_found") then
         logging WARNING (u "Demo ID " ++ str_of_Z (demo_id result)
                          ++ u " was not found")
       else ret tt);;
      summary_loop rest total counts bytes_downloaded
  end.

Definition initial_counts : gmap str Z :=
  <[u "failed" := 0]> (<[u "not_found" := 0]>
    (<[u "skipped" := 0]> (<[u "downloaded" := 0]> ∅))).

(** [_print_summary] *)
Definition _print_summary (results : list DownloadResult) (elapsed : str)
    : M unit :=
  '(total, counts, bytes_downloaded) ← summary_loop results 0 initial_counts 0;
  logging INFO
    (u "Summary: " ++ str_of_Z total ++ u " demos processed ("
     ++ str_of_Z (count_of counts "downloaded") ++ u " downloaded, "
     ++ str_of_Z (count_of counts "skipped") ++ u " skipped, "
     ++ str_of_Z (count_of counts "not_found") ++ u " not found, "
     ++ str_of_Z (count_of counts "failed") ++ u " failed)");;
  logging INFO
    (u "Session stats: " ++ str_of_Z (count_of counts "downloaded")
     ++ u " demos downloaded, " ++ _format_bytes bytes_downloaded
     ++ u " transferred, elapsed " ++ elapsed).

(** [[result for result in results
      if result.status not in {"downloaded", "skipped"}]] *)
Definition failed_downloads (results : list DownloadResult)
    : list DownloadResult :=
  filter (fun result => status result ∉ [u "downloaded"; u "skipped"]) results.

(** What [main] does with the results of the batch. *)
Definition report_and_exit (results : list DownloadResult) (elapsed : str)
    : M Z :=
  _print_summary results elapsed;;
  ret (match failed_downloads results with
       | [] => 0
       | _ => 1
       end).

(** [main] on the [download] command. *)
Definition main_download (args : Namespace) : M Z :=
  demo_ids ← _collect_demo_ids args;
  match demo_ids with
  | [] =>
      raise (Exn UsageError
               (u "No demo IDs provided. Use --id, --ids-file, or --start-id/--end-id."))
  | _ =>
      let metadata_path_ :=
        match args_metadata_file args with
        | Some p => p
        | None => joinpath (args_output_dir args) (u "metadata.json")
        end in
      downloader ← new_DemoDownloader (args_output_dir args)
                     (args_chunk_size args) (args_retries args)
                     (args_timeout args) (negb (args_overwrite args))
                     (Some metadata_path_);
      start_time ← tick;
      results ← download_many downloader demo_ids;
      end_time ← tick;
      report_and_exit results (elapsed_text start_time end_time)
  end.

(** [main] on the [generate-id-file] command. *)
Definition main_generate_id_file (start_id end_id : Z) (output : path) : M Z :=
  write_demo_id_file start_id end_id output;;
  ret 0.

(** The exit status of the process for what [main] returned or raised:
    [sys.exit(main())]. *)
Definition exit_status (r : outcome Z) : Z :=
  match r with
  | Return code => code
  | Raise e => match exn_cls e with UsageError => 2 | _ => 1 end
  end.

End WithExternals.
End Cli.

(* ===================================================================== *)
(** * The vocabulary of the properties *)
(* ===================================================================== *)

Module Notions.
Import Metadata Downloader Cli.

(** ** ID normalization *)

(** The entries of [l] that do not occur earlier in [l], in the order of
    [l]: each value once, at its first occurrence. *)
Definition first_occurrences (l : list Z) : list Z :=
  (filter (fun ix => ix.2 ∉ take ix.1 l) (imap pair l)).*2.

(** The range the arguments ask for. *)
Inductive requested_range (args : Namespace) : list Z -> Prop :=
  | no_range :
      args_start_id args = None -> args_end_id args = None ->
      requested_range args []
  | inclusive_range (start_id end_id : Z) :
      args_start_id args = Some start_id -> args_end_id args = Some end_id ->
      start_id <= end_id ->
      requested_range args (py_range start_id (end_id + 1)).

(** ** ID files *)

(** A line of an ID file that is passed over: blank, or a comment. *)
Definition is_skipped_line (line : str) : bool :=
  str_eqb (strip line) [] || startswith (u "#") (strip line).

(** The error an ID file raises at a line that is no integer. *)
Definition invalid_id_error (file_path_ : path) (line_number : Z) (line : str)
    (exc : exn) : exn :=
  Exn SystemExit
    (u "Invalid demo ID '" ++ strip line ++ u "' in " ++ path_str file_path_
     ++ u " on line " ++ str_of_Z line_number ++ u ": " ++ exn_msg exc).

(** The statuses [download_demo] gives its results. *)
Definition batch_statuses : list str :=
  [u "downloaded"; u "skipped"; u "not_found"; u "failed"].

(** ** Parts of a [Content-Disposition] header *)

(** The key of a [key=value] part, as the loop compares it. *)
Definition param_key (part : str) : str := strip (lower (split1 61 part).1).
(** The value of a [key=value] part, as the loop uses it. *)
Definition param_text (part : str) : str := param_value (split1 61 part).2.
(** The parts the loop stops at. *)
Definition is_filename_param (part : str) : bool :=
  contains 61 part
  && (str_eqb (param_key part) (u "filename*")
      || str_eqb (param_key part) (u "filename")).

(** The file name the loop returns at such a part. *)
Definition filename_of_param (part : str) : str :=
  if str_eqb (param_key part) (u "filename*")
  then extended_filename (param_text part)
  else name (Path (param_text part)).

(** ** Worlds along the retry loop *)

(** The world after a GET of [url_] at the head of an attempt. *)
Definition after_get (id : Z) (attempt : Z) (url_ : str) (w : World) : World :=
  {| fs := fs w;
     requests := requests w ++ [url_];
     clock := clock w;
     log := log w ++ [(DEBUG, u "Fetching demo " ++ str_of_Z id
                              ++ u " (attempt " ++ str_of_Z attempt ++ u ")")];
     progress := progress w;
     refused := refused w |}.

(** The world after [n] failed attempts numbered from [attempt] on, the
    first of them raising [errs k]. *)
Fixpoint after_failures (d : DemoDownloader) (id : Z) (url_ : str)
    (errs : nat -> exn) (n : nat) (k : nat) (attempt : Z) (w : World) : World :=
  match n with
  | O => w
  | S n' =>
      let w1 := after_get id attempt url_ w in
      let w2 :=
        {| fs := fs w1; requests := requests w1; clock := clock w1;
           log := log w1 ++
             [(WARNING,
               u "Error downloading demo " ++ str_of_Z id ++ u " on attempt "
               ++ str_of_Z attempt ++ u "/" ++ str_of_Z (retries d)
               ++ u ": " ++ exn_msg (errs k))];
           progress := progress w1;
           refused := refused w1 |} in
      after_failures d id url_ errs n' (S k) (attempt + 1) w2
  end.

Definition failure_message (d : DemoDownloader) (last_error : option exn) : str :=
  u "Failed after " ++ str_of_Z (retries d) ++ u " attempts: "
  ++ str_of_last_error last_error.

(** ** The metadata document *)

(** The [demos] object of a document: empty when the key is missing. *)
Inductive demos_before (old : dict) : dict -> Prop :=
  | demos_absent : dict_get (u "demos") old = None -> demos_before old []
  | demos_present (demos : dict) :
      dict_get (u "demos") old = Some (JDict demos) -> demos_before old demos.

Definition parse_warning (self : MetadataCollector) (e : exn) : level * str :=
  (WARNING,
   u "Unable to parse metadata JSON at " ++ path_str (metadata_path self)
   ++ u ": " ++ exn_msg e).

Definition with_log (w : World) (records : list (level * str)) : World :=
  {| fs := fs w; requests := requests w; clock := clock w;
     log := log w ++ records; progress := progress w;
     refused := refused w |}.

(** The URL [_locate_match_url] requests. *)
Definition search_url (id : Z) : str :=
  _BASE_URL ++ u "/results?demoid=" ++ str_of_Z id.

(** The text of the error [raise_for_status] raises. *)
Definition http_error_message (resp : Response) : str :=
  str_of_Z (status_code resp)
  ++ (if status_code resp <? 500 then u " Client Error: " else u " Server Error: ")
  ++ reason resp ++ u " for url: " ++ url resp.


Section WithExternals.
Context `{Externals}.

(** What the file at the metadata path holds before a download is
    recorded, as a document, and the log records reading it costs: no file
    and a file that does not parse both count as the empty document, the
    latter with a warning. *)
Inductive document_before (self : MetadataCollector) (w : World)
    : dict -> list (level * str) -> Prop :=
  | doc_missing :
      fs w !! metadata_path self = None ->
      document_before self w [] []
  | doc_unparseable (raw : bytes) (e : exn) :
      fs w !! metadata_path self = Some (File raw) ->
      json_load raw = Raise e ->
      is_JSONDecodeError e = true ->
      document_before self w [] [parse_warning self e]
  | doc_parsed (raw : bytes) (d : dict) :
      fs w !! metadata_path self = Some (File raw) ->
      json_load raw = Return (JDict d) ->
      document_before self w d [].

(** What [_write_metadata] returns once [json.dump] has run on [doc]: the
    error that interrupted the dump, if there was one. *)
Definition dumped (doc : json) : outcome unit :=
  match (json_dump doc).2 with
  | Some e => Raise e
  | None => Return tt
  end.

(** The IDs a file holds: the file is there, it reads to its end as UTF-8
    text, and its lines that are not passed over are these integers, in
    order. *)
Inductive file_holds (w : World) (file : path) (ids : list Z) : Prop :=
  | holds_ids (raw : bytes) (lines : list str) :
      fs w !! file = Some (File raw) ->
      text_lines raw = (lines, None) ->
      Forall2 (fun line id => py_int (strip line) = Return id)
        (filter (fun line => is_skipped_line line = false) lines) ids ->
      file_holds w file ids.

(** The IDs the [--ids-file] arguments give, file after file. *)
Inductive requested_files (args : Namespace) (w : World) : list Z -> Prop :=
  | no_files :
      args_ids_file args = None -> requested_files args w []
  | some_files (files : list path) (idss : list (list Z)) :
      args_ids_file args = Some files ->
      Forall2 (file_holds w) files idss ->
      requested_files args w (List.concat idss).

End WithExternals.
End Notions.

(* ===================================================================== *)
(** * A scripted run *)
(* ===================================================================== *)

(** Stand-ins for the libraries and a scripted client, to run the program
    on concrete inputs. *)
Module Scenario.
Import Metadata Downloader Cli.

(** Standing in for [json.dump(doc, handle, indent=2, ensure_ascii=False)]:
    the pieces the encoder hands to [handle.write] one after the other. *)

Definition hex_digit (n : N) : N := (if n <? 10 then 48 + n else 87 + n)%N.

(** One code point of a JSON string: the quote, the backslash and the
    control characters are escaped. *)
Definition escape_cp (c : N) : str :=
  (if c =? 34 then [92; 34]
   else if c =? 92 then [92; 92]
   else if c =? 8 then [92; 98]
   else if c =? 12 then [92; 102]
   else if c =? 10 then [92; 110]
   else if c =? 13 then [92; 114]
   else if c =? 9 then [92; 116]
   else if c <? 32 then [92; 117; 48; 48; hex_digit (c / 16); hex_digit (c mod 16)]
   else [c])%N.

Definition quoted (s : str) : str :=
  [DQUOTE] ++ List.concat (map escape_cp s) ++ [DQUOTE].

Definition newline_indent (level : nat) : str :=
  10%N :: replicate (2 * level) 32%N.

Fixpoint pieces (level : nat) (v : json) {struct v} : list str :=
  match v with
  | JNull => [u "null"]
  | JBool b => [if b then u "true" else u "false"]
  | JInt n => [str_of_Z n]
  | JFloat r => [r]
  | JStr s => [quoted s]
  | JList [] => [u "[]"]
  | JList l =>
      (fix items (first : bool) (l : list json) : list str :=
         match l with
         | [] => []
         | x :: rest =>
             let buf := (if first then u "[" else u ",")
                        ++ newline_indent (S level) in
             match x with
             | JList _ | JDict _ => buf :: pieces (S level) x
             | _ => [buf ++ List.concat (pieces (S level) x)]
             end ++ items false rest
         end) true l
      ++ [newline_indent level; u "]"]
  | JDict [] => [u "{}"]
  | JDict d =>
      [u "{"; newline_indent (S level)]
      ++ (fix items (first : bool) (d : list (str * json)) : list str :=
            match d with
            | [] => []
            | (k, x) :: rest =>
                (if first then [] else [u "," ++ newline_indent (S level)])
                ++ [quoted k; u ": "] ++ pieces (S level) x
                ++ items false rest
            end) true d
      ++ [newline_indent level; u "}"]
  end.

Definition cannot_encode : exn :=
  Exn UnicodeError (u "'utf-8' codec can't encode character: surrogates not allowed").

(** The pieces as UTF-8, up to the first piece that cannot be encoded. *)
Fixpoint write_pieces (l : list str) : bytes * option exn :=
  match l with
  | [] => ([], None)
  | piece :: rest =>
      match utf8_encode piece with
      | Some b => let '(r, e) := write_pieces rest in (b ++ r, e)
      | None => ([], Some cannot_encode)
      end
  end.

Definition dump (v : json) : bytes * option exn := write_pieces (pieces 0 v).

(** The bytes of the file [dump] leaves. *)
Definition rendered (v : json) : bytes := (dump v).1.

(** [bytes.decode("utf-8")]: none for bytes that are not UTF-8. *)
Definition decode_strict (raw : bytes) : option str :=
  let s := utf8_decode (Byte.to_N <$> raw) in
  match utf8_encode s with
  | Some b =>
      if bool_decide (Byte.to_N <$> b = Byte.to_N <$> raw) then Some s else None
  | None => None
  end.

(** The decoding error, with the text it has for a file that starts with
    the byte [0xff]. *)
Definition cannot_decode : exn :=
  Exn UnicodeError
    (u "'utf-8' codec can't decode byte 0xff in position 0: invalid start byte").

(** The newlines of a text file as reading translates them: [\r\n] and
    [\r] become [\n]. *)
Fixpoint universal_newlines (s : str) : str :=
  match s with
  | [] => []
  | c :: t =>
      if (c =? 13)%N then
        10%N :: match t with
                | c' :: t' => if (c' =? 10)%N then universal_newlines t'
                              else universal_newlines t
                | [] => []
                end
      else c :: universal_newlines t
  end.

(** The lines of a text, each with its newline. *)
Fixpoint split_lines (current : str) (s : str) : list str :=
  match s with
  | [] => match current with [] => [] | _ => [current] end
  | c :: t =>
      if (c =? 10)%N then (current ++ [c]) :: split_lines [] t
      else split_lines (current ++ [c]) t
  end.

(** Standing in for the iteration over a file opened as UTF-8 text. *)
Definition lines_of (raw : bytes) : list str * option exn :=
  match decode_strict raw with
  | Some s => (split_lines [] (universal_newlines s), None)
  | None => ([], Some cannot_decode)
  end.

(** Standing in for [int()]: an optional sign, then decimal digits, with
    blanks around them. *)
Fixpoint digits_value (acc : Z) (s : str) : option Z :=
  match s with
  | [] => Some acc
  | c :: t =>
      if ((48 <=? c) && (c <=? 57))%N
      then digits_value (10 * acc + Z.of_N (c - 48)) t
      else None
  end.

Definition not_an_int (s : str) : exn :=
  Exn ValueError (u "invalid literal for int() with base 10: '" ++ s ++ u "'").

Definition int_of (s : str) : outcome Z :=
  let body := strip s in
  let '(sign, digits) :=
    match body with
    | c :: t => if (c =? 45)%N then (-1, t)
                else if (c =? 43)%N then (1, t) else (1, body)
    | [] => (1, body)
    end in
  match digits, digits_value 0 digits with
  | _ :: _, Some n => Return (sign * n)
  | _, _ => Raise (not_an_int s)
  end.

(** The text of a file, for reading results. *)
Definition text_of (b : bytes) : string :=
  Stdlib.Strings.String.string_of_list_byte b.

Definition body_response (code : Z) (hdrs : list (str * str)) (final_url : str)
    (chunks : list bytes) : Response :=
  {| status_code := code; reason := u "status"; headers := hdrs;
     url := final_url; text := []; iter_content := fun _ => (chunks, None) |}.

(** A client given by its script, the answer to the call numbered [n], and
    a JSON reader given by what it makes of a file. *)
Definition scripted (script : nat -> outcome Response)
    (load : bytes -> outcome json) : Externals :=
  {| scraper_get := fun n _ _ _ => script n;
     bs_select_one_attr := fun _ _ _ => None;
     bs_select_texts := fun _ _ => [];
     urljoin := fun base href => base ++ href;
     py_int := int_of;
     utc_date_of_ms := fun _ => Return (u "1970-01-01");
     now_isoformat := fun n => u "T" ++ str_of_Z (Z.of_nat n);
     json_load := load;
     json_dump := dump;
     text_lines := lines_of;
     format_scaled := fun n => str_of_Z n ++ u " B";
     elapsed_text := fun _ _ => u "0:00:00";
     dir_st_size := 4096 |}.

Definition empty_world : World :=
  {| fs := ∅; requests := []; clock := 0; log := []; progress := [];
     refused := fun _ => None |}.

Definition download_args (ids : list Z) (range : option (Z * Z)) : Namespace :=
  {| args_output_dir := [u "demos"];
     args_ids_file := None;
     args_start_id := fst <$> range;
     args_end_id := snd <$> range;
     args_ids := match ids with [] => None | _ => Some ids end;
     args_chunk_size := 65536;
     args_retries := 3;
     args_timeout := 60;
     args_overwrite := false;
     args_metadata_file := None |}.

(** A JSON reader that finds no document in any file: bytes that are not
    UTF-8 fail to decode, any text fails to parse (with the text of the error
    for an empty file). *)
Definition no_json (raw : bytes) : outcome json :=
  match decode_strict raw with
  | Some _ =>
      Raise (Exn JSONDecodeError
               (u "Expecting value: line 1 column 1 (char 0)"))
  | None => Raise cannot_decode
  end.

(** *** A service that knows no demo *)

Definition not_found_response : Response :=
  body_response 404 [] (u "https://www.hltv.org/download/demo/99999999") [].

Definition all_not_found : Externals :=
  scripted (fun _ => Return not_found_response) no_json.

(** *** A service that cannot be reached *)

Definition connection_reset : exn :=
  Exn RequestException (u "Connection reset by peer").

Definition unreachable : Externals :=
  scripted (fun _ => Raise connection_reset) no_json.

(** *** A demo of five bytes, and a search page that fails *)

Definition five_bytes : list bytes :=
  [ [Byte.x61; Byte.x62]; []; [Byte.x63; Byte.x64; Byte.x65] ].

Definition demo_response : Response :=
  body_response 200
    [(u "Content-Disposition",
      u "attachment; filename=" ++ [DQUOTE] ++ u "match.rar" ++ [DQUOTE])]
    (u "https://cdn.hltv.org/demos/match.rar") five_bytes.

Definition search_failure_response : Response :=
  body_response 500 [] (u "https://www.hltv.org/results?demoid=12345") [].

Definition demo_then_failing_search : Externals :=
  scripted (fun n => match n with
                     | O => Return demo_response
                     | _ => Return search_failure_response
                     end) no_json.

Definition demos_dir : path := [u "demos"].
Definition metadata_json : path := [u "demos"; u "metadata.json"].
Definition match_rar : path := [u "demos"; u "12345_match.rar"].

(** The world once [DemoDownloader(...)] has made the output directory. *)
Definition ready_world : World :=
  {| fs := {[ demos_dir := Dir ]}; requests := []; clock := 0; log := [];
     progress := [];
     refused := fun _ => None |}.

(** The downloader the [download] command builds by default. *)
Definition the_downloader : Downloader.DemoDownloader :=
  {| output_dir := demos_dir; chunk_size := 65536; retries := 3;
     timeout := 60; skip_existing := true;
     metadata_collector :=
       Some {| metadata_path := metadata_json; mc_timeout := 60 |} |}.

Definition the_collector : MetadataCollector :=
  {| metadata_path := metadata_json; mc_timeout := 60 |}.



(** *** A document that already holds demo 1 *)

Definition entry_1 : dict :=
  [ (u "filename", JStr (u "1_old.rar")); (u "match_info", JNull);
    (u "download_date", JStr (u "2024-01-01T00:00:00+00:00"));
    (u "file_size", JInt 10);
    (u "original_url", JStr (u "https://www.hltv.org/download/demo/1")) ].

Definition entry_2 : dict :=
  [ (u "filename", JStr (u "2_new.rar")); (u "match_info", JNull);
    (u "download_date", JStr (u "2024-02-02T00:00:00+00:00"));
    (u "file_size", JInt 20);
    (u "original_url", JStr (u "https://www.hltv.org/download/demo/2")) ].

Definition document_with_1 : dict :=
  [ (u "demos", JDict [(u "1", JDict entry_1)]);
    (u "last_updated", JStr (u "2024-01-01T00:00:00+00:00")) ].

(** A reader that knows this one document. *)
Definition load_document_with_1 (raw : bytes) : outcome json :=
  if bool_decide (Byte.to_N <$> raw = Byte.to_N <$> rendered (JDict document_with_1))
  then Return (JDict document_with_1)
  else no_json raw.

Definition knows_document_with_1 : Externals :=
  scripted (fun _ => Raise connection_reset) load_document_with_1.

Definition world_with_document : World :=
  {| fs := <[ metadata_json := File (rendered (JDict document_with_1)) ]>
             {[ demos_dir := Dir ]};
     requests := []; clock := 0; log := []; progress := [];
     refused := fun _ => None |}.

(** *** A metadata file that is not UTF-8 *)

Definition garbled_world : World :=
  {| fs := <[ metadata_json := File [Byte.xff; Byte.xfe] ]> {[ demos_dir := Dir ]};
     requests := []; clock := 0; log := []; progress := [];
     refused := fun _ => None |}.

(** *** A document with a lone surrogate in the entry of demo 1 *)

Definition entry_1_surrogate : dict :=
  [ (u "filename", JStr (u "1_" ++ [55296%N] ++ u ".rar"));
    (u "match_info", JNull) ].

Definition document_with_surrogate : dict :=
  [ (u "demos", JDict [(u "1", JDict entry_1_surrogate)]) ].

(** The file as it was written with the surrogate escaped. *)
Definition surrogate_file : bytes :=
  byte_of <$> (u "{" ++ quoted (u "demos") ++ u ": {" ++ quoted (u "1")
               ++ u ": {" ++ quoted (u "filename") ++ u ": "
               ++ [DQUOTE] ++ u "1_" ++ [92%N] ++ u "ud800.rar" ++ [DQUOTE]
               ++ u ", " ++ quoted (u "match_info") ++ u ": null}}}").

Definition load_document_with_surrogate (raw : bytes) : outcome json :=
  if bool_decide (Byte.to_N <$> raw = Byte.to_N <$> surrogate_file)
  then Return (JDict document_with_surrogate)
  else no_json raw.

Definition knows_document_with_surrogate : Externals :=
  scripted (fun _ => Raise connection_reset) load_document_with_surrogate.

Definition world_with_surrogate : World :=
  {| fs := <[ metadata_json := File surrogate_file ]> {[ demos_dir := Dir ]};
     requests := []; clock := 0; log := []; progress := [];
     refused := fun _ => None |}.

(** *** An ID file *)

Definition ids_txt : path := [u "ids.txt"].

(** The lines [3], [# seen], an empty line and [ 7 ]. *)
Definition ids_txt_bytes : bytes :=
  byte_of <$> (u "3" ++ [10%N] ++ u "# seen" ++ [10%N] ++ [10%N]
               ++ u " 7 " ++ [10%N]).

Definition world_with_ids_file : World :=
  {| fs := {[ ids_txt := File ids_txt_bytes ]};
     requests := []; clock := 0; log := []; progress := [];
     refused := fun _ => None |}.

(** [--id 5 --id 3 --id 5 --ids-file ids.txt --start-id 3 --end-id 4] *)
Definition args_with_ids_file : Namespace :=
  {| args_output_dir := [u "demos"];
     args_ids_file := Some [ids_txt];
     args_start_id := Some 3;
     args_end_id := Some 4;
     args_ids := Some [5; 3; 5];
     args_chunk_size := 65536;
     args_retries := 3;
     args_timeout := 60;
     args_overwrite := false;
     args_metadata_file := None |}.

(** *** Headers *)

Definition quoted_param (key value : string) : str :=
  u key ++ u "=" ++ [DQUOTE] ++ u value ++ [DQUOTE].

(** [attachment; filename="a.rar"; filename*=UTF-8''b.rar] *)
Definition plain_then_extended : str :=
  u "attachment; " ++ quoted_param "filename" "a.rar"
  ++ u "; filename*=UTF-8''b.rar".

(** [attachment; filename*=UTF-8''b.rar; filename="a.rar"] *)
Definition extended_then_plain : str :=
  u "attachment; filename*=UTF-8''b.rar; " ++ quoted_param "filename" "a.rar".

(** [filename="x.rar"], with no disposition token before it. *)
Definition bare_filename : str := quoted_param "filename" "x.rar".

Definition bare_response : Response :=
  body_response 200 [(u "Content-Disposition", bare_filename)]
    (u "https://cdn.example/files/final.rar?token=1") [].

(** *** A batch of one demo already on disk and one unknown demo *)

Definition archived_then_unknown : Externals :=
  scripted (fun n => match n with
                     | O => Return demo_response
                     | _ => Return not_found_response
                     end) no_json.

(** The world with the archive of demo 12345 in place. *)
Definition archived_world : World :=
  {| fs := <[ match_rar := File (List.concat five_bytes) ]> {[ demos_dir := Dir ]};
     requests := []; clock := 0; log := []; progress := [];
     refused := fun _ => None |}.

Definition skipped_and_not_found : list Downloader.DownloadResult :=
  [ Downloader.mk_result 12345 "skipped" (u "File already exists")
      (Some match_rar);
    Downloader.mk_result 99999999 "not_found" (u "Demo ID does not exist") None ].

Definition no_bytes_downloaded : exn :=
  Exn AttributeError
    (u "'DownloadResult' object has no attribute 'bytes_downloaded'").

End Scenario.


(** ** More vocabulary: downloads that go through *)

Module Notions2.
Import Metadata Downloader Cli Notions.

(** The characters of a decimal numeral. *)
Definition is_decimal_char (c : N) : Prop := c = 45%N ∨ (48 <= c <= 57)%N.

(** The progress-bar updates a list of chunks causes. *)
Definition chunk_updates (chunks : list bytes) : list progress_event :=
  (fun chunk => BarUpdate (Z.of_nat (List.length chunk)))
    <$> filter (fun chunk => chunk <> []) chunks.

(** A status [raise_for_status] lets through. *)
Definition passes (resp : Response) : Prop :=
  status_code resp < 400 ∨ 600 <= status_code resp.

(** Where [download_demo] saves the body of [resp]. *)
Definition destination_of (d : DemoDownloader) (resp : Response) (id : Z)
    : path :=
  joinpath (output_dir d) (_filename_from_response resp id).

(** The world once the body of [resp] has been streamed to the destination
    and the download has been logged. *)
Definition world_after_download (d : DemoDownloader) (id : Z) (resp : Response)
    (total : option Z) (chunks : list bytes) (w : World) : World :=
  let url_ := DEMO_URL_TEMPLATE id in
  let destination := destination_of d resp id in
  {| fs := <[destination := File (List.concat chunks)]> (fs w);
     requests := requests w ++ [url_];
     clock := clock w;
     log := log (after_get id 1 url_ w)
            ++ [(INFO, u "Downloaded " ++ url_ ++ u " -> " ++ path_str destination)];
     progress := progress w ++ [BarOpen total] ++ chunk_updates chunks
                 ++ [BarClose];
     refused := refused w |}.

(** The log record of a metadata failure, if there is one. *)
Definition metadata_warning (id : Z) (o : outcome unit) : list (level * str) :=
  match o with
  | Raise exc =>
      [(WARNING,
        u "Failed to record metadata for demo " ++ str_of_Z id ++ u ": "
        ++ exn_msg exc)]
  | Return _ => []
  end.

(** A JSON value that is not an object. *)
Definition not_an_object (v : json) : Prop :=
  match v with JDict _ => False | _ => True end.

(** A stored document the merge cannot take: not an object, or an object
    whose [demos] is not one. *)
Definition off_schema (doc : json) : Prop :=
  match doc with
  | JDict d =>
      match dict_get (u "demos") d with
      | Some v => not_an_object v
      | None => False
      end
  | _ => True
  end.

(** The number of outcomes with a given status. *)
Definition count_status (s : string) (results : list DownloadResult) : Z :=
  Z.of_nat (List.length (filter (fun r => status r = u s) results)).

(** The bytes of an ID file for the range [start_id..end_id]. *)
Definition id_file_bytes (start_id end_id : Z) : bytes :=
  List.concat
    ((fun id => byte_of <$> (str_of_Z id ++ [10%N]))
       <$> py_range start_id (end_id + 1)).

(** The two records [_print_summary] ends with. *)
Definition summary_records (total downloaded skipped not_found failed : Z)
    (transferred elapsed : str) : list (level * str) :=
  [ (INFO,
     u "Summary: " ++ str_of_Z total ++ u " demos processed ("
     ++ str_of_Z downloaded ++ u " downloaded, "
     ++ str_of_Z skipped ++ u " skipped, "
     ++ str_of_Z not_found ++ u " not found, "
     ++ str_of_Z failed ++ u " failed)");
    (INFO,
     u "Session stats: " ++ str_of_Z downloaded ++ u " demos downloaded, "
     ++ transferred ++ u " transferred, elapsed " ++ elapsed) ].

End Notions2.

(** ** More scripted runs *)

Module Scenario2.
Import Metadata Downloader Cli Scenario.

(** A downloader that overwrites ([--overwrite]), without a metadata
    collector. *)
Definition overwriting_downloader : DemoDownloader :=
  {| output_dir := demos_dir; chunk_size := 65536; retries := 3;
     timeout := 60; skip_existing := false; metadata_collector := None |}.

(** The default downloader without a metadata collector. *)
Definition plain_downloader : DemoDownloader :=
  {| output_dir := demos_dir; chunk_size := 65536; retries := 3;
     timeout := 60; skip_existing := true; metadata_collector := None |}.

(** A body whose stream breaks after two bytes. *)
Definition broken_response : Response :=
  {| status_code := 200; reason := u "OK";
     headers := headers demo_response;
     url := url demo_response; text := [];
     iter_content := fun _ => ([[Byte.x61; Byte.x62]], Some connection_reset) |}.

Definition always_broken : Externals :=
  scripted (fun _ => Return broken_response) no_json.

(** A metadata file that holds the JSON list [[]]. *)
Definition list_file : bytes := byte_of <$> u "[]".

Definition load_list (raw : bytes) : outcome json :=
  if bool_decide (Byte.to_N <$> raw = Byte.to_N <$> list_file)
  then Return (JList [])
  else no_json raw.

Definition reads_a_list : Externals :=
  scripted (fun n => match n with
                     | O => Return demo_response
                     | _ => Return search_failure_response
                     end)
           load_list.

Definition list_document_world : World :=
  {| fs := <[ metadata_json := File list_file ]> {[ demos_dir := Dir ]};
     requests := []; clock := 0; log := []; progress := [];
     refused := fun _ => None |}.

(** A search page with a result card, and a match page that answers 500. *)
Definition search_page : Response :=
  body_response 200 [] (u "https://www.hltv.org/results?demoid=12345") [].

Definition card_href : str := u "/matches/2370931/alpha-vs-beta".

Definition card_without_page : Externals :=
  {| scraper_get := fun n _ _ _ =>
       match n with
       | O => Return search_page
       | _ => Return search_failure_response
       end;
     bs_select_one_attr := fun _ _ _ => Some (Some card_href);
     bs_select_texts := fun _ _ => [];
     urljoin := fun base href => base ++ href;
     py_int := int_of;
     utc_date_of_ms := fun _ => Return (u "1970-01-01");
     now_isoformat := fun n => u "T" ++ str_of_Z (Z.of_nat n);
     json_load := no_json;
     json_dump := dump;
     text_lines := lines_of;
     format_scaled := fun n => str_of_Z n ++ u " B";
     elapsed_text := fun _ _ => u "0:00:00";
     dir_st_size := 4096 |}.

(** [--id 7 --ids-file ids.txt --start-id 3] with no [--end-id]. *)
Definition half_range_args : Namespace :=
  {| args_output_dir := demos_dir;
     args_ids_file := Some [ids_txt];
     args_start_id := Some 3;
     args_end_id := None;
     args_ids := Some [7];
     args_chunk_size := 65536;
     args_retries := 3;
     args_timeout := 60;
     args_overwrite := false;
     args_metadata_file := None |}.

(** An ID file whose fourth line is no integer: the lines [# wanted demos],
    a blank line, [7], [ 12x ] and [9]. *)
Definition bad_ids_txt : path := [u "bad_ids.txt"].

Definition bad_ids_lines : list str :=
  [u "# wanted demos" ++ [10%N]; u "   " ++ [10%N]; u "7" ++ [10%N];
   u " 12x " ++ [10%N]; u "9" ++ [10%N]].

Definition world_with_bad_ids_file : World :=
  {| fs := <[ bad_ids_txt := File (byte_of <$> List.concat bad_ids_lines) ]>
             {[ ids_txt := File ids_txt_bytes ]};
     requests := []; clock := 0; log := []; progress := [];
     refused := fun _ => None |}.

(** A response that names the file [a<U+0000>b.rar]:
    [attachment; filename*=UTF-8''a%00b.rar]. *)
Definition nul_name_response : Response :=
  body_response 200
    [(u "Content-Disposition", u "attachment; filename*=UTF-8''a%00b.rar")]
    (u "https://www.hltv.org/download/demo/12345") five_bytes.

Definition names_with_nul : Externals :=
  scripted (fun _ => Return nul_name_response) no_json.

(** A response that names a file of 300 letters, and a file system that
    takes no name above 255 bytes. *)
Definition long_name : str := replicate 300 97%N ++ u ".rar".

Definition long_name_response : Response :=
  body_response 200
    [(u "Content-Disposition", u "attachment; filename=" ++ long_name)]
    (u "https://www.hltv.org/download/demo/12345") five_bytes.

Definition names_too_long : Externals :=
  scripted (fun _ => Return long_name_response) no_json.

Definition name_too_long (p : path) : exn :=
  Exn OSError (u "[Errno 36] File name too long: '" ++ path_str p ++ u "'").

Definition name_max_world : World :=
  {| fs := {[ demos_dir := Dir ]}; requests := []; clock := 0; log := [];
     progress := [];
     refused := fun p =>
       if existsb (fun s => (255 <? List.length s)%nat) p
       then Some (name_too_long p) else None |}.

(** [--ids-file missing.txt --id 7 --start-id 3] *)
Definition missing_file_args : Namespace :=
  {| args_output_dir := demos_dir;
     args_ids_file := Some [[u "missing.txt"]];
     args_start_id := Some 3;
     args_end_id := None;
     args_ids := Some [7];
     args_chunk_size := 65536;
     args_retries := 3;
     args_timeout := 60;
     args_overwrite := false;
     args_metadata_file := None |}.

(** The segments of [https://www.hltv.org/matches/2370931/alpha-vs-beta]. *)
Definition url_before : list str := [u "https:"; []; u "www.hltv.org"].
Definition url_id : str := u "2370931".
Definition url_after : list str := [u "alpha-vs-beta"].

End Scenario2.

(* ===================================================================== *)
(** * Properties *)
(* ===================================================================== *)

(** ** ID normalization *)

Module IdSet.
Import Downloader Cli Notions.

Lemma unique_loop_snoc (l : list Z) (x : Z) (seen : gset Z) (acc : list Z) :
  unique_loop (l ++ [x]) seen acc =
    if decide (x ∈ seen ∨ x ∈ l) then unique_loop l seen acc
    else unique_loop l seen acc ++ [x].
Proof.
  revert seen acc. induction l as [|a l IH]; intros seen acc; simpl.
  - case_bool_decide; case_decide; try done; set_solver.
  - case_bool_decide as Ha; rewrite IH.
    + destruct (decide (x ∈ seen ∨ x ∈ l)), (decide (x ∈ seen ∨ x ∈ a :: l));
        try done; set_solver.
    + destruct (decide (x ∈ {[a]} ∪ seen ∨ x ∈ l)),
        (decide (x ∈ seen ∨ x ∈ a :: l)); try done; set_solver.
Qed.

Lemma unique_demo_ids_snoc (l : list Z) (x : Z) :
  unique_demo_ids (l ++ [x]) =
    if decide (x ∈ l) then unique_demo_ids l else unique_demo_ids l ++ [x].
Proof.
  unfold unique_demo_ids. rewrite unique_loop_snoc.
  destruct (decide (x ∈ (∅ : gset Z) ∨ x ∈ l)), (decide (x ∈ l));
    try done; set_solver.
Qed.

Lemma elem_of_unique_demo_ids (l : list Z) (x : Z) :
  x ∈ unique_demo_ids l ↔ x ∈ l.
Proof.
  induction l as [|a l IH] using rev_ind; [done|].
  rewrite unique_demo_ids_snoc. case_decide; set_solver.
Qed.

Lemma NoDup_unique_demo_ids (l : list Z) : NoDup (unique_demo_ids l).
Proof.
  induction l as [|a l IH] using rev_ind; [constructor|].
  rewrite unique_demo_ids_snoc. case_decide; [done|].
  apply NoDup_app. split_and!; [done| |apply NoDup_singleton].
  intros y Hy Hin. apply list_elem_of_singleton in Hin as ->.
  rewrite elem_of_unique_demo_ids in Hy. done.
Qed.

Lemma filter_agree {A} (P Q : A -> Prop) `{!∀ x, Decision (P x)}
    `{!∀ x, Decision (Q x)} (l : list A) :
  (∀ x, x ∈ l -> P x ↔ Q x) -> filter P l = filter Q l.
Proof.
  induction l as [|a l IH]; intros Hagree; [done|].
  rewrite !filter_cons.
  rewrite IH by (intros; apply Hagree; by right).
  destruct (decide (P a)) as [HP|HP], (decide (Q a)) as [HQ|HQ]; try done;
    exfalso; apply (Hagree a) in HP || apply (Hagree a) in HQ;
    try done; by left.
Qed.

Lemma first_occurrences_snoc (l : list Z) (x : Z) :
  first_occurrences (l ++ [x]) =
    if decide (x ∈ l) then first_occurrences l else first_occurrences l ++ [x].
Proof.
  unfold first_occurrences.
  rewrite imap_app, filter_app, fmap_app. simpl.
  rewrite (filter_agree (fun ix => ix.2 ∉ take ix.1 (l ++ [x]))
             (fun ix => ix.2 ∉ take ix.1 l) (imap pair l)).
  2:{ intros [i y] Hin. apply elem_of_lookup_imap_1 in Hin.
      destruct Hin as [j [z [[= -> ->] Hz]]]. simpl.
      apply lookup_lt_Some in Hz.
      rewrite take_app_le by lia. done. }
  rewrite filter_cons, filter_nil. simpl.
  rewrite Nat.add_0_r, take_app_length.
  destruct (decide (x ∉ l)), (decide (x ∈ l)); try done.
  by rewrite app_nil_r.
Qed.

Lemma unique_demo_ids_first_occurrences (l : list Z) :
  unique_demo_ids l = first_occurrences l.
Proof.
  induction l as [|a l IH] using rev_ind; [done|].
  by rewrite unique_demo_ids_snoc, first_occurrences_snoc, IH.
Qed.

Lemma elem_of_py_range (a b x : Z) : x ∈ py_range a b ↔ a <= x < b.
Proof.
  unfold py_range. rewrite list_elem_of_fmap. split.
  - intros [i [-> Hi]]. apply elem_of_seq in Hi. lia.
  - intros Hx. exists (Z.to_nat (x - a)). split; [lia|].
    apply elem_of_seq. lia.
Qed.

End IdSet.

(** ** File names from [Content-Disposition] *)

Module Disposition.
Import Downloader Notions Scenario.

Lemma parse_parameters_cons (part : str) (rest : list str) :
  parse_parameters (part :: rest) =
    if is_filename_param part then Some (filename_of_param part)
    else parse_parameters rest.
Proof.
  unfold is_filename_param, filename_of_param, param_key, param_text. simpl.
  destruct (contains 61 part); simpl; [|done].
  destruct (split1 61 part) as [key value]; simpl.
  destruct (str_eqb (strip (lower key)) (u "filename*")); simpl; [done|].
  by destruct (str_eqb (strip (lower key)) (u "filename")).
Qed.

Lemma parse_parameters_first (before : list str) (p : str) (after : list str) :
  Forall (fun q => is_filename_param q = false) before ->
  is_filename_param p = true ->
  parse_parameters (before ++ p :: after) = Some (filename_of_param p).
Proof.
  intros Hbefore Hp. induction Hbefore as [|q before Hq _ IH]; simpl app.
  - by rewrite parse_parameters_cons, Hp.
  - by rewrite parse_parameters_cons, Hq.
Qed.

(** *** Splitting at a separator *)

Lemma split_on_no_sep (c : N) (s : str) :
  contains c s = false -> split_on c s = [s].
Proof.
  induction s as [|a s IH]; simpl; [done|].
  rewrite N.eqb_sym. intros [Ha Hs]%orb_false_elim.
  by rewrite Ha, IH.
Qed.

Lemma split_on_app_sep (c : N) (s rest : str) :
  contains c s = false ->
  split_on c (s ++ c :: rest) = s :: split_on c rest.
Proof.
  induction s as [|a s IH]; simpl.
  - by rewrite N.eqb_refl.
  - rewrite N.eqb_sym. intros [Ha Hs]%orb_false_elim.
    by rewrite Ha, IH.
Qed.

Lemma split_on_pieces (c : N) (s : str) :
  Forall (fun piece => contains c piece = false) (split_on c s).
Proof.
  induction s as [|a s IH]; simpl; [by repeat constructor|].
  destruct (N.eqb a c) eqn:Ha; [by constructor|].
  destruct (split_on c s) as [|h r]; [by repeat constructor; simpl; rewrite N.eqb_sym, Ha|].
  inversion_clear IH as [|? ? Hh Hr]. constructor; [|done].
  simpl. by rewrite N.eqb_sym, Ha, Hh.
Qed.

(** A path name holds no slash. *)
Lemma name_Path_no_slash (s : str) : contains SLASH (name (Path s)) = false.
Proof.
  unfold name.
  destruct (last (Path s)) as [x|] eqn:Hlast; [|done].
  destruct (is_root x) eqn:Hroot; [done|].
  apply last_Some_elem_of in Hlast. unfold Path in Hlast.
  apply elem_of_app in Hlast as [Hin|Hin].
  - assert (is_root x = true) as Hx; [|congruence].
    unfold root_of in Hin.
    repeat (match type of Hin with
            | context [match ?l with _ => _ end] => destruct l
            | context [if ?b then _ else _] => destruct b
            end; simpl in Hin);
      try (by apply elem_of_nil in Hin);
      apply list_elem_of_singleton in Hin as ->; done.
  - apply list_elem_of_filter in Hin as [_ Hin].
    pose proof (split_on_pieces SLASH s) as Hall.
    rewrite Forall_forall in Hall. by apply Hall.
Qed.

Lemma disposition_parts_single (header : str) :
  contains 59 header = false ->
  disposition_parts header = if decide (strip header = []) then [] else [strip header].
Proof.
  intros Hone. unfold disposition_parts. rewrite split_on_no_sep by done.
  rewrite filter_cons, filter_nil.
  destruct (decide (strip header ≠ [])), (decide (strip header = [])); done.
Qed.

Lemma disposition_parts_first (seg rest : str) :
  contains 59 seg = false ->
  disposition_parts (seg ++ [59%N] ++ rest) =
    (if decide (strip seg = []) then [] else [strip seg])
    ++ disposition_parts rest.
Proof.
  intros Hseg. unfold disposition_parts. simpl app.
  rewrite split_on_app_sep by done. rewrite filter_cons.
  destruct (decide (strip seg ≠ [])), (decide (strip seg = [])); done.
Qed.

Lemma str_partition_at_mark (before after : str) :
  contains 39 before = false ->
  str_partition (u "''") (before ++ u "''" ++ after) = (before, u "''", after).
Proof.
  induction before as [|c before IH]; intros Hclean.
  - reflexivity.
  - change (contains 39 (c :: before))
      with (N.eqb 39 c || contains 39 before) in Hclean.
    apply orb_false_elim in Hclean as [Hc Hrest].
    change ((c :: before) ++ u "''" ++ after)
      with (c :: (before ++ u "''" ++ after)).
    cbn [str_partition].
    change (startswith (u "''") (c :: before ++ u "''" ++ after))
      with (N.eqb 39 c && startswith [39%N] (before ++ u "''" ++ after)).
    rewrite Hc. cbn [andb]. by rewrite IH.
Qed.

(** The charset named before the mark plays no part in the file name. *)
Lemma extended_filename_ignores_charset (charset encoded : str) :
  contains 39 charset = false ->
  encoded <> [] ->
  extended_filename (charset ++ u "''" ++ encoded)
  = name (Path (unquote encoded)).
Proof.
  intros Hclean Hencoded. unfold extended_filename.
  rewrite str_partition_at_mark by done. by destruct encoded.
Qed.

(** The examples of the specification: [match.rar] for demo 12345 is saved
    as [12345_match.rar], and a percent-encoded name is decoded. *)
Example filename_prefixing :
  _filename_from_response demo_response 12345 = u "12345_match.rar"
  ∧ _parse_content_disposition (u "attachment; filename*=UTF-8''caf%C3%A9.rar")
    = Some (u "caf" ++ [233%N] ++ u ".rar").
Proof. split; vm_compute; reflexivity. Qed.

(** C3 (as amended): for every Content-Disposition header value, the
    parser returns the value of the first part after the leading one,
    scanning left to right, whose key is [filename*] or [filename]: the
    percent-decoded text after the charset mark for a [filename*], the plain
    value for a [filename].  When both are present the one that comes first
    is used.  The result is a base name: it holds no slash. *)
Theorem first_filename_parameter_wins
    (header first p : str) (before after : list str) :
  disposition_parts header = first :: before ++ p :: after ->
  Forall (fun q => is_filename_param q = false) before ->
  is_filename_param p = true ->
  _parse_content_disposition header =
    Some (if str_eqb (param_key p) (u "filename*")
          then extended_filename (param_text p)
          else name (Path (param_text p)))
  ∧ forall r, _parse_content_disposition header = Some r ->
              contains SLASH r = false.
Proof.
  intros Hparts Hbefore Hp.
  assert (_parse_content_disposition header = Some (filename_of_param p)) as Heq.
  { unfold _parse_content_disposition. rewrite Hparts. simpl drop.
    by apply parse_parameters_first. }
  split; [exact Heq|].
  intros r Hr. rewrite Heq in Hr. injection Hr as <-.
  unfold filename_of_param, extended_filename.
  destruct (str_eqb (param_key p) (u "filename*")).
  - destruct (str_partition (u "''") (param_text p)) as [[? ?] enc].
    apply name_Path_no_slash.
  - apply name_Path_no_slash.
Qed.

(** Both orders of the two parameters. *)
Lemma first_filename_parameter_wins_witness :
  _parse_content_disposition extended_then_plain = Some (u "b.rar")
  ∧ _parse_content_disposition plain_then_extended = Some (u "a.rar").
Proof.
  split.
  - apply (first_filename_parameter_wins extended_then_plain (u "attachment")
             (u "filename*=UTF-8''b.rar") [] [quoted_param "filename" "a.rar"]).
    + vm_compute. reflexivity.
    + constructor.
    + vm_compute. reflexivity.
  - apply (first_filename_parameter_wins plain_then_extended (u "attachment")
             (quoted_param "filename" "a.rar") [] [u "filename*=UTF-8''b.rar"]).
    + vm_compute. reflexivity.
    + constructor.
    + vm_compute. reflexivity.
Defined.

(** With [filename=] before [filename*=], both present, the plain value is
    returned and the [filename*] value is not. *)
Lemma extended_not_preferred_when_second :
  disposition_parts plain_then_extended =
    [u "attachment"; quoted_param "filename" "a.rar"; u "filename*=UTF-8''b.rar"]
  ∧ _parse_content_disposition plain_then_extended = Some (u "a.rar")
  ∧ extended_filename (param_text (u "filename*=UTF-8''b.rar")) = u "b.rar"
  ∧ _parse_content_disposition plain_then_extended <> Some (u "b.rar").
Proof. vm_compute. repeat split; congruence. Qed.

(** C10: the first semicolon-separated segment is never a source of the
    file name.  A header of one segment only, such as [filename="x.rar"],
    yields no parsed name, and the name then comes from the final URL (or
    is [<id>_demo.rar]); with more segments the result is computed from
    those after the first. *)
Theorem first_segment_is_never_parsed
    (response : Response) (id : Z) (header seg rest : str) :
  headers_get (u "Content-Disposition") (headers response) = Some header ->
  contains 59 header = false ->
  contains 59 seg = false ->
  _parse_content_disposition header = None
  ∧ _filename_from_response response id =
      match url_basename (url response) with
      | [] => str_of_Z id ++ u "_demo.rar"
      | filename => _ensure_demo_id_prefix filename id
      end
  ∧ _parse_content_disposition (seg ++ [59%N] ++ rest) =
      parse_parameters
        (if decide (strip seg = []) then drop 1 (disposition_parts rest)
         else disposition_parts rest).
Proof.
  intros Hget Hheader Hseg.
  assert (_parse_content_disposition header = None) as Hnone.
  { unfold _parse_content_disposition.
    rewrite disposition_parts_single by done. by case_decide. }
  split_and!.
  - exact Hnone.
  - unfold _filename_from_response. rewrite Hget, Hnone. by destruct header.
  - unfold _parse_content_disposition.
    rewrite disposition_parts_first by done. by case_decide.
Qed.

(** A header that is a [filename] parameter and nothing else. *)
Lemma first_segment_is_never_parsed_witness :
  _parse_content_disposition bare_filename = None
  ∧ _filename_from_response bare_response 7 = u "7_final.rar"
  ∧ _parse_content_disposition (bare_filename ++ [59%N] ++ u " size=3") = None.
Proof.
  apply (first_segment_is_never_parsed bare_response 7 bare_filename
           bare_filename (u " size=3")); vm_compute; reflexivity.
Defined.

End Disposition.

(** ** The retry loop *)

Module Retry.
Import Metadata Downloader Cli Notions.

Section WithExternals.
Context `{Externals}.

Lemma new_DemoDownloader_fields
    (od : path) (cs r t : Z) (se : bool) (mp : option path)
    (w0 w1 : World) (d : DemoDownloader) :
  new_DemoDownloader od cs r t se mp w0 = (Return d, w1) ->
  retries d = Z.max 1 r ∧ timeout d = t ∧ output_dir d = od
  ∧ chunk_size d = cs ∧ skip_existing d = se.
Proof.
  unfold new_DemoDownloader, mbind, M_bind, bind, mkdir_parents, ret.
  repeat case_match; try discriminate; by intros [= <- _].
Qed.

Lemma attempt_once_404 (d : DemoDownloader) (id attempt : Z) (url_ : str)
    (w : World) (resp : Response) :
  scraper_get (List.length (requests w)) url_ (timeout d) true = Return resp ->
  status_code resp = 404 ->
  attempt_once d id url_ attempt w =
    (Return (mk_result id "not_found" (u "Demo ID does not exist") None),
     after_get id attempt url_ w).
Proof.
  intros Hget Hstatus.
  unfold attempt_once, mbind, M_bind, bind, logging, modify, GET. cbn.
  rewrite Hget, Hstatus. reflexivity.
Qed.

Lemma attempt_once_raises (d : DemoDownloader) (id attempt : Z) (url_ : str)
    (w : World) (e : exn) :
  scraper_get (List.length (requests w)) url_ (timeout d) true = Raise e ->
  attempt_once d id url_ attempt w = (Raise e, after_get id attempt url_ w).
Proof.
  intros Hget.
  unfold attempt_once, mbind, M_bind, bind, logging, modify, GET. cbn.
  rewrite Hget. reflexivity.
Qed.

Lemma attempt_once_status (d : DemoDownloader) (id attempt : Z) (url_ : str)
    (w w' : World) (r : DownloadResult) :
  attempt_once d id url_ attempt w = (Return r, w') ->
  status r ∈ batch_statuses.
Proof.
  unfold attempt_once, mbind, M_bind, bind, try_except, try_finally, ret.
  intros Hrun.
  repeat (case_match; try discriminate); simplify_eq;
    unfold batch_statuses, mk_result; cbn [status]; by repeat constructor.
Qed.

Lemma attempts_status (d : DemoDownloader) (id : Z) (url_ : str) (n : nat)
    (attempt : Z) (last_error : option exn) (w w' : World) (r : DownloadResult) :
  attempts d id url_ n attempt last_error w = (Return r, w') ->
  status r ∈ batch_statuses.
Proof.
  revert attempt last_error w.
  induction n as [|n IH]; intros attempt last_error w; cbn [attempts].
  - unfold mbind, M_bind, bind, logging, modify, ret. intros [= <- _].
    unfold batch_statuses, mk_result; cbn [status]; by repeat constructor.
  - unfold try_except.
    destruct (attempt_once d id url_ attempt w) as [[r0|e] w0] eqn:Hone.
    + intros [= <- _]. by eapply attempt_once_status.
    + destruct (is_RequestException e); [|discriminate].
      unfold mbind, M_bind, bind, logging, modify. apply IH.
Qed.

Lemma download_many_statuses (d : DemoDownloader) (ids : list Z)
    (w w' : World) (results : list DownloadResult) :
  download_many d ids w = (Return results, w') ->
  Forall (fun r => status r ∈ batch_statuses) results.
Proof.
  revert w w' results.
  induction ids as [|id ids IH]; intros w w' results; cbn [download_many].
  - intros [= <- _]. constructor.
  - unfold mbind, M_bind, bind.
    destruct (download_demo d id w) as [[r|e] w1] eqn:Hone; [|discriminate].
    destruct (download_many d ids w1) as [[rs|e] w2] eqn:Hrest; [|discriminate].
    intros [= <- _]. constructor.
    + unfold download_demo in Hone. exact (attempts_status _ _ _ _ _ _ _ _ _ Hone).
    + exact (IH _ _ _ Hrest).
Qed.
(** Every non-empty chunk is appended to the destination file. *)
Lemma write_chunks_content (destination : path) (chunks : list bytes)
    (w : World) (content : bytes) :
  fs w !! destination = Some (File content) ->
  exists w',
    write_chunks destination chunks w = (Return tt, w')
    ∧ fs w' = <[destination := File (content ++ List.concat chunks)]> (fs w)
    ∧ requests w' = requests w.
Proof.
  revert w content.
  induction chunks as [|chunk chunks IH]; intros w content Hfile.
  - exists w. cbn. rewrite app_nil_r. split_and!; [done| |done].
    symmetry. by apply insert_id.
  - cbn [write_chunks List.concat]. destruct chunk as [|b chunk].
    + exact (IH w content Hfile).
    + unfold mbind, M_bind, bind, write_bytes, progress_call, modify.
      rewrite Hfile. cbn [fs set_fs].
      edestruct (IH ({|
          fs := <[destination:=File (content ++ b :: chunk)]> (fs w);
          requests := requests w; clock := clock w; log := log w;
          progress := progress w ++
            [BarUpdate (Z.of_nat (List.length (b :: chunk)))];
          refused := refused w |})
          (content ++ b :: chunk)) as (w' & Hrun & Hfs & Hreq).
      { cbn [fs]. apply lookup_insert_eq. }
      exists w'. split_and!; [exact Hrun| |exact Hreq].
      rewrite Hfs. cbn [fs]. rewrite insert_insert_eq.
      by rewrite <- app_assoc.
Qed.

(** C7: a 404 on the first attempt ends [download_demo] at once: the
    outcome is NotFound, one GET has been made, and the file system is as it
    was. *)
Theorem not_found_short_circuits
    (od : path) (cs r t : Z) (se : bool) (mp : option path) (w0 w1 : World)
    (d : DemoDownloader) (id : Z) (w : World) (resp : Response) :
  new_DemoDownloader od cs r t se mp w0 = (Return d, w1) ->
  scraper_get (List.length (requests w)) (DEMO_URL_TEMPLATE id) (timeout d) true
    = Return resp ->
  status_code resp = 404 ->
  exists w',
    download_demo d id w =
      (Return (mk_result id "not_found" (u "Demo ID does not exist") None), w')
    ∧ requests w' = requests w ++ [DEMO_URL_TEMPLATE id]
    ∧ fs w' = fs w.
Proof.
  intros Hnew Hget Hstatus.
  apply new_DemoDownloader_fields in Hnew as (Hretries & _).
  exists (after_get id 1 (DEMO_URL_TEMPLATE id) w). split_and!; [|done|done].
  unfold download_demo.
  destruct (Z.to_nat (retries d)) as [|n] eqn:Hn; [lia|].
  cbn. unfold try_except.
  by rewrite (attempt_once_404 _ _ _ _ _ resp).
Qed.

Lemma after_failures_requests d id url_ errs n k attempt w :
  requests (after_failures d id url_ errs n k attempt w) =
    requests w ++ replicate n url_.
Proof.
  revert k attempt w. induction n as [|n IH]; intros k attempt w; cbn.
  - by rewrite app_nil_r.
  - rewrite IH. cbn. by rewrite <- app_assoc.
Qed.

Lemma after_failures_fs d id url_ errs n k attempt w :
  fs (after_failures d id url_ errs n k attempt w) = fs w.
Proof.
  revert k attempt w. induction n as [|n IH]; intros k attempt w; cbn;
    [done|by rewrite IH].
Qed.

Lemma attempts_all_raise (d : DemoDownloader) (id : Z) (url_ : str)
    (errs : nat -> exn) (n k : nat) (attempt : Z) (last_error : option exn)
    (w : World) :
  (forall i, (i < n)%nat ->
     scraper_get (List.length (requests w) + i) url_ (timeout d) true
       = Raise (errs (k + i)%nat)
     ∧ is_RequestException (errs (k + i)%nat) = true) ->
  let final := match n with
               | O => last_error
               | S n' => Some (errs (k + n')%nat)
               end in
  let w' := after_failures d id url_ errs n k attempt w in
  attempts d id url_ n attempt last_error w =
    (Return (mk_result id "failed" (failure_message d final) None),
     {| fs := fs w'; requests := requests w'; clock := clock w';
        log := log w' ++ [(ERROR, failure_message d final)];
        progress := progress w';
        refused := refused w' |}).
Proof.
  revert k attempt last_error w.
  induction n as [|n IH]; intros k attempt last_error w Hraise; cbn.
  - reflexivity.
  - destruct (Hraise 0%nat ltac:(lia)) as [Hget Hreq].
    rewrite !Nat.add_0_r in Hget. rewrite Nat.add_0_r in Hreq.
    unfold try_except. rewrite (attempt_once_raises _ _ _ _ _ _ Hget), Hreq.
    unfold mbind, M_bind, bind, logging, modify. cbn.
    rewrite (IH (S k)).
    + destruct n as [|n'].
      * cbn. rewrite Nat.add_0_r. reflexivity.
      * replace (S k + n')%nat with (k + S n')%nat by lia. reflexivity.
    + intros i Hi. cbn [requests after_get]. rewrite length_app.
      replace (List.length (requests w) + List.length [url_] + i)%nat
        with (List.length (requests w) + S i)%nat by (cbn; lia).
      replace (S k + i)%nat with (k + S i)%nat by lia.
      apply Hraise. lia.
Qed.

(** C6: when every GET raises a request error, [download_demo] makes
    exactly [max(1, retries)] GETs and returns a Failed outcome whose message
    names that count and the last error. *)
Theorem retries_exhausted
    (od : path) (cs r t : Z) (se : bool) (mp : option path) (w0 w1 : World)
    (d : DemoDownloader) (id : Z) (w : World) (errs : nat -> exn) :
  new_DemoDownloader od cs r t se mp w0 = (Return d, w1) ->
  (forall i, (i < Z.to_nat (Z.max 1 r))%nat ->
     scraper_get (List.length (requests w) + i) (DEMO_URL_TEMPLATE id) t true
       = Raise (errs i)
     ∧ is_RequestException (errs i) = true) ->
  exists w',
    download_demo d id w =
      (Return
         (mk_result id "failed"
            (u "Failed after " ++ str_of_Z (Z.max 1 r) ++ u " attempts: "
             ++ exn_msg (errs (Z.to_nat (Z.max 1 r) - 1)%nat)) None), w')
    ∧ requests w' =
        requests w ++ replicate (Z.to_nat (Z.max 1 r)) (DEMO_URL_TEMPLATE id)
    ∧ fs w' = fs w.
Proof.
  intros Hnew Hraise.
  apply new_DemoDownloader_fields in Hnew as (Hretries & Htimeout & _).
  unfold download_demo. rewrite Hretries.
  rewrite (attempts_all_raise d id _ errs _ 0%nat).
  2:{ intros i Hi. rewrite Htimeout. cbn. by apply Hraise. }
  destruct (Z.to_nat (Z.max 1 r)) as [|n] eqn:Hn; [lia|].
  replace (S n - 1)%nat with n by lia.
  unfold failure_message, str_of_last_error. rewrite Hretries.
  eexists. split_and!.
  - reflexivity.
  - cbn [requests]. rewrite after_failures_requests. reflexivity.
  - cbn [fs]. apply after_failures_fs.
Qed.

End WithExternals.
End Retry.

(** ** The batch: IDs in, exit status out *)

Module Batch.
Import Downloader Cli Notions IdSet Retry.

Section WithExternals.
Context `{Externals}.

(** The loop over the lines of an ID file returns the integers of the
    lines it does not pass over. *)
Lemma load_lines_ids (file_path_ : path) (line_number : Z) (lines : list str)
    (ids : list Z) (w : World) :
  Forall2 (fun line id => py_int (strip line) = Return id)
    (filter (fun line => is_skipped_line line = false) lines) ids ->
  load_lines file_path_ line_number lines w = (Return ids, w).
Proof.
  revert line_number ids.
  induction lines as [|line lines IH]; intros line_number ids Hids.
  - apply Forall2_nil_inv_l in Hids as ->. reflexivity.
  - cbn [load_lines]. rewrite filter_cons in Hids.
    fold (is_skipped_line line).
    destruct (is_skipped_line line) eqn:Hskip.
    + rewrite decide_False in Hids by done. by apply IH.
    + rewrite decide_True in Hids by done.
      apply Forall2_cons_inv_l in Hids as (id & ids' & Hint & Hrest & ->).
      rewrite Hint. unfold mbind, M_bind, bind.
      by rewrite (IH _ _ Hrest).
Qed.

Lemma load_ids_from_files_holds (files : list path) (idss : list (list Z))
    (w : World) :
  Forall2 (file_holds w) files idss ->
  _load_ids_from_files files w = (Return (List.concat idss), w).
Proof.
  induction 1 as [|file ids files idss [raw lines Hfile Hlines Hids] _ IH].
  - reflexivity.
  - cbn [_load_ids_from_files List.concat].
    unfold mbind, M_bind, bind, read_bytes. rewrite Hfile, Hlines.
    rewrite (load_lines_ids _ _ _ _ _ Hids). cbn. by rewrite IH.
Qed.

Lemma ids_from_files_requested (args : Namespace) (w : World)
    (from_files : list Z) :
  requested_files args w from_files ->
  ids_from_files args w = (Return from_files, w).
Proof.
  intros [Hnone|files idss Hsome Hhold]; unfold ids_from_files.
  - by rewrite Hnone.
  - rewrite Hsome. destruct files as [|file files].
    + apply Forall2_nil_inv_l in Hhold as ->. reflexivity.
    + by apply load_ids_from_files_holds.
Qed.

(** C5: the IDs collected from the explicit list, the ID files and the
    inclusive range are the supplied values, each exactly once, in the order
    of their first occurrence in explicit ++ file-sourced ++ range, where the
    file-sourced IDs are the integers on the lines of the files, file after
    file, blank and comment lines left out. *)
Theorem collect_demo_ids_first_occurrence
    (args : Namespace) (w : World) (from_files range_ids : list Z) :
  requested_files args w from_files ->
  requested_range args range_ids ->
  exists out,
    _collect_demo_ids args w = (Return out, w)
    ∧ out = first_occurrences (explicit_ids args ++ from_files ++ range_ids)
    ∧ NoDup out
    ∧ forall x, x ∈ out <->
        x ∈ explicit_ids args ∨ x ∈ from_files ∨ x ∈ range_ids.
Proof.
  intros Hfiles%ids_from_files_requested Hrange.
  exists (unique_demo_ids (explicit_ids args ++ from_files ++ range_ids)).
  split_and!.
  - unfold _collect_demo_ids, mbind, M_bind, bind. rewrite Hfiles.
    destruct Hrange as [Hs He|a b Hs He Hle]; rewrite Hs, He.
    + by rewrite app_nil_r.
    + destruct (Z.ltb_spec b a); [lia|]. by rewrite app_assoc.
  - apply unique_demo_ids_first_occurrences.
  - apply NoDup_unique_demo_ids.
  - intros x. rewrite elem_of_unique_demo_ids, !elem_of_app. done.
Qed.

(** C9: with [end_id < start_id], [write_demo_id_file] raises before it
    touches anything: the world, and so the file system, is as it was, and
    the command ends with a non-zero status. *)
Theorem write_demo_id_file_rejects_reversed_range
    (start_id end_id : Z) (destination : path) (w : World) :
  end_id < start_id ->
  write_demo_id_file start_id end_id destination w =
    (Raise (Exn ValueError
              (u "end_id must be greater than or equal to start_id")), w)
  ∧ (main_generate_id_file start_id end_id destination w).2 = w
  ∧ exit_status (main_generate_id_file start_id end_id destination w).1 = 1.
Proof.
  intros Hlt.
  assert (write_demo_id_file start_id end_id destination w =
    (Raise (Exn ValueError
              (u "end_id must be greater than or equal to start_id")), w))
    as Hraise.
  { unfold write_demo_id_file. by destruct (Z.ltb_spec end_id start_id); [|lia]. }
  unfold main_generate_id_file, mbind, M_bind, bind. by rewrite Hraise.
Qed.

Lemma failed_downloads_nil (results : list DownloadResult) :
  failed_downloads results = [] <->
  Forall (fun r => status r ∈ [u "downloaded"; u "skipped"]) results.
Proof.
  unfold failed_downloads. induction results as [|r results IH]; [done|].
  rewrite filter_cons, Forall_cons.
  destruct (decide (status r ∉ [u "downloaded"; u "skipped"])) as [Hr|Hr].
  - split; [done|]. by intros [? _].
  - rewrite IH. apply dec_stable in Hr. naive_solver.
Qed.

(** C2 (as amended): for the outcomes of a download batch, once their
    summary has been printed, the exit status is 1 if some outcome is Failed
    or NotFound and 0 otherwise; Skipped (and Downloaded) outcomes never
    make it non-zero. *)
Theorem exit_status_of_batch
    (d : DemoDownloader) (ids : list Z) (w0 w1 : World)
    (results : list DownloadResult) (elapsed : str) (w w' : World) :
  download_many d ids w0 = (Return results, w1) ->
  _print_summary results elapsed w = (Return tt, w') ->
  exists code,
    report_and_exit results elapsed w = (Return code, w')
    ∧ (code = 0 ∨ code = 1)
    ∧ (code <> 0 <->
       exists r, r ∈ results
                 ∧ (status r = u "failed" ∨ status r = u "not_found")).
Proof.
  intros Hbatch%download_many_statuses Hsummary.
  unfold report_and_exit, mbind, M_bind, bind. rewrite Hsummary.
  destruct (failed_downloads results) as [|r0 rest] eqn:Hfailed.
  - exists 0. split_and!; [done|by left|]. split; [done|].
    intros [r [Hin Hr]]. exfalso.
    apply failed_downloads_nil in Hfailed.
    rewrite Forall_forall in Hfailed. specialize (Hfailed r Hin).
    destruct Hr as [Hr|Hr]; rewrite Hr in Hfailed;
      rewrite !elem_of_cons, elem_of_nil in Hfailed;
      destruct Hfailed as [Heq|[Heq|[]]]; discriminate Heq.
  - exists 1. split_and!; [done|by right|]. split; [|done]. intros _.
    assert (r0 ∈ failed_downloads results) as Hin by (rewrite Hfailed; left).
    apply list_elem_of_filter in Hin as [Hnot Hin].
    exists r0. split; [done|].
    rewrite Forall_forall in Hbatch. specialize (Hbatch r0 Hin).
    unfold batch_statuses in Hbatch.
    rewrite !elem_of_cons in Hbatch. rewrite !elem_of_cons in Hnot.
    rewrite elem_of_nil in Hbatch. tauto.
Qed.

End WithExternals.
End Batch.

(** ** The metadata document *)

Module Document.
Import Metadata Downloader Notions.

Lemma str_eqb_eq (a b : str) : str_eqb a b = true <-> a = b.
Proof. unfold str_eqb. apply bool_decide_eq_true. Qed.

Lemma str_eqb_refl (a : str) : str_eqb a a = true.
Proof. by apply str_eqb_eq. Qed.

Lemma str_eqb_neq (a b : str) : a <> b -> str_eqb a b = false.
Proof. intros Hne. unfold str_eqb. by apply bool_decide_eq_false. Qed.

Lemma dict_get_set_eq (k : str) (v : json) (d : dict) :
  dict_get k (dict_set k v d) = Some v.
Proof.
  induction d as [|[k' v'] d IH]; cbn.
  - by rewrite str_eqb_refl.
  - destruct (str_eqb k k') eqn:Hk; cbn; rewrite Hk; [done|exact IH].
Qed.

Lemma dict_get_set_ne (k k' : str) (v : json) (d : dict) :
  k <> k' -> dict_get k' (dict_set k v d) = dict_get k' d.
Proof.
  intros Hne. induction d as [|[k0 v0] d IH]; cbn.
  - rewrite str_eqb_neq; [done|congruence].
  - destruct (str_eqb k k0) eqn:Hk; cbn.
    + apply str_eqb_eq in Hk as <-.
      by rewrite (str_eqb_neq k' k) by congruence.
    + by rewrite IH.
Qed.

Section WithExternals.
Context `{Externals}.

Lemma with_log_nil (w : World) : with_log w [] = w.
Proof. destruct w. unfold with_log. cbn. by rewrite app_nil_r. Qed.

Lemma load_metadata_document (self : MetadataCollector) (w : World)
    (old : dict) (records : list (level * str)) :
  document_before self w old records ->
  is_dir (fs w) (metadata_path self) = false ->
  _load_metadata self w = (Return (JDict old), with_log w records).
Proof.
  intros Hdoc Hnotdir.
  unfold _load_metadata, mbind, M_bind, bind, exists_. rewrite Hnotdir.
  destruct Hdoc as [Hnone|raw e Hfile Hload Hjson|raw d Hfile Hload].
  - rewrite Hnone. cbn. by rewrite with_log_nil.
  - rewrite Hfile. cbn. unfold try_except, bind, read_bytes, of_outcome.
    rewrite Hfile, Hload, Hjson. reflexivity.
  - rewrite Hfile. cbn. unfold try_except, bind, read_bytes, of_outcome.
    rewrite Hfile, Hload. by rewrite with_log_nil.
Qed.

Lemma path_error_None (w : World) (p : path) :
  path_error w p = None -> has_nul p = false ∧ refused w p = None.
Proof. unfold path_error. by destruct (has_nul p). Qed.

Lemma has_nul_parent (p : path) : has_nul p = false -> has_nul (parent p) = false.
Proof.
  unfold has_nul. rewrite <- !not_true_iff_false, !existsb_exists.
  intros Hnone (s & Hin & Hs). apply Hnone. exists s. split; [|done].
  destruct p as [|x [|y q]]; cbn [parent] in Hin; [done| |].
  - by destruct (is_root x).
  - rewrite removelast_firstn_len in Hin.
    apply list_elem_of_In, elem_of_take in Hin as (i & Hi & _).
    by apply list_elem_of_In, (list_elem_of_lookup_2 _ i).
Qed.

Lemma mkdir_parents_existing (p : path) (w : World) :
  has_nul p = false ->
  is_dir (fs w) p = true -> mkdir_parents p w = (Return tt, w).
Proof. intros Hnul Hdir. unfold mkdir_parents. by rewrite Hnul, Hdir. Qed.

(** Opening a path that is taken, is no directory and lies in a directory
    leaves an empty file there. *)
Lemma open_write_ok (p : path) (w : World) :
  path_error w p = None ->
  is_dir (fs w) p = false ->
  is_dir (fs w) (parent p) = true ->
  open_write p w = (Return tt, set_fs (<[p := File []]> (fs w)) w).
Proof. intros Hpath Hnotdir Hparent. unfold open_write. by rewrite Hpath, Hnotdir, Hparent. Qed.

Lemma write_metadata_outcome (self : MetadataCollector) (doc : json) (w : World) :
  path_error w (metadata_path self) = None ->
  is_dir (fs w) (metadata_path self) = false ->
  is_dir (fs w) (parent (metadata_path self)) = true ->
  _write_metadata self doc w =
    (dumped doc,
     set_fs (<[metadata_path self := File (json_dump doc).1]> (fs w)) w).
Proof.
  intros Hpath Hnotdir Hparent.
  unfold _write_metadata, dumped, mbind, M_bind, bind.
  rewrite mkdir_parents_existing;
    [|by apply has_nul_parent, (path_error_None w)|done].
  rewrite open_write_ok by done.
  destruct (json_dump doc) as [data interrupted].
  unfold write_bytes. cbn [fs set_fs fst snd].
  rewrite lookup_insert_eq. cbn [app].
  unfold set_fs. cbn. rewrite insert_insert_eq.
  by destruct interrupted.
Qed.

Lemma set_demo_entry_frame (old demos : dict) (key : str) (entry : json) :
  demos_before old demos ->
  exists merged demos',
    set_demo_entry (JDict old) key entry = Return (JDict merged)
    ∧ dict_get (u "demos") merged = Some (JDict demos')
    ∧ dict_get key demos' = Some entry
    ∧ (forall k, k <> key -> dict_get k demos' = dict_get k demos)
    ∧ (forall k, k <> u "demos" -> dict_get k merged = dict_get k old).
Proof.
  intros [Hnone|present Hsome]; unfold set_demo_entry, py_setdefault.
  - rewrite Hnone. cbn [py_setitem].
    eexists _, _. split_and!; [reflexivity|..].
    + apply dict_get_set_eq.
    + apply dict_get_set_eq.
    + intros k Hk. by apply dict_get_set_ne.
    + intros k Hk. rewrite !dict_get_set_ne by done. done.
  - rewrite Hsome. cbn [py_setitem].
    eexists _, _. split_and!; [reflexivity|..].
    + apply dict_get_set_eq.
    + apply dict_get_set_eq.
    + intros k Hk. by apply dict_get_set_ne.
    + intros k Hk. by apply dict_get_set_ne.
Qed.

Lemma read_merge_write_document
    (self : MetadataCollector) (id : Z) (entry : dict) (w : World)
    (old demos : dict) (records : list (level * str)) :
  document_before self w old records ->
  demos_before old demos ->
  path_error w (metadata_path self) = None ->
  is_dir (fs w) (metadata_path self) = false ->
  is_dir (fs w) (parent (metadata_path self)) = true ->
  exists (new demos' : dict) (w' : World),
    _load_metadata self w = (Return (JDict old), with_log w records)
    ∧ read_merge_write self id entry w = (dumped (JDict new), w')
    ∧ fs w' = <[metadata_path self := File (json_dump (JDict new)).1]> (fs w)
    ∧ log w' = log w ++ records
    ∧ requests w' = requests w
    ∧ dict_get (u "demos") new = Some (JDict demos')
    ∧ dict_get (str_of_Z id) demos' = Some (JDict entry)
    ∧ (forall k, k <> str_of_Z id -> dict_get k demos' = dict_get k demos)
    ∧ dict_get (u "last_updated") new = Some (JStr (now_isoformat (clock w)))
    ∧ (forall k, k <> u "demos" -> k <> u "last_updated" ->
                 dict_get k new = dict_get k old).
Proof.
  intros Hdoc Hdemos Hpath Hnotdir Hparent.
  destruct (set_demo_entry_frame old demos (str_of_Z id) (JDict entry) Hdemos)
    as (merged & demos' & Hset & Hget & Hentry & Hothers & Htop).
  pose proof (load_metadata_document self w old records Hdoc Hnotdir) as Hload.
  exists (dict_set (u "last_updated") (JStr (now_isoformat (clock w))) merged),
    demos'.
  eexists. split_and!.
  - exact Hload.
  - unfold read_merge_write, mbind, M_bind, bind. rewrite Hload.
    unfold of_outcome. rewrite Hset. unfold now. cbn [py_setitem clock with_log].
    rewrite write_metadata_outcome by done. reflexivity.
  - reflexivity.
  - reflexivity.
  - reflexivity.
  - rewrite dict_get_set_ne by done. exact Hget.
  - exact Hentry.
  - exact Hothers.
  - apply dict_get_set_eq.
  - intros k Hk1 Hk2. rewrite dict_get_set_ne by done. by apply Htop.
Qed.

(** X21: an error of reading the stored document other than a JSON parse
    error (a file that is not UTF-8, say) is not caught: it leaves the
    read-merge-write, nothing is logged and nothing is written. *)
Theorem unreadable_document_aborts
    (self : MetadataCollector) (id : Z) (entry : dict) (w : World)
    (raw : bytes) (e : exn) :
  fs w !! metadata_path self = Some (File raw) ->
  json_load raw = Raise e ->
  is_JSONDecodeError e = false ->
  read_merge_write self id entry w = (Raise e, w).
Proof.
  intros Hfile Hload Hclass.
  unfold read_merge_write, _load_metadata, mbind, M_bind, bind, exists_.
  rewrite Hfile. rewrite orb_true_r by done. cbn [negb].
  unfold try_except, bind, read_bytes, of_outcome.
  by rewrite Hfile, Hload, Hclass.
Qed.

(** C8 (as amended): the read-merge-write of the persisted document, where
    the stored file is missing, or is one on which [json.load] raises
    [JSONDecodeError], or parses to an object whose [demos], if present, is an
    object, and where the path of the document can be opened in a directory
    that is there.  A missing file is read as the empty document, one that
    does not parse as the empty document with a warning logged.  The
    document handed to [json.dump] is the one read with [demos[str(id)]] set
    to the new entry and [last_updated] to the current time: every other
    entry under [demos] and every other top-level key is as it was.  The
    file holds what [json.dump] wrote of it, and the error that interrupted
    the dump, if any, is raised. *)
Theorem read_merge_write_frame
    (self : MetadataCollector) (id : Z) (entry : dict) (w : World)
    (old demos : dict) (records : list (level * str)) :
  document_before self w old records ->
  demos_before old demos ->
  path_error w (metadata_path self) = None ->
  is_dir (fs w) (metadata_path self) = false ->
  is_dir (fs w) (parent (metadata_path self)) = true ->
  exists (new demos' : dict) (w' : World),
    _load_metadata self w = (Return (JDict old), with_log w records)
    ∧ read_merge_write self id entry w = (dumped (JDict new), w')
    ∧ fs w' = <[metadata_path self := File (json_dump (JDict new)).1]> (fs w)
    ∧ log w' = log w ++ records
    ∧ dict_get (u "demos") new = Some (JDict demos')
    ∧ dict_get (str_of_Z id) demos' = Some (JDict entry)
    ∧ (forall k, k <> str_of_Z id -> dict_get k demos' = dict_get k demos)
    ∧ dict_get (u "last_updated") new = Some (JStr (now_isoformat (clock w)))
    ∧ (forall k, k <> u "demos" -> k <> u "last_updated" ->
                 dict_get k new = dict_get k old).
Proof.
  intros Hdoc Hdemos Hpath Hnotdir Hparent.
  destruct (read_merge_write_document self id entry w old demos records)
    as (new & demos' & w' & Hload & Hrun & Hfs & Hlog & _ & Hrest); [done..|].
  by exists new, demos', w'.
Qed.

End WithExternals.
End Document.

(** ** A failing search request *)

Module SearchFailure.
Import Metadata Downloader Notions Document.

Section WithExternals.
Context `{Externals}.

Lemma raise_for_status_failure (resp : Response) (w : World) :
  400 <= status_code resp < 600 ->
  raise_for_status resp w =
    (Raise (Exn RequestException (http_error_message resp)), w).
Proof.
  intros Hcode. unfold raise_for_status, http_error_message.
  destruct (Z.leb_spec 400 (status_code resp)); [|lia].
  destruct (Z.ltb_spec (status_code resp) 500); cbn [andb]; [done|].
  destruct (Z.leb_spec 500 (status_code resp)); [|lia].
  destruct (Z.ltb_spec (status_code resp) 600); [done|lia].
Qed.



End WithExternals.
End SearchFailure.

(** ** The properties on the scripted runs *)

Module Runs.
Import Metadata Downloader Cli Notions IdSet Batch Retry Document SearchFailure Scenario.

(** Demo 99999999 against a service that answers 404. *)
Lemma not_found_short_circuits_witness :
  exists w',
    @download_demo all_not_found the_downloader 99999999 ready_world =
      (Return (mk_result 99999999 "not_found" (u "Demo ID does not exist") None), w')
    ∧ requests w' = requests ready_world ++ [DEMO_URL_TEMPLATE 99999999]
    ∧ fs w' = fs ready_world.
Proof.
  apply (@not_found_short_circuits all_not_found demos_dir 65536 3 60 true
           (Some metadata_json) empty_world ready_world the_downloader
           99999999 ready_world not_found_response).
  - vm_compute. reflexivity.
  - reflexivity.
  - reflexivity.
Defined.

(** Three retries against a service that cannot be reached. *)
Lemma retries_exhausted_witness :
  exists w',
    @download_demo unreachable the_downloader 12345 ready_world =
      (Return (mk_result 12345 "failed"
                 (u "Failed after 3 attempts: Connection reset by peer") None), w')
    ∧ requests w' = replicate 3 (DEMO_URL_TEMPLATE 12345)
    ∧ fs w' = fs ready_world.
Proof.
  apply (@retries_exhausted unreachable demos_dir 65536 3 60 true
           (Some metadata_json) empty_world ready_world the_downloader
           12345 ready_world (fun _ => connection_reset)).
  - vm_compute. reflexivity.
  - intros i _. split; reflexivity.
Defined.

(** Explicit IDs 5, 3, 5, the file [ids.txt] and the range 3..4. *)
Lemma collect_demo_ids_first_occurrence_witness :
  exists out,
    @_collect_demo_ids all_not_found args_with_ids_file world_with_ids_file
      = (Return out, world_with_ids_file)
    ∧ out = first_occurrences ([5; 3; 5] ++ [3; 7] ++ py_range 3 (4 + 1))
    ∧ NoDup out
    ∧ forall x, x ∈ out <-> x ∈ [5; 3; 5] ∨ x ∈ [3; 7] ∨ x ∈ py_range 3 (4 + 1).
Proof.
  apply (@collect_demo_ids_first_occurrence all_not_found
           args_with_ids_file world_with_ids_file [3; 7] (py_range 3 (4 + 1))).
  - apply (@some_files all_not_found args_with_ids_file world_with_ids_file
             [ids_txt] [[3; 7]]); [reflexivity|].
    constructor; [|constructor].
    apply (@holds_ids all_not_found world_with_ids_file ids_txt [3; 7]
             ids_txt_bytes
             [u "3" ++ [10%N]; u "# seen" ++ [10%N]; [10%N]; u " 7 " ++ [10%N]]).
    + vm_compute. reflexivity.
    + vm_compute. reflexivity.
    + vm_compute. repeat constructor.
  - apply (inclusive_range _ 3 4); [reflexivity|reflexivity|lia].
Defined.

(** On that input the IDs collected are 5, 3, 7, 4. *)
Example collect_with_ids_file :
  @_collect_demo_ids all_not_found args_with_ids_file world_with_ids_file
    = (Return [5; 3; 7; 4], world_with_ids_file).
Proof. vm_compute. reflexivity. Qed.

(** The example of the specification: explicit [5,3,5] and the range 3..4
    give [5,3,4]. *)
Example collect_5_3_5_and_3_to_4 :
  @_collect_demo_ids all_not_found (download_args [5; 3; 5] (Some (3, 4)))
    empty_world = (Return [5; 3; 4], empty_world)
  ∧ first_occurrences ([5; 3; 5] ++ [] ++ py_range 3 (4 + 1)) = [5; 3; 4].
Proof. split; vm_compute; reflexivity. Qed.

(** [generate-id-file 10 5 out.txt]. *)
Lemma write_demo_id_file_rejects_reversed_range_witness :
  write_demo_id_file 10 5 [u "out.txt"] ready_world =
    (Raise (Exn ValueError
              (u "end_id must be greater than or equal to start_id")),
     ready_world)
  ∧ (main_generate_id_file 10 5 [u "out.txt"] ready_world).2 = ready_world
  ∧ exit_status (main_generate_id_file 10 5 [u "out.txt"] ready_world).1 = 1.
Proof.
  apply (write_demo_id_file_rejects_reversed_range 10 5 [u "out.txt"]
           ready_world).
  lia.
Defined.

(** A batch of one Skipped and one NotFound outcome. *)
Lemma exit_status_of_batch_witness :
  exists code,
    @report_and_exit archived_then_unknown skipped_and_not_found (u "0:00:00")
      archived_world
      = (Return code,
         (@_print_summary archived_then_unknown skipped_and_not_found
            (u "0:00:00") archived_world).2)
    ∧ (code = 0 ∨ code = 1)
    ∧ (code <> 0 <->
       exists r, r ∈ skipped_and_not_found
                 ∧ (status r = u "failed" ∨ status r = u "not_found")).
Proof.
  apply (@exit_status_of_batch archived_then_unknown the_downloader
           [12345; 99999999] archived_world
           (@download_many archived_then_unknown the_downloader
              [12345; 99999999] archived_world).2).
  - vm_compute. reflexivity.
  - vm_compute. reflexivity.
Defined.

(** A batch whose only outcome is NotFound: no outcome is Failed, and the
    exit status is 1. *)
Lemma not_found_alone_exits_nonzero :
  exists results w',
    @download_many all_not_found the_downloader [99999999] ready_world
      = (Return results, w')
    ∧ Forall (fun r => status r = u "not_found") results
    ∧ ~ (exists r, r ∈ results ∧ status r = u "failed")
    ∧ exit_status (@report_and_exit all_not_found results (u "0:00:00") w').1 = 1
    ∧ exit_status
        (@main_download all_not_found (download_args [99999999] None)
           empty_world).1 = 1.
Proof.
  eexists _, _. split_and!.
  - vm_compute. reflexivity.
  - repeat constructor.
  - intros [r [Hin Hr]]. apply list_elem_of_singleton in Hin as ->.
    vm_compute in Hr. discriminate.
  - vm_compute. reflexivity.
  - vm_compute. reflexivity.
Qed.

(** C1 (the code at a download of five bytes in the chunks [ab], empty,
    [cde]): the outcome is Downloaded and carries the destination path, and
    the file holds the five bytes; but a [DownloadResult] has no
    [bytes_downloaded], so the summary, which reads it, raises
    [AttributeError] and the command ends with status 1. *)
Theorem downloaded_outcome_carries_no_byte_count :
  exists result w',
    @download_demo demo_then_failing_search the_downloader 12345 ready_world
      = (Return result, w')
    ∧ status result = u "downloaded"
    ∧ file_path result = Some match_rar
    ∧ fs w' !! match_rar
      = Some (File [Byte.x61; Byte.x62; Byte.x63; Byte.x64; Byte.x65])
    ∧ getattr result "bytes_downloaded" = Raise no_bytes_downloaded
    ∧ (@_print_summary demo_then_failing_search [result] (u "0:00:00") w').1
      = Raise no_bytes_downloaded
    ∧ (@main_download demo_then_failing_search (download_args [12345] None)
         empty_world).1 = Raise no_bytes_downloaded.
Proof.
  eexists _, _. split_and!.
  - vm_compute. reflexivity.
  - reflexivity.
  - reflexivity.
  - vm_compute. reflexivity.
  - reflexivity.
  - vm_compute. reflexivity.
  - vm_compute. reflexivity.
Qed.



(** The entry of demo 2 written into the document that holds demo 1. *)
Lemma read_merge_write_frame_witness :
  exists (new demos' : dict) (w' : World),
    @_load_metadata knows_document_with_1 the_collector world_with_document
      = (Return (JDict document_with_1), with_log world_with_document [])
    ∧ @read_merge_write knows_document_with_1 the_collector 2 entry_2
        world_with_document = (@dumped knows_document_with_1 (JDict new), w')
    ∧ fs w' = <[metadata_json := File (dump (JDict new)).1]>
                (fs world_with_document)
    ∧ log w' = log world_with_document ++ []
    ∧ dict_get (u "demos") new = Some (JDict demos')
    ∧ dict_get (str_of_Z 2) demos' = Some (JDict entry_2)
    ∧ (forall k, k <> str_of_Z 2 ->
                 dict_get k demos' = dict_get k [(u "1", JDict entry_1)])
    ∧ dict_get (u "last_updated") new = Some (JStr (u "T0"))
    ∧ (forall k, k <> u "demos" -> k <> u "last_updated" ->
                 dict_get k new = dict_get k document_with_1).
Proof.
  apply (@read_merge_write_frame knows_document_with_1 the_collector 2 entry_2
           world_with_document document_with_1 [(u "1", JDict entry_1)] []).
  - apply (@doc_parsed knows_document_with_1 the_collector world_with_document
             (rendered (JDict document_with_1)) document_with_1).
    + vm_compute. reflexivity.
    + vm_compute. reflexivity.
  - apply demos_present. reflexivity.
  - reflexivity.
  - vm_compute. reflexivity.
  - vm_compute. reflexivity.
Defined.

(** Writing the entry of demo 2 into the document that holds demo 1 leaves
    the entry of demo 1 as it was. *)
Example entry_1_survives_entry_2 :
  exists w',
    @read_merge_write knows_document_with_1 the_collector 2 entry_2
      world_with_document = (Return tt, w')
    ∧ fs w' !! metadata_json =
        Some (File (rendered (JDict
          [ (u "demos", JDict [(u "1", JDict entry_1); (u "2", JDict entry_2)]);
            (u "last_updated", JStr (u "T0")) ]))).
Proof. eexists. split; vm_compute; reflexivity. Qed.

(** A metadata file whose bytes are not UTF-8 is not read as the empty
    document: the decoding error leaves [_load_metadata], nothing is logged
    and nothing is written. *)
Lemma undecodable_document_aborts :
  fs garbled_world !! metadata_json = Some (File [Byte.xff; Byte.xfe])
  ∧ @_load_metadata unreachable the_collector garbled_world
    = (Raise cannot_decode, garbled_world)
  ∧ @read_merge_write unreachable the_collector 2 entry_2 garbled_world
    = (Raise cannot_decode, garbled_world)
  ∧ is_JSONDecodeError cannot_decode = false
  ∧ log garbled_world = [].
Proof. split_and!; vm_compute; reflexivity. Qed.

(** A stored document with a lone surrogate in the entry of demo 1 is read,
    but cannot be written back as UTF-8: the dump is interrupted at the
    string with the surrogate, the error is raised, and the file, truncated
    when it was opened, holds no complete entry any more. *)
Example interrupted_dump_cuts_the_file :
  exists exc w',
    @read_merge_write knows_document_with_surrogate the_collector 2 entry_2
      world_with_surrogate = (Raise exc, w')
    ∧ exn_cls exc = UnicodeError
    ∧ fs w' !! metadata_json =
        Some (File (byte_of <$>
                      (u "{" ++ newline_indent 1 ++ quoted (u "demos") ++ u ": {"
                       ++ newline_indent 2 ++ quoted (u "1") ++ u ": {"
                       ++ newline_indent 3 ++ quoted (u "filename") ++ u ": "))).
Proof. eexists _, _. split_and!; vm_compute; reflexivity. Qed.

End Runs.

(* ===================================================================== *)
(** * Further properties *)
(* ===================================================================== *)

(** ** Saved names *)

Module FileNames.
Import Downloader Notions Notions2 Disposition.

(** *** Decimal text *)


Lemma uint_text_decimal (d : Decimal.uint) :
  Forall is_decimal_char (u (NilEmpty.string_of_uint d)).
Proof.
  induction d; unfold u in *; cbn [NilEmpty.string_of_uint
    Stdlib.Strings.String.list_ascii_of_string map];
    try (constructor; [right; vm_compute; split; discriminate|assumption]).
  constructor.
Qed.

Lemma str_of_Z_decimal (n : Z) : Forall is_decimal_char (str_of_Z n).
Proof.
  unfold str_of_Z, NilZero.string_of_int.
  destruct (Z.to_int n) as [d|d].
  - unfold NilZero.string_of_uint. destruct d; try apply uint_text_decimal.
    change (u "0") with [48%N].
    constructor; [right; vm_compute; split; discriminate|constructor].
  - unfold u. cbn [Stdlib.Strings.String.list_ascii_of_string map].
    constructor; [by left|].
    pose proof (uint_text_decimal d) as Hd. unfold u in Hd.
    unfold NilZero.string_of_uint. destruct d; try exact Hd.
    constructor; [right; vm_compute; split; discriminate|constructor].
Qed.

Lemma str_of_Z_nonempty (n : Z) : str_of_Z n <> [].
Proof.
  unfold str_of_Z, NilZero.string_of_int, NilZero.string_of_uint.
  destruct (Z.to_int n) as [d|d]; destruct d; discriminate.
Qed.

Lemma decimal_no_slash (s : str) :
  Forall is_decimal_char s -> contains SLASH s = false.
Proof.
  induction 1 as [|c s Hc _ IH]; [done|].
  change (contains SLASH (c :: s)) with (N.eqb SLASH c || contains SLASH s).
  rewrite IH, orb_false_r. apply N.eqb_neq. unfold SLASH.
  destruct Hc as [->|Hc]; [done|lia].
Qed.

Lemma contains_app (c : N) (a b : str) :
  contains c (a ++ b) = contains c a || contains c b.
Proof. unfold contains. apply existsb_app. Qed.

Lemma startswith_app (p s : str) : startswith p (p ++ s) = true.
Proof. induction p as [|a p IH]; [done|]. cbn. by rewrite N.eqb_refl. Qed.

Lemma startswith_inv (p s : str) :
  startswith p s = true -> exists t, s = p ++ t.
Proof.
  revert s. induction p as [|a p IH]; intros s Hs; [by exists s|].
  destruct s as [|b s]; [discriminate|].
  cbn in Hs. apply andb_prop in Hs as [Hab Hps].
  apply N.eqb_eq in Hab as ->. destruct (IH s Hps) as [t ->]. by exists t.
Qed.

(** The shape of every name [_ensure_demo_id_prefix] returns. *)
Lemma ensure_prefix_shape (filename : str) (id : Z) :
  exists tail,
    _ensure_demo_id_prefix filename id = (str_of_Z id ++ u "_") ++ tail
    ∧ contains SLASH tail = false.
Proof.
  unfold _ensure_demo_id_prefix.
  pose proof (name_Path_no_slash filename) as Hclean.
  destruct (startswith (str_of_Z id ++ u "_") (name (Path filename))) eqn:Hstart.
  - destruct (startswith_inv _ _ Hstart) as [t Ht]. exists t. split; [done|].
    rewrite Ht, contains_app in Hclean. by apply orb_false_elim in Hclean as [_ ?].
  - by exists (name (Path filename)).
Qed.

Lemma filename_shape (response : Response) (id : Z) :
  exists tail,
    _filename_from_response response id = (str_of_Z id ++ u "_") ++ tail
    ∧ contains SLASH tail = false.
Proof.
  assert (exists tail,
    match url_basename (url response) with
    | [] => str_of_Z id ++ u "_demo.rar"
    | filename => _ensure_demo_id_prefix filename id
    end = (str_of_Z id ++ u "_") ++ tail ∧ contains SLASH tail = false)
    as Hurl.
  { destruct (url_basename (url response)) as [|c r].
    - exists (u "demo.rar"). split; [by rewrite <- app_assoc|done].
    - apply ensure_prefix_shape. }
  unfold _filename_from_response.
  destruct (headers_get (u "Content-Disposition") (headers response))
    as [[|c h]|]; try exact Hurl.
  destruct (_parse_content_disposition (c :: h)) as [[|c' f]|]; try exact Hurl.
  apply ensure_prefix_shape.
Qed.

(** X1: whatever the server sends, the name a download is saved under
    starts with [<id>_]. *)
Theorem saved_name_starts_with_id (response : Response) (id : Z) :
  startswith (str_of_Z id ++ u "_") (_filename_from_response response id) = true.
Proof.
  destruct (filename_shape response id) as (tail & -> & _).
  apply startswith_app.
Qed.

Lemma plain_name_is_one_part (f : str) (c : N) (r : str) :
  f = c :: r -> is_decimal_char c -> contains SLASH f = false ->
  Path f = [f] ∧ root_of f = [] ∧ is_root f = false.
Proof.
  intros -> Hc Hclean.
  assert (N.eqb c SLASH = false) as Hslash.
  { apply N.eqb_neq. unfold SLASH. destruct Hc as [->|Hc]; [done|lia]. }
  assert (root_of (c :: r) = []) as Hroot.
  { unfold root_of. destruct r as [|b [|b' r]]; by rewrite Hslash. }
  assert (c <> 46%N) as Hdot by (destruct Hc as [->|Hc]; [done|lia]).
  split_and!; [|done|].
  - unfold Path. rewrite Hroot, split_on_no_sep by done.
    rewrite filter_cons, filter_nil.
    case_decide as Hcomp; [done|]. exfalso. apply Hcomp.
    unfold is_component, str_eqb.
    rewrite !bool_decide_eq_false_2; [done| |done].
    intros [= ? ?]. done.
  - unfold is_root, str_eqb.
    rewrite !bool_decide_eq_false_2; [done| |].
    + intros [= ? ?]. subst. by rewrite N.eqb_refl in Hslash.
    + intros [= ? ?]. subst. by rewrite N.eqb_refl in Hslash.
Qed.

Lemma destination_facts
    (od : path) (response : Response) (id : Z) :
  let filename := _filename_from_response response id in
  contains SLASH filename = false
  ∧ joinpath od filename = od ++ [filename]
  ∧ name (joinpath od filename) = filename
  ∧ parent (joinpath od filename) = od.
Proof.
  intros filename.
  destruct (filename_shape response id) as (tail & Hshape & Htail).
  fold filename in Hshape.
  pose proof (str_of_Z_decimal id) as Hdec.
  assert (contains SLASH filename = false) as Hclean.
  { rewrite Hshape, !contains_app, (decimal_no_slash _ Hdec), Htail. done. }
  destruct (str_of_Z id) as [|c ds] eqn:Hid; [by apply str_of_Z_nonempty in Hid|].
  inversion_clear Hdec as [|? ? Hc _].
  destruct (plain_name_is_one_part filename c (ds ++ u "_" ++ tail))
    as (Hpath & Hroot & Hnotroot); [by rewrite Hshape, <- app_assoc|done..|].
  assert (joinpath od filename = od ++ [filename]) as Hjoin.
  { unfold joinpath. by rewrite Hroot, Hpath. }
  split_and!; [done|done| |].
  - rewrite Hjoin. unfold name. by rewrite last_snoc, Hnotroot.
  - rewrite Hjoin. unfold parent.
    destruct od as [|x [|y od]]; cbn [app].
    + by rewrite Hnotroot.
    + done.
    + change (x :: y :: od ++ [filename]) with ((x :: y :: od) ++ [filename]).
      by rewrite removelast_last.
Qed.

(** X2: the saved name holds no slash, so the destination is a direct
    child of the output directory: a server-sent name cannot place the file
    elsewhere. *)
Theorem destination_is_child_of_output_dir
    (od : path) (response : Response) (id : Z) :
  let filename := _filename_from_response response id in
  contains SLASH filename = false
  ∧ joinpath od filename = od ++ [filename]
  ∧ name (joinpath od filename) = filename
  ∧ parent (joinpath od filename) = od.
Proof. apply destination_facts. Qed.
End FileNames.

(** ** ID lists *)

Module MoreIds.
Import Downloader Cli Notions IdSet.

Lemma unique_demo_ids_fixed (l : list Z) :
  NoDup l -> unique_demo_ids l = l.
Proof.
  induction l as [|x l IH] using rev_ind; intros Hnodup; [done|].
  apply NoDup_app in Hnodup as (Hl & Hx & _).
  rewrite unique_demo_ids_snoc, IH by done.
  case_decide as Hin; [|done].
  exfalso. apply (Hx x Hin). by left.
Qed.

(** X3: a list of distinct IDs comes back from [unique_demo_ids] as it
    is. *)
Theorem unique_demo_ids_keeps_distinct_ids (l : list Z) :
  NoDup l -> unique_demo_ids l = l.
Proof. apply unique_demo_ids_fixed. Qed.

(** X4: [unique_demo_ids] is idempotent. *)
Theorem unique_demo_ids_idempotent (l : list Z) :
  unique_demo_ids (unique_demo_ids l) = unique_demo_ids l.
Proof. apply unique_demo_ids_fixed, NoDup_unique_demo_ids. Qed.

End MoreIds.

(** ** Match pages *)

Module MatchPages.
Import Metadata Notions Disposition Document.

(** X5: the query string of a match URL plays no part in the match ID. *)
Theorem parse_match_id_ignores_query (path_ query : str) :
  contains 63 path_ = false ->
  _parse_match_id (path_ ++ [63%N] ++ query) = _parse_match_id path_.
Proof.
  intros Hclean. unfold _parse_match_id. cbn [app].
  rewrite split_on_app_sep, (split_on_no_sep 63 path_) by done. reflexivity.
Qed.

Lemma after_matches_first (before : list str) (rest : list str) :
  u "matches" ∉ before ->
  after_matches (before ++ u "matches" :: rest) = head rest.
Proof.
  induction before as [|p before IH]; intros Hnot; cbn [app after_matches].
  - rewrite Document.str_eqb_refl. by destruct rest.
  - rewrite not_elem_of_cons in Hnot. destruct Hnot as [Hp Hbefore].
    rewrite Document.str_eqb_neq by done. by apply IH.
Qed.

Lemma split_on_join (c : N) (segs : list str) :
  segs <> [] ->
  Forall (fun seg => contains c seg = false) segs ->
  split_on c (PyStr.join [c] segs) = segs.
Proof.
  intros Hne Hall. induction Hall as [|x segs Hx Hall IH]; [done|].
  destruct segs as [|y segs].
  - by apply split_on_no_sep.
  - change (PyStr.join [c] (x :: y :: segs))
      with (x ++ c :: PyStr.join [c] (y :: segs)).
    rewrite split_on_app_sep by done. by rewrite IH.
Qed.

Lemma contains_join (c sep : N) (segs : list str) :
  c <> sep ->
  Forall (fun seg => contains c seg = false) segs ->
  contains c (PyStr.join [sep] segs) = false.
Proof.
  intros Hsep Hall. induction Hall as [|x segs Hx Hall IH]; [done|].
  destruct segs as [|y segs]; [done|].
  change (PyStr.join [sep] (x :: y :: segs))
    with (x ++ [sep] ++ PyStr.join [sep] (y :: segs)).
  rewrite !FileNames.contains_app, Hx, IH.
  change (contains c [sep]) with (N.eqb c sep || false).
  rewrite orb_false_r. cbn [orb]. rewrite orb_false_r. by apply N.eqb_neq.
Qed.

Lemma join_snoc (sep : str) (segs : list str) (x : str) :
  segs <> [] -> PyStr.join sep (segs ++ [x]) = PyStr.join sep segs ++ sep ++ x.
Proof.
  intros Hne. induction segs as [|y segs IH]; [done|].
  destruct segs as [|z segs]; [done|].
  change (PyStr.join sep ((y :: z :: segs) ++ [x]))
    with (y ++ sep ++ PyStr.join sep ((z :: segs) ++ [x])).
  rewrite IH by done.
  change (PyStr.join sep (y :: z :: segs))
    with (y ++ sep ++ PyStr.join sep (z :: segs)).
  by rewrite <- !app_assoc.
Qed.

Lemma rstrip_by_kept (p : N -> bool) (s : str) (z : N) :
  p z = false -> rstrip_by p (s ++ [z]) = s ++ [z].
Proof.
  intros Hz. unfold rstrip_by. rewrite rev_app_distr. cbn [rev app drop_while].
  rewrite Hz. change (z :: rev s) with ([z] ++ rev s).
  rewrite rev_app_distr, rev_involutive. done.
Qed.

(** X6: for a URL path cut at its slashes, the match ID is the segment
    right after the first [matches] segment. *)
Theorem parse_match_id_after_matches
    (before : list str) (id : str) (after : list str) :
  Forall (fun seg => contains SLASH seg = false ∧ contains 63 seg = false)
         (before ++ id :: after) ->
  u "matches" ∉ before ->
  last (id :: after) <> Some [] ->
  _parse_match_id (PyStr.join [SLASH] (before ++ u "matches" :: id :: after))
  = Some id.
Proof.
  intros Hsegs Hnot Hlast.
  set (segs := before ++ u "matches" :: id :: after).
  assert (Forall (fun seg => contains SLASH seg = false ∧ contains 63 seg = false)
            segs) as Hall.
  { unfold segs. apply Forall_app in Hsegs as [Hb Hr].
    apply Forall_app. split; [done|]. by constructor. }
  assert (segs <> []) as Hne by (unfold segs; by destruct before).
  assert (exists front z zs, segs = front ++ [zs ++ [z]] ∧ z <> SLASH)
    as (front & z & zs & Hsplit & Hz).
  { destruct (last (id :: after)) as [l|] eqn:Hl;
      [|by destruct after as [|? ?] using rev_ind;
          [|rewrite app_comm_cons, last_snoc in Hl]].
    destruct l as [|z0 l0] using rev_ind; [done|]. clear IHl0.
    assert (exists front', id :: after = front' ++ [l0 ++ [z0]]) as [front' Hf].
    { destruct after as [|a after _] using rev_ind.
      - exists []. cbn in Hl. by injection Hl as ->.
      - rewrite app_comm_cons, last_snoc in Hl. injection Hl as ->.
        by exists (id :: after). }
    exists (before ++ u "matches" :: front'), z0, l0. split.
    - unfold segs. rewrite <- app_assoc. cbn [app]. by rewrite Hf.
    - intros ->. apply Forall_app in Hsegs as [_ Hr]. rewrite Hf in Hr.
      apply Forall_app in Hr as [_ Hr]. inversion_clear Hr as [|? ? [Hs _] _].
      rewrite FileNames.contains_app in Hs. cbn in Hs.
      by rewrite orb_true_r in Hs. }
  assert (contains 63 (PyStr.join [SLASH] segs) = false) as Hquery.
  { apply contains_join; [done|]. eapply Forall_impl; [exact Hall|]. by intros ? []. }
  assert (rstrip_chars (u "/") (PyStr.join [SLASH] segs) = PyStr.join [SLASH] segs) as Hstrip.
  { unfold rstrip_chars. rewrite Hsplit.
    destruct front as [|f front].
    - cbn [app PyStr.join]. apply rstrip_by_kept.
      change (N.eqb z SLASH || false = false).
      rewrite orb_false_r. by apply N.eqb_neq.
    - rewrite join_snoc by done. rewrite !app_assoc.
      apply rstrip_by_kept.
      change (N.eqb z SLASH || false = false).
      rewrite orb_false_r. by apply N.eqb_neq. }
  unfold _parse_match_id.
  rewrite (split_on_no_sep 63 (PyStr.join [SLASH] segs)) by done.
  rewrite Hstrip, split_on_join; [|done|].
  - unfold segs. by rewrite after_matches_first.
  - eapply Forall_impl; [exact Hall|]. by intros ? [].
Qed.

(** *** Team names *)
Section WithExternals.
Context `{Externals}.

Lemma collect_teams_spec (names acc : list str) :
  NoDup acc -> [] ∉ acc ->
  NoDup (collect_teams names acc)
  ∧ ([] ∉ collect_teams names acc)
  ∧ forall t, t ∈ collect_teams names acc <-> t ∈ acc ∨ (t ∈ names ∧ t <> []).
Proof.
  revert acc. induction names as [|n names IH]; intros acc Hnodup Hempty.
  - cbn. split_and!; [done..|]. intros t. rewrite elem_of_nil. tauto.
  - cbn [collect_teams].
    destruct (str_eqb n [] || bool_decide (n ∈ acc)) eqn:Hskip.
    + destruct (IH acc Hnodup Hempty) as (Hn & He & Hin).
      split_and!; [done..|]. intros t. rewrite Hin, elem_of_cons.
      apply orb_prop in Hskip as [Hn0%str_eqb_eq|Hacc%bool_decide_eq_true].
      * subst. naive_solver.
      * split; [naive_solver|]. intros [?|[[->|?] ?]]; naive_solver.
    + apply orb_false_elim in Hskip as [Hn0 Hacc].
      apply bool_decide_eq_false in Hacc.
      assert (n <> []) as Hn by (intros ->; by rewrite str_eqb_refl in Hn0).
      destruct (IH (acc ++ [n])) as (Hnd & He & Hin).
      * apply NoDup_app. split_and!; [done| |apply NoDup_singleton].
        intros x Hx ->%list_elem_of_singleton. done.
      * rewrite elem_of_app, list_elem_of_singleton. naive_solver.
      * split_and!; [done..|]. intros t.
        rewrite Hin, elem_of_app, list_elem_of_singleton, elem_of_cons.
        naive_solver.
Qed.

(** X7: the team names extracted from a page are distinct and non-empty;
    they are the non-empty names of the primary layout when it has any, and
    those of the fallback layout otherwise. *)
Theorem extract_teams_distinct_nonempty (soup : str) :
  let primary := bs_select_texts (u ".teamsBox .teamName") soup in
  let fallback := bs_select_texts (u ".teamsBoxDropdown .teamName") soup in
  NoDup (_extract_teams soup)
  ∧ ([] ∉ _extract_teams soup)
  ∧ forall t,
      t ∈ _extract_teams soup <->
      t <> [] ∧ t ∈ (if existsb (fun n => negb (str_eqb n [])) primary
                     then primary else fallback).
Proof.
  intros primary fallback. unfold _extract_teams. fold primary fallback.
  destruct (collect_teams_spec primary [] (NoDup_nil_2))
    as (Hnd & He & Hin); [apply not_elem_of_nil|].
  destruct (collect_teams primary []) as [|t0 ts] eqn:Hprimary.
  - assert (existsb (fun n => negb (str_eqb n [])) primary = false) as Hnone.
    { apply not_true_iff_false. intros Hex.
      apply existsb_exists in Hex as (n & Hn & Hne).
      apply list_elem_of_In in Hn.
      assert (n ∈ ([] : list str)) as Hbad; [|by apply elem_of_nil in Hbad].
      apply Hin. right. split; [done|]. intros ->.
      by rewrite str_eqb_refl in Hne. }
    rewrite Hnone.
    destruct (collect_teams_spec fallback [] (NoDup_nil_2))
      as (Hnd' & He' & Hin'); [apply not_elem_of_nil|].
    split_and!; [done..|]. intros t. rewrite Hin', elem_of_nil. tauto.
  - assert (existsb (fun n => negb (str_eqb n [])) primary = true) as Hsome.
    { apply existsb_exists. exists t0.
      assert (t0 ∈ primary ∧ t0 <> []) as [Ht Hne].
      { destruct (proj1 (Hin t0)) as [Hbad|?]; [by left| |done].
        by apply elem_of_nil in Hbad. }
      split; [by apply list_elem_of_In|].
      rewrite str_eqb_neq; done. }
    rewrite Hsome. split_and!; [done..|].
    intros t. rewrite Hin, elem_of_nil. tauto.
Qed.

End WithExternals.
End MatchPages.

(** ** Transfers *)

Module Transfers.
Import Metadata Downloader Cli Notions Notions2 Disposition Retry.

Lemma split1_at_sep (c : N) (k v : str) :
  contains c k = false -> split1 c (k ++ c :: v) = (k, v).
Proof.
  induction k as [|a k IH]; intros Hk.
  - cbn. by rewrite N.eqb_refl.
  - change (contains c (a :: k)) with (N.eqb c a || contains c k) in Hk.
    apply orb_false_elim in Hk as [Ha Hk].
    cbn [app split1]. rewrite N.eqb_sym, Ha, IH; done.
Qed.

(** X8: the key of a [Content-Disposition] parameter is read without
    regard to case. *)
Theorem parameter_keys_ignore_case (key key' value : str) (rest : list str) :
  contains 61 key = false ->
  contains 61 key' = false ->
  lower key = lower key' ->
  parse_parameters ((key ++ [61%N] ++ value) :: rest)
  = parse_parameters ((key' ++ [61%N] ++ value) :: rest).
Proof.
  intros Hk Hk' Hlower. rewrite !parse_parameters_cons.
  unfold is_filename_param, filename_of_param, param_key, param_text.
  cbn [app]. rewrite !split1_at_sep by done. cbn [fst snd].
  rewrite !FileNames.contains_app, Hlower.
  change (contains 61 (61%N :: value)) with true.
  by rewrite !orb_true_r.
Qed.

Section WithExternals.
Context `{Externals}.

Lemma raise_for_status_passes (resp : Response) (w : World) :
  passes resp -> raise_for_status resp w = (Return tt, w).
Proof.
  intros Hpass. unfold raise_for_status, passes in *.
  destruct (Z.leb_spec 400 (status_code resp)),
    (Z.ltb_spec (status_code resp) 500); cbn [andb]; try lia;
  destruct (Z.leb_spec 500 (status_code resp)),
    (Z.ltb_spec (status_code resp) 600); cbn [andb]; try lia; done.
Qed.

Lemma download_demo_first_attempt (d : DemoDownloader) (id : Z) (w w' : World)
    (r : DownloadResult) :
  1 <= retries d ->
  attempt_once d id (DEMO_URL_TEMPLATE id) 1 w = (Return r, w') ->
  download_demo d id w = (Return r, w').
Proof.
  intros Hretries Hone. unfold download_demo.
  destruct (Z.to_nat (retries d)) as [|n] eqn:Hn; [lia|].
  cbn [attempts]. unfold try_except. by rewrite Hone.
Qed.

Lemma write_chunks_world (destination : path) (chunks : list bytes)
    (w : World) (content : bytes) :
  fs w !! destination = Some (File content) ->
  write_chunks destination chunks w =
    (Return tt,
     {| fs := <[destination := File (content ++ List.concat chunks)]> (fs w);
        requests := requests w; clock := clock w; log := log w;
        progress := progress w ++ chunk_updates chunks;
        refused := refused w |}).
Proof.
  revert w content.
  induction chunks as [|chunk chunks IH]; intros w content Hfile.
  - cbn. rewrite !app_nil_r, insert_id by done. by destruct w.
  - cbn [write_chunks List.concat]. destruct chunk as [|b chunk].
    + rewrite (IH w content Hfile). unfold chunk_updates.
      rewrite filter_cons. by case_decide.
    + unfold mbind, M_bind, bind, write_bytes, progress_call, modify.
      rewrite Hfile. cbn [fs set_fs].
      rewrite (IH _ (content ++ b :: chunk)) by (cbn [fs]; apply lookup_insert_eq).
      cbn [fs requests clock log progress refused].
      rewrite insert_insert_eq, <- !app_assoc.
      unfold chunk_updates. rewrite filter_cons.
      case_decide; [|done]. by rewrite fmap_cons.
Qed.

Lemma stream_and_close (d : DemoDownloader) (resp : Response)
    (destination : path) (w : World) (chunks : list bytes)
    (broken : option exn) :
  path_error w destination = None ->
  is_dir (fs w) destination = false ->
  is_dir (fs w) (parent destination) = true ->
  iter_content resp (chunk_size d) = (chunks, broken) ->
  try_finally (stream_to_file d resp destination) (progress_call BarClose) w
  = (match broken with Some e => Raise e | None => Return tt end,
     {| fs := <[destination := File (List.concat chunks)]> (fs w);
        requests := requests w; clock := clock w; log := log w;
        progress := progress w ++ chunk_updates chunks ++ [BarClose];
        refused := refused w |}).
Proof.
  intros Hpath Hnotdir Hparent Hiter.
  unfold try_finally, stream_to_file, mbind, M_bind, bind, open_write.
  rewrite Hpath, Hnotdir, Hparent, Hiter.
  unfold set_fs. cbn [fs requests clock log progress refused].
  rewrite (write_chunks_world destination chunks _ [])
    by (cbn [fs]; apply lookup_insert_eq).
  cbn [fs requests clock log progress refused app].
  rewrite insert_insert_eq.
  destruct broken as [e|]; unfold raise, ret, progress_call, modify;
    cbn [fs requests clock log progress refused]; by rewrite <- !app_assoc.
Qed.

(** What an attempt does up to the point where the body is streamed. *)
Lemma attempt_once_until_stream (d : DemoDownloader) (id attempt : Z)
    (url_ : str) (w : World) (resp : Response) (total : option Z)
    (chunks : list bytes) (broken : option exn) :
  let destination := destination_of d resp id in
  scraper_get (List.length (requests w)) url_ (timeout d) true = Return resp ->
  passes resp ->
  (forall w0, _content_length resp w0 = (Return total, w0)) ->
  skip_existing d = false ∨ fs w !! destination = None ->
  path_error w destination = None ->
  is_dir (fs w) destination = false ->
  is_dir (fs w) (parent destination) = true ->
  iter_content resp (chunk_size d) = (chunks, broken) ->
  let streamed :=
    {| fs := <[destination := File (List.concat chunks)]> (fs w);
       requests := requests w ++ [url_]; clock := clock w;
       log := log (after_get id attempt url_ w);
       progress := progress w ++ [BarOpen total] ++ chunk_updates chunks
                   ++ [BarClose];
       refused := refused w |} in
  attempt_once d id url_ attempt w =
    match broken with
    | Some e => (Raise e, streamed)
    | None =>
        (logging INFO (u "Downloaded " ++ url_ ++ u " -> " ++ path_str destination);;
         match metadata_collector d with
         | Some collector =>
             try_except
               (record_download collector id destination url_ resp)
               is_Exception
               (fun exc =>
                  logging WARNING
                    (u "Failed to record metadata for demo " ++ str_of_Z id
                     ++ u ": " ++ exn_msg exc))
         | None => ret tt
         end;;
         ret (mk_result id "downloaded" [] (Some destination))) streamed
    end.
Proof.
  intros destination Hget Hpass Hlen Hskip Hpath Hnotdir Hparent Hiter streamed.
  subst streamed destination. unfold destination_of in *.
  set (destination := joinpath (output_dir d) (_filename_from_response resp id))
    in *.
  unfold attempt_once, mbind, M_bind, bind, logging, modify, GET.
  cbn [fs requests clock log progress refused]. rewrite Hget.
  assert ((status_code resp =? 404) = false) as ->.
  { apply Z.eqb_neq. unfold passes in Hpass. lia. }
  rewrite raise_for_status_passes by done.
  unfold exists_. cbn [fs]. fold destination. rewrite Hnotdir.
  assert (skip_existing d && (false || bool_decide (is_Some (fs w !! destination)))
          = false) as ->.
  { destruct Hskip as [-> | ->]; [done|]. cbn [orb].
    rewrite bool_decide_eq_false_2; [by rewrite andb_false_r|].
    by intros [? ?]. }
  rewrite Hlen. unfold progress_call at 1. unfold modify.
  cbn [fs requests clock log progress refused].
  rewrite (stream_and_close d resp destination _ chunks broken) by done.
  cbn [fs requests clock log progress refused].
  destruct broken as [e|]; unfold after_get; cbn [log];
    by rewrite <- !app_assoc.
Qed.

(** X9: a download that goes through, to a destination that Python and
    the operating system take as a path, writes the non-empty chunks of the
    body, in order, to the destination, tells the progress bar each of their
    sizes, and makes one request (here without a metadata collector). *)
Theorem download_writes_every_byte (d : DemoDownloader) (id : Z) (w : World)
    (resp : Response) (total : option Z) (chunks : list bytes) :
  let destination := destination_of d resp id in
  1 <= retries d ->
  metadata_collector d = None ->
  scraper_get (List.length (requests w)) (DEMO_URL_TEMPLATE id) (timeout d) true
    = Return resp ->
  passes resp ->
  (forall w0, _content_length resp w0 = (Return total, w0)) ->
  skip_existing d = false ∨ fs w !! destination = None ->
  path_error w destination = None ->
  is_dir (fs w) destination = false ->
  is_dir (fs w) (output_dir d) = true ->
  iter_content resp (chunk_size d) = (chunks, None) ->
  exists w',
    download_demo d id w =
      (Return (mk_result id "downloaded" [] (Some destination)), w')
    ∧ fs w' = <[destination := File (List.concat chunks)]> (fs w)
    ∧ requests w' = requests w ++ [DEMO_URL_TEMPLATE id]
    ∧ progress w' = progress w ++ [BarOpen total] ++ chunk_updates chunks
                    ++ [BarClose].
Proof.
  intros destination Hretries Hnone Hget Hpass Hlen Hskip Hpath Hnotdir Hout
    Hiter.
  assert (is_dir (fs w) (parent destination) = true) as Hparent.
  { unfold destination, destination_of.
    by rewrite (proj2 (proj2 (proj2 (FileNames.destination_facts
                                       (output_dir d) resp id)))). }
  eexists. split.
  - apply download_demo_first_attempt; [done|].
    rewrite (attempt_once_until_stream d id 1 _ w resp total chunks None)
      by done.
    rewrite Hnone. unfold mbind, M_bind, bind, logging, modify, ret.
    reflexivity.
  - done.
Qed.

(** X10: with skipping on, a demo whose file exists is Skipped after one
    request: the body is not read, the file system and the progress bar are
    untouched. *)
Theorem existing_file_is_skipped (d : DemoDownloader) (id : Z) (w : World)
    (resp : Response) :
  let destination := destination_of d resp id in
  1 <= retries d ->
  skip_existing d = true ->
  scraper_get (List.length (requests w)) (DEMO_URL_TEMPLATE id) (timeout d) true
    = Return resp ->
  passes resp ->
  is_Some (fs w !! destination) ->
  exists w',
    download_demo d id w =
      (Return (mk_result id "skipped" (u "File already exists")
                 (Some destination)), w')
    ∧ fs w' = fs w
    ∧ progress w' = progress w
    ∧ requests w' = requests w ++ [DEMO_URL_TEMPLATE id].
Proof.
  intros destination Hretries Hskip Hget Hpass Hsome.
  eexists. split.
  - apply download_demo_first_attempt; [done|].
    unfold attempt_once, mbind, M_bind, bind, logging, modify, GET.
    cbn [fs requests clock log progress refused]. rewrite Hget.
    assert ((status_code resp =? 404) = false) as ->.
    { apply Z.eqb_neq. unfold passes in Hpass. lia. }
    rewrite raise_for_status_passes by done.
    unfold exists_. cbn [fs]. fold (destination_of d resp id). fold destination.
    rewrite Hskip, (bool_decide_eq_true_2 _ Hsome), orb_true_r. cbn [andb].
    reflexivity.
  - done.
Qed.

(** X11: when the stream of the first attempt breaks, the part written (to
    a destination that Python and the operating system take as a path)
    stays on disk; with skipping on, the retry finds that file and the
    outcome is Skipped, the file holding only the chunks received. *)
Theorem broken_stream_then_retry_is_skipped (d : DemoDownloader) (id : Z)
    (w : World) (resp resp' : Response) (total : option Z)
    (chunks : list bytes) (e : exn) :
  let destination := destination_of d resp id in
  2 <= retries d ->
  skip_existing d = true ->
  scraper_get (List.length (requests w)) (DEMO_URL_TEMPLATE id) (timeout d) true
    = Return resp ->
  passes resp ->
  (forall w0, _content_length resp w0 = (Return total, w0)) ->
  fs w !! destination = None ->
  path_error w destination = None ->
  is_dir (fs w) destination = false ->
  is_dir (fs w) (output_dir d) = true ->
  iter_content resp (chunk_size d) = (chunks, Some e) ->
  is_RequestException e = true ->
  scraper_get (S (List.length (requests w))) (DEMO_URL_TEMPLATE id) (timeout d)
    true = Return resp' ->
  passes resp' ->
  destination_of d resp' id = destination ->
  exists w',
    download_demo d id w =
      (Return (mk_result id "skipped" (u "File already exists")
                 (Some destination)), w')
    ∧ fs w' = <[destination := File (List.concat chunks)]> (fs w)
    ∧ requests w' = requests w ++ [DEMO_URL_TEMPLATE id; DEMO_URL_TEMPLATE id].
Proof.
  intros destination Hretries Hskip Hget Hpass Hlen Hnone Hpath Hnotdir Hout
    Hiter Hreq Hget' Hpass' Hsame.
  assert (is_dir (fs w) (parent destination) = true) as Hparent.
  { unfold destination, destination_of.
    by rewrite (proj2 (proj2 (proj2 (FileNames.destination_facts
                                       (output_dir d) resp id)))). }
  unfold download_demo.
  destruct (Z.to_nat (retries d)) as [|[|n]] eqn:Hn; [lia..|].
  cbn [attempts]. unfold try_except at 1.
  rewrite (attempt_once_until_stream d id 1 _ w resp total chunks (Some e))
    by (done || by right).
  rewrite Hreq. unfold mbind, M_bind, bind, logging, modify.
  cbn [fs requests clock log progress refused].
  unfold try_except.
  unfold attempt_once, mbind, M_bind, bind, logging, modify, GET.
  cbn [fs requests clock log progress refused].
  rewrite length_app. cbn [List.length]. rewrite Nat.add_1_r, Hget'.
  assert ((status_code resp' =? 404) = false) as ->.
  { apply Z.eqb_neq. unfold passes in Hpass'. lia. }
  rewrite raise_for_status_passes by done.
  unfold exists_. cbn [fs]. fold (destination_of d resp' id). rewrite Hsame.
  rewrite Hskip, lookup_insert_eq.
  rewrite (bool_decide_eq_true_2 _ (mk_is_Some _ _ eq_refl)), orb_true_r.
  cbn [andb]. eexists. split_and!; [reflexivity|done|].
  cbn [requests]. by rewrite <- app_assoc.
Qed.

Lemma destination_not_dir (d : DemoDownloader) (resp : Response) (id : Z)
    (w : World) :
  fs w !! destination_of d resp id = None ->
  is_dir (fs w) (destination_of d resp id) = false.
Proof.
  intros Hnone. unfold destination_of in *.
  destruct (FileNames.destination_facts (output_dir d) resp id)
    as (Hslash & Hjoin & _).
  rewrite Hjoin in *. unfold is_dir, holds_dir. rewrite Hnone.
  destruct (output_dir d) as [|x [|y q]]; cbn [app]; [|done..].
  rewrite orb_false_r. unfold is_root.
  apply orb_false_intro; apply Document.str_eqb_neq; intros Heq;
    rewrite Heq in Hslash; discriminate Hslash.
Qed.

(** X22: a response whose file name holds U+0000 makes [download_demo]
    raise [ValueError]: the name is no path to Python, the error is no
    request error, so it is neither retried nor turned into a Failed
    outcome.  The progress bar has been opened and is closed; nothing is
    written. *)
Theorem nul_name_leaves_download_demo (d : DemoDownloader) (id : Z) (w : World)
    (resp : Response) (total : option Z) :
  let destination := destination_of d resp id in
  1 <= retries d ->
  scraper_get (List.length (requests w)) (DEMO_URL_TEMPLATE id) (timeout d) true
    = Return resp ->
  passes resp ->
  (forall w0, _content_length resp w0 = (Return total, w0)) ->
  has_nul destination = true ->
  fs w !! destination = None ->
  exists w',
    download_demo d id w = (Raise null_byte_error, w')
    ∧ fs w' = fs w
    ∧ requests w' = requests w ++ [DEMO_URL_TEMPLATE id]
    ∧ progress w' = progress w ++ [BarOpen total; BarClose].
Proof.
  intros destination Hretries Hget Hpass Hlen Hnul Hnone.
  pose proof (destination_not_dir d resp id w Hnone) as Hnotdir.
  unfold download_demo.
  destruct (Z.to_nat (retries d)) as [|n] eqn:Hn; [lia|].
  cbn [attempts]. unfold try_except.
  unfold attempt_once, mbind, M_bind, bind, logging, modify, GET.
  cbn [fs requests clock log progress refused]. rewrite Hget.
  assert ((status_code resp =? 404) = false) as ->.
  { apply Z.eqb_neq. unfold passes in Hpass. lia. }
  rewrite raise_for_status_passes by done.
  unfold exists_. cbn [fs]. fold (destination_of d resp id). fold destination.
  fold destination in Hnotdir. rewrite Hnotdir, Hnone.
  rewrite bool_decide_eq_false_2 by (by intros [? ?]).
  rewrite andb_false_r. rewrite Hlen.
  unfold progress_call at 1. unfold modify.
  cbn [fs requests clock log progress refused].
  unfold try_finally, stream_to_file, mbind, M_bind, bind, open_write, path_error.
  rewrite Hnul. unfold progress_call, modify.
  cbn [fs requests clock log progress refused is_RequestException
       null_byte_error exn_cls].
  eexists. split_and!; [reflexivity|done|done|].
  cbn [progress]. by rewrite <- app_assoc.
Qed.

Lemma attempt_once_demo_id (d : DemoDownloader) (id attempt : Z) (url_ : str)
    (w w' : World) (r : DownloadResult) :
  attempt_once d id url_ attempt w = (Return r, w') -> demo_id r = id.
Proof.
  unfold attempt_once, mbind, M_bind, bind, try_except, try_finally, ret.
  intros Hrun.
  repeat (case_match; try discriminate); by simplify_eq.
Qed.

Lemma attempts_demo_id (d : DemoDownloader) (id : Z) (url_ : str) (n : nat)
    (attempt : Z) (last_error : option exn) (w w' : World) (r : DownloadResult) :
  attempts d id url_ n attempt last_error w = (Return r, w') -> demo_id r = id.
Proof.
  revert attempt last_error w.
  induction n as [|n IH]; intros attempt last_error w; cbn [attempts].
  - unfold mbind, M_bind, bind, logging, modify, ret. by intros [= <- _].
  - unfold try_except.
    destruct (attempt_once d id url_ attempt w) as [[r0|e] w0] eqn:Hone.
    + intros [= <- _]. by eapply attempt_once_demo_id.
    + destruct (is_RequestException e); [|discriminate].
      unfold mbind, M_bind, bind, logging, modify. apply IH.
Qed.

(** X12: [download_many] gives one outcome per ID, in the order of the
    IDs. *)
Theorem download_many_one_outcome_per_id (d : DemoDownloader) (ids : list Z)
    (w w' : World) (results : list DownloadResult) :
  download_many d ids w = (Return results, w') ->
  demo_id <$> results = ids.
Proof.
  revert w w' results.
  induction ids as [|id ids IH]; intros w w' results; cbn [download_many].
  - by intros [= <- _].
  - unfold mbind, M_bind, bind.
    destruct (download_demo d id w) as [[r|e] w1] eqn:Hone; [|discriminate].
    destruct (download_many d ids w1) as [[rs|e] w2] eqn:Hrest; [|discriminate].
    intros [= <- _]. rewrite fmap_cons. f_equal.
    + unfold download_demo in Hone. exact (attempts_demo_id _ _ _ _ _ _ _ _ _ Hone).
    + exact (IH _ _ _ Hrest).
Qed.

End WithExternals.
End Transfers.

(** ** Recording metadata *)

Module Recording.
Import Metadata Downloader Cli Notions Notions2 Disposition Retry Document
  SearchFailure Transfers.

Section WithExternals.
Context `{Externals}.

(** X13: once the body has been written (to a destination that Python and
    the operating system take as a path), whatever [record_download] raises,
    short of a system exit, is logged as a warning, and the outcome stays
    Downloaded. *)
Theorem metadata_failure_keeps_outcome (d : DemoDownloader) (id : Z) (w : World)
    (resp : Response) (total : option Z) (chunks : list bytes)
    (collector : MetadataCollector) (o : outcome unit) (w2 : World) :
  let destination := destination_of d resp id in
  1 <= retries d ->
  metadata_collector d = Some collector ->
  scraper_get (List.length (requests w)) (DEMO_URL_TEMPLATE id) (timeout d) true
    = Return resp ->
  passes resp ->
  (forall w0, _content_length resp w0 = (Return total, w0)) ->
  skip_existing d = false ∨ fs w !! destination = None ->
  path_error w destination = None ->
  is_dir (fs w) destination = false ->
  is_dir (fs w) (output_dir d) = true ->
  iter_content resp (chunk_size d) = (chunks, None) ->
  record_download collector id destination (DEMO_URL_TEMPLATE id) resp
    (world_after_download d id resp total chunks w) = (o, w2) ->
  (forall exc, o = Raise exc -> is_Exception exc = true) ->
  download_demo d id w =
    (Return (mk_result id "downloaded" [] (Some destination)),
     with_log w2 (metadata_warning id o)).
Proof.
  intros destination Hretries Hsome Hget Hpass Hlen Hskip Hpath Hnotdir Hout
    Hiter Hrecord Hcaught.
  assert (is_dir (fs w) (parent destination) = true) as Hparent.
  { unfold destination, destination_of.
    by rewrite (proj2 (proj2 (proj2 (FileNames.destination_facts
                                       (output_dir d) resp id)))). }
  apply download_demo_first_attempt; [done|].
  rewrite (attempt_once_until_stream d id 1 _ w resp total chunks None) by done.
  rewrite Hsome. unfold mbind, M_bind, bind, logging at 1, modify.
  cbn [fs requests clock log progress refused].
  unfold try_except. fold destination.
  change ({| fs := <[destination:=File (List.concat chunks)]> (fs w);
             requests := requests w ++ [DEMO_URL_TEMPLATE id];
             clock := clock w;
             log := log (after_get id 1 (DEMO_URL_TEMPLATE id) w) ++
               [(INFO, u "Downloaded " ++ DEMO_URL_TEMPLATE id ++ u " -> "
                       ++ path_str destination)];
             progress := progress w ++ [BarOpen total] ++ chunk_updates chunks
                         ++ [BarClose];
             refused := refused w |})
    with (world_after_download d id resp total chunks w).
  rewrite Hrecord. destruct o as [[]|exc].
  - unfold ret, with_log, metadata_warning. rewrite app_nil_r. by destruct w2.
  - rewrite (Hcaught exc eq_refl). reflexivity.
Qed.

(** X14: a stored document that is valid JSON but not of the schema (not
    an object, or with a [demos] that is not one) makes the merge raise
    [AttributeError] or [TypeError]; nothing is written. *)
Theorem off_schema_document_is_left_alone (self : MetadataCollector) (id : Z)
    (entry : dict) (w : World) (raw : bytes) (doc : json) :
  fs w !! metadata_path self = Some (File raw) ->
  is_dir (fs w) (metadata_path self) = false ->
  json_load raw = Return doc ->
  off_schema doc ->
  exists exc,
    read_merge_write self id entry w = (Raise exc, w)
    ∧ (exn_cls exc = AttributeError ∨ exn_cls exc = TypeError)
    ∧ is_Exception exc = true.
Proof.
  intros Hfile Hnotdir Hload Hoff.
  assert (_load_metadata self w = (Return doc, w)) as Hdoc.
  { unfold _load_metadata, mbind, M_bind, bind, exists_.
    rewrite Hnotdir, Hfile. cbn.
    unfold try_except, bind, read_bytes, of_outcome. by rewrite Hfile, Hload. }
  unfold read_merge_write, mbind, M_bind, bind. rewrite Hdoc.
  unfold of_outcome, set_demo_entry, py_setdefault.
  destruct doc as [| | | | | |d0]; try (eexists; split_and!; [reflexivity|by left|done]).
  unfold off_schema in Hoff.
  destruct (dict_get (u "demos") d0) as [v|]; [|done].
  destruct v; try done;
    (eexists; split_and!; [reflexivity|by right|done]).
Qed.

(** X15: when the search page names a match but the match page cannot be
    fetched, the metadata still carries the match URL and ID, with no teams
    and no date; two requests are made. *)
Theorem missing_match_page_gives_partial_record (self : MetadataCollector)
    (id : Z) (w : World) (found : Response) (href : str) (page : outcome Response) :
  let match_url_ := urljoin _BASE_URL href in
  scraper_get (List.length (requests w)) (search_url id) (mc_timeout self) false
    = Return found ->
  passes found ->
  bs_select_one_attr (u ".result-con a[href]") (u "href") (text found)
    = Some (Some href) ->
  href <> [] ->
  scraper_get (S (List.length (requests w))) match_url_ (mc_timeout self) false
    = page ->
  match page with
  | Raise exc => is_RequestException exc = true
  | Return resp => 400 <= status_code resp < 600
  end ->
  exists w',
    _collect_match_metadata self id w =
      (Return (Some {| match_id := _parse_match_id match_url_;
                      match_url := Some match_url_;
                      teams := []; date := None |}), w')
    ∧ requests w' = requests w ++ [search_url id; match_url_]
    ∧ fs w' = fs w.
Proof.
  intros match_url_ Hsearch Hpass Hcard Hhref Hpage Hfails.
  unfold _collect_match_metadata, _locate_match_url, mbind, M_bind, bind, GET.
  fold (search_url id). rewrite Hsearch.
  rewrite raise_for_status_passes by done. rewrite Hcard.
  destruct href as [|c href]; [done|]. unfold ret at 1.
  unfold try_except, _fetch_match_page, mbind, M_bind, bind, GET.
  cbn [fs requests clock log progress refused]. fold match_url_.
  rewrite length_app. cbn [List.length]. rewrite Nat.add_1_r, Hpage.
  destruct page as [resp|exc].
  - rewrite raise_for_status_failure by done.
    cbn [is_RequestException exn_cls]. unfold logging, modify, ret.
    eexists. split_and!; [reflexivity| |done].
    cbn [requests]. by rewrite <- app_assoc.
  - rewrite Hfails. unfold logging, modify, ret.
    eexists. split_and!; [reflexivity| |done].
    cbn [requests]. by rewrite <- app_assoc.
Qed.

End WithExternals.
End Recording.

(** ** Reporting and arguments *)

Module Reporting.
Import Metadata Downloader Cli Notions Notions2 Disposition Retry Document.

Lemma count_status_cons (s : string) (r : DownloadResult)
    (results : list DownloadResult) :
  count_status s (r :: results) =
    (if decide (status r = u s) then 1 else 0) + count_status s results.
Proof.
  unfold count_status. rewrite filter_cons.
  case_decide; cbn [List.length]; lia.
Qed.

Section WithExternals.
Context `{Externals}.

Lemma summary_loop_counts (results : list DownloadResult) (total : Z)
    (counts : gmap str Z) (transferred : Z) (w : World) :
  Forall (fun r => status r <> u "downloaded") results ->
  exists counts' w' records,
    summary_loop results total counts transferred w =
      (Return (total + Z.of_nat (List.length results), counts', transferred), w')
    ∧ (forall s, count_of counts' s = count_of counts s + count_status s results)
    ∧ fs w' = fs w
    ∧ log w' = log w ++ records.
Proof.
  revert total counts w.
  induction results as [|r results IH]; intros total counts w Hall.
  - exists counts, w, []. cbn. rewrite Z.add_0_r, app_nil_r.
    split_and!; [done| |done..].
    intros s. unfold count_status. cbn. lia.
  - apply Forall_cons in Hall as [Hr Hall].
    cbn [summary_loop]. unfold mbind, M_bind, bind.
    rewrite (Document.str_eqb_neq _ _ Hr). unfold ret at 1.
    set (counts1 := <[status r := default 0 (counts !! status r) + 1]> counts).
    assert (exists w1 recs1,
      (if str_eqb (status r) (u "failed")
       then logging ERROR (u "Failed to download " ++ str_of_Z (demo_id r)
                           ++ u ": " ++ message r)
       else if str_eqb (status r) (u "not_found")
            then logging WARNING (u "Demo ID " ++ str_of_Z (demo_id r)
                                  ++ u " was not found")
            else ret tt) w = (Return tt, w1)
      ∧ fs w1 = fs w ∧ log w1 = log w ++ recs1) as (w1 & recs1 & -> & Hfs1 & Hlog1).
    { destruct (str_eqb (status r) (u "failed"));
        [|destruct (str_eqb (status r) (u "not_found"))].
      - eexists _, [_]. split_and!; reflexivity.
      - eexists _, [_]. split_and!; reflexivity.
      - exists w, []. by rewrite app_nil_r. }
    destruct (IH (total + 1) counts1 w1 Hall)
      as (counts' & w' & recs & -> & Hcounts & Hfs & Hlog).
    exists counts', w', (recs1 ++ recs). split_and!.
    + replace (total + Z.of_nat (List.length (r :: results)))
        with (total + 1 + Z.of_nat (List.length results))
        by (cbn [List.length]; lia).
      reflexivity.
    + intros s. rewrite Hcounts, count_status_cons. unfold count_of, counts1.
      destruct (decide (status r = u s)) as [->|Hne].
      * rewrite lookup_insert_eq. cbn. lia.
      * rewrite lookup_insert_ne by done. lia.
    + congruence.
    + rewrite Hlog, Hlog1. by rewrite app_assoc.
Qed.

Lemma count_status_none (s : string) (results : list DownloadResult) :
  Forall (fun r => status r <> u s) results -> count_status s results = 0.
Proof.
  intros Hall. unfold count_status.
  induction Hall as [|r results Hr _ IH]; [done|].
  rewrite filter_cons. by case_decide.
Qed.

(** X16: for outcomes none of which is Downloaded, the summary returns
    and its two closing records give the number of outcomes and of each
    kind, with [0 B] transferred. *)
Theorem summary_counts_outcomes (results : list DownloadResult) (elapsed : str)
    (w : World) :
  Forall (fun r => status r <> u "downloaded") results ->
  exists (w' : World) (per_result : list (level * str)),
    _print_summary results elapsed w = (Return tt, w')
    ∧ log w' = log w ++ per_result
               ++ summary_records (Z.of_nat (List.length results)) 0
                    (count_status "skipped" results)
                    (count_status "not_found" results)
                    (count_status "failed" results) (u "0 B") elapsed
    ∧ fs w' = fs w.
Proof.
  intros Hall.
  destruct (summary_loop_counts results 0 initial_counts 0 w Hall)
    as (counts' & w1 & recs & Hloop & Hcounts & Hfs & Hlog).
  unfold _print_summary, mbind, M_bind, bind. rewrite Hloop.
  unfold logging, modify. cbn [fs requests clock log progress refused].
  eexists _, recs. split_and!; [reflexivity| |done].
  cbn [log]. rewrite Hlog, !Hcounts, (count_status_none "downloaded") by done.
  unfold summary_records. cbn [Z.of_nat Z.add].
  rewrite <- !app_assoc. reflexivity.
Qed.

(** X17: with no ID from any source, the [download] command ends in a
    usage error (status 2) and leaves the world as it was. *)
Theorem no_ids_is_a_usage_error (args : Namespace) (w : World) :
  explicit_ids args = [] ->
  args_ids_file args = None ∨ args_ids_file args = Some [] ->
  args_start_id args = None ->
  args_end_id args = None ->
  exists exc,
    main_download args w = (Raise exc, w)
    ∧ exn_cls exc = UsageError
    ∧ exit_status (main_download args w).1 = 2.
Proof.
  intros Hids Hfiles Hstart Hend.
  assert (_collect_demo_ids args w = (Return [], w)) as Hcollect.
  { unfold _collect_demo_ids, ids_from_files, mbind, M_bind, bind.
    rewrite Hids, Hstart, Hend. by destruct Hfiles as [-> | ->]. }
  unfold main_download, mbind, M_bind, bind. rewrite Hcollect.
  eexists. split_and!; reflexivity.
Qed.

(** X18: a range given by one bound only is rejected before anything is
    downloaded; the command ends with status 1. *)
Theorem half_range_is_rejected (args : Namespace) (w w1 : World)
    (from_files : list Z) :
  ids_from_files args w = (Return from_files, w1) ->
  (is_Some (args_start_id args) ∧ args_end_id args = None)
  ∨ (args_start_id args = None ∧ is_Some (args_end_id args)) ->
  _collect_demo_ids args w =
    (Raise (Exn SystemExit
              (u "--start-id and --end-id must be provided together")), w1)
  ∧ (main_download args w).2 = w1
  ∧ exit_status (main_download args w).1 = 1.
Proof.
  intros Hfiles Hhalf.
  assert (_collect_demo_ids args w =
    (Raise (Exn SystemExit
              (u "--start-id and --end-id must be provided together")), w1))
    as Hraise.
  { unfold _collect_demo_ids, mbind, M_bind, bind. rewrite Hfiles.
    destruct Hhalf as [[[a ->] ->]|[-> [b ->]]]; reflexivity. }
  unfold main_download, mbind, M_bind, bind. by rewrite Hraise.
Qed.

Lemma load_lines_bad (file_path_ : path) (line_number : Z)
    (good : list str) (ids : list Z) (bad : str) (rest : list str) (exc : exn)
    (w : World) :
  Forall2 (fun line id => py_int (strip line) = Return id)
    (filter (fun line => is_skipped_line line = false) good) ids ->
  is_skipped_line bad = false ->
  py_int (strip bad) = Raise exc ->
  is_ValueError exc = true ->
  load_lines file_path_ line_number (good ++ bad :: rest) w =
    (Raise (invalid_id_error file_path_
              (line_number + Z.of_nat (List.length good)) bad exc), w).
Proof.
  intros Hgood Hbad Hint Hvalue. revert line_number ids Hgood.
  induction good as [|line good IH]; intros line_number ids Hgood.
  - cbn [app load_lines List.length Z.of_nat]. rewrite Z.add_0_r.
    unfold is_skipped_line in Hbad. rewrite Hbad, Hint, Hvalue. reflexivity.
  - cbn [app load_lines]. fold (is_skipped_line line).
    replace (line_number + Z.of_nat (List.length (line :: good)))
      with (line_number + 1 + Z.of_nat (List.length good))
      by (cbn [List.length]; lia).
    rewrite filter_cons in Hgood.
    destruct (is_skipped_line line) eqn:Hskip.
    + rewrite decide_False in Hgood by done. by apply (IH _ ids).
    + rewrite decide_True in Hgood by done.
      apply Forall2_cons_inv_l in Hgood as (id & ids' & Hid & Hrest & ->).
      rewrite Hid. unfold mbind, M_bind, bind.
      by rewrite (IH _ ids').
Qed.

(** X19: in an ID file that is read after files that load, the first line
    that is neither blank, nor a comment, nor an integer ends the loading
    with an error that names the stripped text, the file and the number of
    the line, counted from 1 over all the lines of the file. *)
Theorem bad_line_names_file_and_line
    (earlier : list path) (idss : list (list Z)) (file_path_ : path)
    (later : list path) (raw : bytes) (good : list str) (ids : list Z)
    (bad : str) (rest : list str) (broken : option exn) (exc : exn)
    (w : World) :
  Forall2 (file_holds w) earlier idss ->
  fs w !! file_path_ = Some (File raw) ->
  text_lines raw = (good ++ bad :: rest, broken) ->
  Forall2 (fun line id => py_int (strip line) = Return id)
    (filter (fun line => is_skipped_line line = false) good) ids ->
  is_skipped_line bad = false ->
  py_int (strip bad) = Raise exc ->
  is_ValueError exc = true ->
  _load_ids_from_files (earlier ++ file_path_ :: later) w =
    (Raise (invalid_id_error file_path_ (1 + Z.of_nat (List.length good))
              bad exc), w).
Proof.
  intros Hearlier Hfile Hlines Hgood Hbad Hint Hvalue.
  induction Hearlier as [|file ids0 earlier idss
                           [raw0 lines0 Hfile0 Hlines0 Hids0] _ IH].
  - cbn [app _load_ids_from_files].
    unfold mbind, M_bind, bind, read_bytes. rewrite Hfile, Hlines.
    by rewrite (load_lines_bad file_path_ 1 good ids bad rest exc).
  - cbn [app _load_ids_from_files].
    unfold mbind, M_bind, bind, read_bytes. rewrite Hfile0, Hlines0.
    rewrite (Batch.load_lines_ids _ _ _ _ _ Hids0). cbn.
    unfold mbind, M_bind, bind in IH. by rewrite IH.
Qed.

End WithExternals.
End Reporting.

(** ** ID files *)

Module IdFiles.
Import Metadata Downloader Cli Notions Notions2 Document.

Lemma utf8_encode_ascii (s : str) :
  Forall (fun c => (c < 128)%N) s -> utf8_encode s = Some (byte_of <$> s).
Proof.
  induction 1 as [|c s Hc _ IH]; [done|].
  cbn [utf8_encode]. rewrite IH. unfold encode_cp.
  destruct (N.ltb_spec c 128); [done|lia].
Qed.

Lemma id_line_ascii (id : Z) : Forall (fun c => (c < 128)%N) (str_of_Z id ++ [10%N]).
Proof.
  apply Forall_app. split.
  - eapply Forall_impl; [apply FileNames.str_of_Z_decimal|].
    intros c [->|Hc]; lia.
  - by repeat constructor.
Qed.

Lemma write_id_lines (destination : path) (ids : list Z) (w : World)
    (content : bytes) :
  fs w !! destination = Some (File content) ->
  for_each (fun id => write_text destination (str_of_Z id ++ [10%N])) ids w =
    (Return tt,
     set_fs (<[destination :=
                 File (content ++ List.concat
                         ((fun id => byte_of <$> (str_of_Z id ++ [10%N])) <$> ids))]>
               (fs w)) w).
Proof.
  revert w content. induction ids as [|id ids IH]; intros w content Hfile.
  - cbn. rewrite app_nil_r, insert_id by done. by destruct w.
  - cbn [for_each]. unfold bind, write_text.
    rewrite utf8_encode_ascii by apply id_line_ascii.
    unfold write_bytes. rewrite Hfile.
    rewrite (IH _ (content ++ (byte_of <$> (str_of_Z id ++ [10%N]))))
      by (cbn [fs set_fs]; apply lookup_insert_eq).
    unfold set_fs. cbn [fs requests clock log progress refused].
    rewrite insert_insert_eq, fmap_cons. cbn [List.concat].
    by rewrite <- app_assoc.
Qed.

Lemma length_py_range (a b : Z) : List.length (py_range a b) = Z.to_nat (b - a).
Proof. unfold py_range. by rewrite length_map, length_seq. Qed.

(** X20: for [start_id <= end_id] and a destination in a directory that
    is there, [write_demo_id_file] writes one line per ID of the inclusive
    range, in order, logs the count, and returns the destination; a
    destination that Python or the operating system does not take as a path
    raises that error, and nothing is written. *)
Theorem write_demo_id_file_writes_the_range (start_id end_id : Z)
    (destination : path) (w : World) :
  start_id <= end_id ->
  is_dir (fs w) destination = false ->
  is_dir (fs w) (parent destination) = true ->
  match path_error w destination with
  | Some e =>
      write_demo_id_file start_id end_id destination w = (Raise e, w)
  | None =>
      exists w',
        write_demo_id_file start_id end_id destination w
          = (Return destination, w')
        ∧ fs w' = <[destination := File (id_file_bytes start_id end_id)]> (fs w)
        ∧ log w' =
            log w ++ [(INFO,
                       u "Wrote " ++ str_of_Z (end_id - start_id + 1)
                       ++ u " demo IDs (" ++ str_of_Z start_id ++ u "-"
                       ++ str_of_Z end_id ++ u ") to " ++ path_str destination)]
        ∧ (forall id,
             id ∈ py_range start_id (end_id + 1) <-> start_id <= id <= end_id)
        ∧ Z.of_nat (List.length (py_range start_id (end_id + 1)))
          = end_id - start_id + 1
  end.
Proof.
  intros Hle Hnotdir Hparent.
  unfold write_demo_id_file.
  destruct (Z.ltb_spec end_id start_id); [lia|].
  unfold mbind, M_bind, bind.
  destruct (path_error w destination) as [e|] eqn:Hpath.
  - unfold mkdir_parents.
    destruct (has_nul (parent destination)) eqn:Hnul.
    + unfold path_error in Hpath.
      destruct (has_nul destination) eqn:Hdest.
      * by injection Hpath as <-.
      * apply has_nul_parent in Hdest. congruence.
    + rewrite Hparent. unfold open_write. by rewrite Hpath.
  - rewrite mkdir_parents_existing;
      [|by apply has_nul_parent, (path_error_None w)|done].
    rewrite open_write_ok by done.
    rewrite (write_id_lines destination _ _ [])
      by (cbn [fs set_fs]; apply lookup_insert_eq).
    unfold set_fs, logging, modify, ret.
    cbn [fs requests clock log progress refused app].
    eexists. split_and!; [reflexivity| |reflexivity| |].
    + cbn [fs]. by rewrite insert_insert_eq.
    + intros id. rewrite IdSet.elem_of_py_range. lia.
    + rewrite length_py_range. lia.
Qed.

End IdFiles.

(** ** The further properties on the scripted runs *)

Module Runs2.
Import Metadata Downloader Cli Notions Notions2 Scenario Scenario2.
Import FileNames MoreIds MatchPages Transfers Recording Reporting IdFiles.

Lemma unique_demo_ids_keeps_distinct_ids_witness :
  unique_demo_ids [5; 3; 4] = [5; 3; 4].
Proof.
  apply (unique_demo_ids_keeps_distinct_ids [5; 3; 4]).
  apply (bool_decide_unpack _). vm_compute. reflexivity.
Defined.

Lemma parse_match_id_ignores_query_witness :
  _parse_match_id (u "https://www.hltv.org/matches/2370931/alpha-vs-beta"
                   ++ [63%N] ++ u "ref=demo")
  = _parse_match_id (u "https://www.hltv.org/matches/2370931/alpha-vs-beta").
Proof.
  apply (parse_match_id_ignores_query
           (u "https://www.hltv.org/matches/2370931/alpha-vs-beta")
           (u "ref=demo")).
  vm_compute. reflexivity.
Defined.

Lemma parse_match_id_after_matches_witness :
  _parse_match_id
    (PyStr.join [SLASH] (url_before ++ u "matches" :: url_id :: url_after))
  = Some url_id.
Proof.
  apply (parse_match_id_after_matches url_before url_id url_after).
  - repeat constructor.
  - apply (bool_decide_unpack _). vm_compute. reflexivity.
  - discriminate.
Defined.

Lemma parameter_keys_ignore_case_witness :
  parse_parameters ((u "FileName" ++ [61%N] ++ u "a.rar") :: [u "size=3"])
  = parse_parameters ((u "filename" ++ [61%N] ++ u "a.rar") :: [u "size=3"]).
Proof.
  apply (parameter_keys_ignore_case (u "FileName") (u "filename") (u "a.rar")
           [u "size=3"]); vm_compute; reflexivity.
Defined.

Lemma download_writes_every_byte_witness :
  exists w',
    @download_demo demo_then_failing_search plain_downloader 12345 ready_world =
      (Return (mk_result 12345 "downloaded" [] (Some match_rar)), w')
    ∧ fs w' = <[match_rar := File (List.concat five_bytes)]> (fs ready_world)
    ∧ requests w' = requests ready_world ++ [DEMO_URL_TEMPLATE 12345]
    ∧ progress w' = progress ready_world ++ [BarOpen None]
                    ++ chunk_updates five_bytes ++ [BarClose].
Proof.
  apply (@download_writes_every_byte demo_then_failing_search plain_downloader
           12345 ready_world demo_response None five_bytes).
  - cbn. lia.
  - reflexivity.
  - reflexivity.
  - left. cbn. lia.
  - intros w0. reflexivity.
  - right. vm_compute. reflexivity.
  - reflexivity.
  - vm_compute. reflexivity.
  - vm_compute. reflexivity.
  - reflexivity.
Defined.

(** The header [attachment; filename*=UTF-8''a%00b.rar]. *)
Lemma nul_name_leaves_download_demo_witness :
  exists w',
    @download_demo names_with_nul plain_downloader 12345 ready_world
      = (Raise null_byte_error, w')
    ∧ fs w' = fs ready_world
    ∧ requests w' = requests ready_world ++ [DEMO_URL_TEMPLATE 12345]
    ∧ progress w' = progress ready_world ++ [BarOpen None; BarClose].
Proof.
  apply (@nul_name_leaves_download_demo names_with_nul plain_downloader 12345
           ready_world nul_name_response None).
  - cbn. lia.
  - reflexivity.
  - left. cbn. lia.
  - intros w0. reflexivity.
  - vm_compute. reflexivity.
  - vm_compute. reflexivity.
Defined.

(** The name derived from that header. *)
Example nul_name_destination :
  destination_of plain_downloader nul_name_response 12345
    = [u "demos"; u "12345_a" ++ [0%N] ++ u "b.rar"].
Proof. vm_compute. reflexivity. Qed.

(** A name the file system turns down: the error of the operating system
    leaves [download_demo] in the same way. *)
Example long_name_raises_os_error :
  exists w',
    @download_demo names_too_long overwriting_downloader 12345 name_max_world
      = (Raise (name_too_long [u "demos"; u "12345_" ++ long_name]), w')
    ∧ fs w' = fs name_max_world.
Proof. eexists. split; vm_compute; reflexivity. Qed.

Lemma existing_file_is_skipped_witness :
  exists w',
    @download_demo archived_then_unknown the_downloader 12345 archived_world =
      (Return (mk_result 12345 "skipped" (u "File already exists")
                 (Some match_rar)), w')
    ∧ fs w' = fs archived_world
    ∧ progress w' = progress archived_world
    ∧ requests w' = requests archived_world ++ [DEMO_URL_TEMPLATE 12345].
Proof.
  apply (@existing_file_is_skipped archived_then_unknown the_downloader 12345
           archived_world demo_response).
  - cbn. lia.
  - reflexivity.
  - reflexivity.
  - left. cbn. lia.
  - apply (bool_decide_unpack _). vm_compute. reflexivity.
Defined.

Lemma broken_stream_then_retry_is_skipped_witness :
  exists w',
    @download_demo always_broken the_downloader 12345 ready_world =
      (Return (mk_result 12345 "skipped" (u "File already exists")
                 (Some match_rar)), w')
    ∧ fs w' = <[match_rar := File [Byte.x61; Byte.x62]]> (fs ready_world)
    ∧ requests w' = requests ready_world
                    ++ [DEMO_URL_TEMPLATE 12345; DEMO_URL_TEMPLATE 12345].
Proof.
  apply (@broken_stream_then_retry_is_skipped always_broken the_downloader 12345
           ready_world broken_response broken_response None
           [[Byte.x61; Byte.x62]] connection_reset).
  - cbn. lia.
  - reflexivity.
  - reflexivity.
  - left. cbn. lia.
  - intros w0. reflexivity.
  - vm_compute. reflexivity.
  - reflexivity.
  - vm_compute. reflexivity.
  - vm_compute. reflexivity.
  - reflexivity.
  - reflexivity.
  - reflexivity.
  - left. cbn. lia.
  - reflexivity.
Defined.

Lemma download_many_one_outcome_per_id_witness :
  demo_id <$> skipped_and_not_found = [12345; 99999999].
Proof.
  apply (@download_many_one_outcome_per_id archived_then_unknown the_downloader
           [12345; 99999999] archived_world
           (@download_many archived_then_unknown the_downloader
              [12345; 99999999] archived_world).2).
  vm_compute. reflexivity.
Defined.

(** The metadata file holds a JSON list: the download is recorded as
    Downloaded, and the log ends with the warning. *)
Lemma metadata_failure_keeps_outcome_witness :
  @download_demo reads_a_list the_downloader 12345 list_document_world =
    (Return (mk_result 12345 "downloaded" [] (Some match_rar)),
     with_log
       (@record_download reads_a_list the_collector 12345 match_rar
          (DEMO_URL_TEMPLATE 12345) demo_response
          (world_after_download the_downloader 12345 demo_response None five_bytes
             list_document_world)).2
       [(WARNING,
         u "Failed to record metadata for demo 12345: 'list' object has no attribute 'setdefault'")]).
Proof.
  apply (@metadata_failure_keeps_outcome reads_a_list the_downloader 12345
           list_document_world demo_response None five_bytes the_collector
           (Raise (attribute_error (JList []) "setdefault"))).
  - cbn. lia.
  - reflexivity.
  - reflexivity.
  - left. cbn. lia.
  - intros w0. reflexivity.
  - right. vm_compute. reflexivity.
  - reflexivity.
  - vm_compute. reflexivity.
  - vm_compute. reflexivity.
  - reflexivity.
  - vm_compute. reflexivity.
  - intros exc [= <-]. reflexivity.
Defined.

(** A metadata file of the two bytes [ff fe]. *)
Lemma unreadable_document_aborts_witness :
  @read_merge_write unreachable the_collector 2 entry_2 garbled_world
    = (Raise cannot_decode, garbled_world).
Proof.
  apply (@Document.unreadable_document_aborts unreachable the_collector 2 entry_2
           garbled_world [Byte.xff; Byte.xfe] cannot_decode).
  - vm_compute. reflexivity.
  - vm_compute. reflexivity.
  - reflexivity.
Defined.

Lemma off_schema_document_is_left_alone_witness :
  exists exc,
    @read_merge_write reads_a_list the_collector 2 entry_2 list_document_world
      = (Raise exc, list_document_world)
    ∧ (exn_cls exc = AttributeError ∨ exn_cls exc = TypeError)
    ∧ is_Exception exc = true.
Proof.
  apply (@off_schema_document_is_left_alone reads_a_list the_collector 2 entry_2
           list_document_world list_file (JList [])).
  - vm_compute. reflexivity.
  - vm_compute. reflexivity.
  - reflexivity.
  - exact I.
Defined.

Lemma missing_match_page_gives_partial_record_witness :
  exists w',
    @_collect_match_metadata card_without_page the_collector 12345 ready_world =
      (Return (Some {| match_id := Some (u "2370931");
                      match_url :=
                        Some (u "https://www.hltv.org/matches/2370931/alpha-vs-beta");
                      teams := []; date := None |}), w')
    ∧ requests w' = requests ready_world
                    ++ [search_url 12345;
                        u "https://www.hltv.org/matches/2370931/alpha-vs-beta"]
    ∧ fs w' = fs ready_world.
Proof.
  apply (@missing_match_page_gives_partial_record card_without_page the_collector
           12345 ready_world search_page card_href
           (Return search_failure_response)).
  - reflexivity.
  - left. cbn. lia.
  - reflexivity.
  - discriminate.
  - reflexivity.
  - cbn. lia.
Defined.

Lemma summary_counts_outcomes_witness :
  exists (w' : World) (per_result : list (level * str)),
    @_print_summary all_not_found skipped_and_not_found (u "0:00:00") ready_world
      = (Return tt, w')
    ∧ log w' = log ready_world ++ per_result
               ++ summary_records 2 0 1 1 0 (u "0 B") (u "0:00:00")
    ∧ fs w' = fs ready_world.
Proof.
  apply (@summary_counts_outcomes all_not_found skipped_and_not_found
           (u "0:00:00") ready_world).
  repeat constructor; discriminate.
Defined.

Lemma no_ids_is_a_usage_error_witness :
  exists exc,
    @main_download all_not_found (download_args [] None) empty_world
      = (Raise exc, empty_world)
    ∧ exn_cls exc = UsageError
    ∧ exit_status
        (@main_download all_not_found (download_args [] None) empty_world).1 = 2.
Proof.
  apply (@no_ids_is_a_usage_error all_not_found (download_args [] None)
           empty_world); try reflexivity.
  by left.
Defined.

Lemma half_range_is_rejected_witness :
  @_collect_demo_ids all_not_found half_range_args world_with_ids_file =
    (Raise (Exn SystemExit
              (u "--start-id and --end-id must be provided together")),
     world_with_ids_file)
  ∧ (@main_download all_not_found half_range_args world_with_ids_file).2
    = world_with_ids_file
  ∧ exit_status
      (@main_download all_not_found half_range_args world_with_ids_file).1 = 1.
Proof.
  apply (@half_range_is_rejected all_not_found half_range_args
           world_with_ids_file world_with_ids_file [3; 7]).
  - vm_compute. reflexivity.
  - left. split; [by exists 3|reflexivity].
Defined.

(** An ID file that is not there ends the collection of the IDs before
    the range is looked at. *)
Example missing_ids_file_raises :
  @_collect_demo_ids all_not_found missing_file_args empty_world
    = (Raise (os_error "[Errno 2] No such file or directory" [u "missing.txt"]),
       empty_world).
Proof. vm_compute. reflexivity. Qed.

(** [--ids-file ids.txt --ids-file bad_ids.txt]: the first file loads, the
    second ends the loading at its fourth line. *)
Lemma bad_line_names_file_and_line_witness :
  @_load_ids_from_files all_not_found ([ids_txt] ++ bad_ids_txt :: [])
    world_with_bad_ids_file =
    (Raise (Exn SystemExit
              (u "Invalid demo ID '12x' in bad_ids.txt on line 4: invalid literal for int() with base 10: '12x'")),
     world_with_bad_ids_file).
Proof.
  apply (@bad_line_names_file_and_line all_not_found [ids_txt] [[3; 7]]
           bad_ids_txt [] (byte_of <$> List.concat bad_ids_lines)
           [u "# wanted demos" ++ [10%N]; u "   " ++ [10%N]; u "7" ++ [10%N]]
           [7] (u " 12x " ++ [10%N]) [u "9" ++ [10%N]] None
           (not_an_int (u "12x")) world_with_bad_ids_file).
  - constructor; [|constructor].
    apply (@holds_ids all_not_found world_with_bad_ids_file ids_txt [3; 7]
             ids_txt_bytes
             [u "3" ++ [10%N]; u "# seen" ++ [10%N]; [10%N]; u " 7 " ++ [10%N]]).
    + vm_compute. reflexivity.
    + vm_compute. reflexivity.
    + vm_compute. repeat constructor.
  - vm_compute. reflexivity.
  - vm_compute. reflexivity.
  - vm_compute. repeat constructor.
  - vm_compute. reflexivity.
  - vm_compute. reflexivity.
  - reflexivity.
Defined.

Lemma write_demo_id_file_writes_the_range_witness :
  exists w',
    write_demo_id_file 3 5 [u "out.txt"] ready_world
      = (Return [u "out.txt"], w')
    ∧ fs w' = <[[u "out.txt"] := File (id_file_bytes 3 5)]> (fs ready_world)
    ∧ log w' = log ready_world
               ++ [(INFO, u "Wrote " ++ str_of_Z (5 - 3 + 1) ++ u " demo IDs ("
                          ++ str_of_Z 3 ++ u "-" ++ str_of_Z 5 ++ u ") to "
                          ++ path_str [u "out.txt"])]
    ∧ (forall id, id ∈ py_range 3 (5 + 1) <-> 3 <= id <= 5)
    ∧ Z.of_nat (List.length (py_range 3 (5 + 1))) = 5 - 3 + 1.
Proof.
  apply (write_demo_id_file_writes_the_range 3 5 [u "out.txt"] ready_world).
  - lia.
  - vm_compute. reflexivity.
  - vm_compute. reflexivity.
Defined.

(** A destination with U+0000 in its name: [ValueError], nothing written. *)
Example write_demo_id_file_refuses_nul :
  write_demo_id_file 3 5 [u "out" ++ [0%N] ++ u ".txt"] ready_world
    = (Raise null_byte_error, ready_world).
Proof. vm_compute. reflexivity. Qed.

End Runs2.
